(** * PDF risk analyzer: a shallow embedding of the analysis engine

    The development follows the two Python modules of the repository:

    - [document_analyzer_simple.py] (class [SimpleDocumentAnalyzer]), the
      text-only, sub-score based analysis, embedded in [Module Simple];
    - [document_analyzer.py] (class [MultimodalDocumentAnalyzer]), the
      combined text + visual analysis, embedded in [Module Multimodal].

    Conventions of the embedding.

    - A Python [str] is a [string] that holds its UTF-8 encoding.  An
      ASCII character is one element of the string, so on ASCII text the
      positions and lengths are those of Python and every definition is
      exact; [Py.is_ascii] says that a text is ASCII.  Outside ASCII, a
      literal and a case-insensitive literal of a pattern match what they
      match in Python (the four letters outside ASCII that
      [re.IGNORECASE] equates with an ASCII letter are known to
      [Re.one_ci]); case mapping, whitespace, the classes [\d], [\s] and
      [\w] and the lengths are modelled on the ASCII range and read the
      other characters as bytes that belong to no class.
    - A Python [int] is a [Z].  A Python or NumPy [float] is a real number
      ([R]); the one place where NumPy produces a NaN (the mean of an empty
      array) is tracked explicitly with [option R].
    - A Python [dict] used as a record whose keys may be missing is a
      [Record] with [option] fields, [d.get(k, v)] is [default v (k d)];
      the keyword -> count dictionary is a [gmap string Z].
    - An exception is a value [Raise e] of the [result] type, where [e] is
      the text of the exception; [try ... except Exception] is a [match].
    - The external collaborators (PyPDF2, pdf2image, OpenCV, the clock) are
      represented by what they return for the document at hand. *)

From Stdlib Require Import Reals Lra Lia ZArith String Ascii List Bool.
From stdpp Require Import gmap strings list.

Local Open Scope string_scope.
Local Open Scope list_scope.

(** ** Python strings *)

Module Py.

Definition nl : string := String "010"%char "".

(** The character code lies in [lo, hi]. *)
Definition between (lo hi : nat) (c : ascii) : bool :=
  Nat.leb lo (nat_of_ascii c) && Nat.leb (nat_of_ascii c) hi.

Definition is_upper (c : ascii) : bool := between 65 90 c.
Definition is_lower (c : ascii) : bool := between 97 122 c.
Definition is_digit (c : ascii) : bool := between 48 57 c.
Definition is_alpha (c : ascii) : bool := is_upper c || is_lower c.

(** [str.isspace] on the ASCII range: tab, line feed, vertical tab, form
    feed, carriage return, the four separators 28..31 and the space. *)
Definition is_space (c : ascii) : bool :=
  between 9 13 c || between 28 31 c || between 32 32 c.

(** [\w] of the [re] module on the ASCII range. *)
Definition is_word (c : ascii) : bool :=
  is_alpha c || is_digit c || between 95 95 c.

Definition lower_char (c : ascii) : ascii :=
  if is_upper c then ascii_of_nat (nat_of_ascii c + 32) else c.

(** [s.lower()] *)
Fixpoint lower (s : string) : string :=
  match s with
  | EmptyString => EmptyString
  | String c s' => String (lower_char c) (lower s')
  end.

(** [s.isascii()] *)
Fixpoint is_ascii (s : string) : bool :=
  match s with
  | EmptyString => true
  | String c s' => Nat.ltb (nat_of_ascii c) 128 && is_ascii s'
  end.

(** [s.startswith(p)] *)
Fixpoint startswith (p s : string) : bool :=
  match p, s with
  | EmptyString, _ => true
  | String a p', String b s' => Ascii.eqb a b && startswith p' s'
  | String _ _, EmptyString => false
  end.

(** [s.endswith(suf)] *)
Fixpoint endswith (suf s : string) : bool :=
  String.eqb suf s ||
  match s with
  | EmptyString => false
  | String _ s' => endswith suf s'
  end.

(** [sub in s] *)
Fixpoint contains (sub s : string) : bool :=
  startswith sub s ||
  match s with
  | EmptyString => false
  | String _ s' => contains sub s'
  end.

(** [s.count(sub)]: occurrences of [sub] counted from the left without
    overlap; [skip] is the number of characters of the last occurrence that
    are still to be passed. *)
Fixpoint count_from (sub s : string) (skip : nat) : nat :=
  match s with
  | EmptyString => 0
  | String _ s' =>
      match skip with
      | S k => count_from sub s' k
      | O => if startswith sub s
             then S (count_from sub s' (String.length sub - 1))
             else count_from sub s' 0
      end
  end.

Definition count (sub s : string) : Z :=
  match sub with
  | EmptyString => Z.of_nat (S (String.length s))
  | _ => Z.of_nat (count_from sub s 0)
  end.

(** [len(s)] *)
Definition len (s : string) : Z := Z.of_nat (String.length s).

(** A slice bound as Python normalises it: a negative bound counts from the
    end, and the result is cut to [0, len]. *)
Definition norm_index (n : Z) (i : Z) : nat :=
  Z.to_nat (Z.min n (Z.max 0 (if (i <? 0)%Z then i + n else i)%Z)).

(** [s[i:j]] *)
Definition slice (s : string) (i j : Z) : string :=
  let a := norm_index (len s) i in
  let b := norm_index (len s) j in
  substring a (b - a) s.

(** [s[:j]] *)
Definition slice_to (s : string) (j : Z) : string := slice s 0 j.

Fixpoint lstrip (s : string) : string :=
  match s with
  | EmptyString => EmptyString
  | String c s' => if is_space c then lstrip s' else s
  end.

Fixpoint rstrip (s : string) : string :=
  match s with
  | EmptyString => EmptyString
  | String c s' =>
      match rstrip s' with
      | EmptyString => if is_space c then EmptyString else String c EmptyString
      | r => String c r
      end
  end.

(** [s.strip()] *)
Definition strip (s : string) : string := rstrip (lstrip s).

(** [s.split(sep)] for a separator that is not empty; [cur] holds the
    characters of the piece being read, last one first. *)
Fixpoint split_from (sep s : string) (skip : nat) (cur : list ascii) : list string :=
  match s with
  | EmptyString => [string_of_list_ascii (rev cur)]
  | String c s' =>
      match skip with
      | S k => split_from sep s' k cur
      | O => if startswith sep s
             then string_of_list_ascii (rev cur)
                    :: split_from sep s' (String.length sep - 1) []
             else split_from sep s' 0 (c :: cur)
      end
  end.

Definition split (sep s : string) : list string := split_from sep s 0 [].

(** [len(s.split())]: the number of maximal runs of characters that are
    not whitespace; [inw] tells whether the previous character was one. *)
Fixpoint count_words (s : string) (inw : bool) : nat :=
  match s with
  | EmptyString => 0
  | String c s' =>
      if is_space c then count_words s' false
      else if inw then count_words s' true
      else S (count_words s' true)
  end.

(** [sep.join(l)] *)
Fixpoint join (sep : string) (l : list string) : string :=
  match l with
  | [] => ""
  | [x] => x
  | x :: l' => x +:+ sep +:+ join sep l'
  end.

(** [l[i:j]] on a list, for bounds that are not negative. *)
Definition lslice {A} (l : list A) (i j : Z) : list A :=
  firstn (Z.to_nat j - Z.to_nat i) (skipn (Z.to_nat i) l).

(** [str(n)] for an integer. *)
Fixpoint digits_from (fuel n : nat) (acc : string) : string :=
  match fuel with
  | O => acc
  | S f =>
      let acc' := String (ascii_of_nat (48 + n mod 10)) acc in
      if Nat.eqb (n / 10) 0 then acc' else digits_from f (n / 10) acc'
  end.

Definition str_of_nat (n : nat) : string := digits_from (S n) n "".

Definition str_of_Z (z : Z) : string :=
  if (z <? 0)%Z then "-" +:+ str_of_nat (Z.to_nat (- z)) else str_of_nat (Z.to_nat z).

(** Truth value of a string: empty is false. *)
Definition truthy (s : string) : bool :=
  match s with EmptyString => false | _ => true end.

(** Exceptions as values. *)
Inductive result (A : Type) : Type :=
  | Ok (a : A)
  | Raise (e : string).
Arguments Ok {A} a.
Arguments Raise {A} e.

Definition bind {A B} (r : result A) (k : A -> result B) : result B :=
  match r with
  | Ok a => k a
  | Raise e => Raise e
  end.

End Py.

(** ** The regular expressions of the [re] module that the analyzers use *)

Module Re.

Inductive regex : Type :=
  | Chr (p : ascii -> bool)
  | Eps
  | Seq (r1 r2 : regex)
  | Alt (r1 r2 : regex)
  | Star (r : regex)
  | WordB.

Definition Plus (r : regex) : regex := Seq r (Star r).
Definition Opt (r : regex) : regex := Alt r Eps.

(** [r{n}] and [r{n,n+k}], greedy. *)
Fixpoint Times (n : nat) (r : regex) : regex :=
  match n with
  | O => Eps
  | S n' => Seq r (Times n' r)
  end.

Fixpoint UpTo (k : nat) (r : regex) : regex :=
  match k with
  | O => Eps
  | S k' => Opt (Seq r (UpTo k' r))
  end.

Definition Rep (n m : nat) (r : regex) : regex := Seq (Times n r) (UpTo (m - n) r).

Definition one (c : ascii) : regex := Chr (Ascii.eqb c).

(** A literal word, read as written. *)
Fixpoint lit (s : string) : regex :=
  match s with
  | EmptyString => Eps
  | String c s' => Seq (one c) (lit s')
  end.

(** [(?:a|b|...)] *)
Fixpoint alts (rs : list regex) : regex :=
  match rs with
  | [] => Chr (fun _ => false)
  | [r] => r
  | r :: rs' => Alt r (alts rs')
  end.

(** The four letters outside ASCII that [re.IGNORECASE] equates with an
    ASCII letter, in UTF-8: the capital I with a dot above (U+0130) and the
    small i without dot (U+0131) for [i], the long s (U+017F) for [s] and
    the Kelvin sign (U+212A) for [k]. *)
Definition dotted_I : string := String "196" (String "176" "").
Definition dotless_i : string := String "196" (String "177" "").
Definition long_s : string := String "197" (String "191" "").
Definition kelvin : string := String "226" (String "132" (String "170" "")).

Definition ci_extras (c : ascii) : list string :=
  let l := Py.lower_char c in
  if Ascii.eqb l "i" then [dotted_I; dotless_i]
  else if Ascii.eqb l "s" then [long_s]
  else if Ascii.eqb l "k" then [kelvin]
  else [].

(** An ASCII character of a pattern read with [re.IGNORECASE]: the
    character in either case, or one of the letters outside ASCII that
    count as the same letter. *)
Definition one_ci (c : ascii) : regex :=
  alts (Chr (fun x => Ascii.eqb (Py.lower_char x) (Py.lower_char c))
          :: map lit (ci_extras c)).

(** A literal word read with [re.IGNORECASE]. *)
Fixpoint lit_ci (s : string) : regex :=
  match s with
  | EmptyString => Eps
  | String c s' => Seq (one_ci c) (lit_ci s')
  end.

Definition in_set (s : string) (c : ascii) : bool :=
  existsb (Ascii.eqb c) (list_ascii_of_string s).
Definition in_set_ci (s : string) (c : ascii) : bool :=
  existsb (fun x => Ascii.eqb (Py.lower_char c) (Py.lower_char x)) (list_ascii_of_string s).

(** A class [[...]] of ASCII characters read with [re.IGNORECASE], and the
    class [[a-z]] read with it. *)
Definition set_ci (s : string) : regex :=
  alts (Chr (in_set_ci s) :: map lit (flat_map ci_extras (list_ascii_of_string s))).
Definition alpha_ci : regex :=
  alts (Chr Py.is_alpha :: map lit [dotted_I; dotless_i; long_s; kelvin]).

Definition is_word_opt (o : option ascii) : bool :=
  match o with
  | Some c => Py.is_word c
  | None => false
  end.

Definition head (s : string) : option ascii :=
  match s with
  | EmptyString => None
  | String c _ => Some c
  end.

(** Backtracking match of [r] at the start of [s], with the priorities of
    the [re] module: the left alternative first, and as many repetitions as
    possible first.  [prev] is the character before the position (for [\b]),
    [k] is what remains to be matched; the result is the input left after
    the whole match. *)
Fixpoint run (r : regex) (prev : option ascii) (s : string)
    (k : option ascii -> string -> option string) {struct r} : option string :=
  match r with
  | Chr p =>
      match s with
      | String c s' => if p c then k (Some c) s' else None
      | EmptyString => None
      end
  | Eps => k prev s
  | Seq r1 r2 => run r1 prev s (fun prev' s' => run r2 prev' s' k)
  | Alt r1 r2 =>
      match run r1 prev s k with
      | Some rest => Some rest
      | None => run r2 prev s k
      end
  | Star r1 =>
      (fix loop (n : nat) (prev : option ascii) (s : string) {struct n} : option string :=
         match n with
         | O => k prev s
         | S n' =>
             match run r1 prev s
                     (fun prev' s' =>
                        if Nat.ltb (String.length s') (String.length s)
                        then loop n' prev' s' else None) with
             | Some rest => Some rest
             | None => k prev s
             end
         end) (String.length s) prev s
  | WordB =>
      if xorb (is_word_opt prev) (is_word_opt (head s)) then k prev s else None
  end.

(** Length of the match of [r] at the start of [s], if there is one. *)
Definition match_here (r : regex) (prev : option ascii) (s : string) : option nat :=
  match run r prev s (fun _ rest => Some rest) with
  | Some rest => Some (String.length s - String.length rest)
  | None => None
  end.

(** The scan of [re.finditer]: matches from the left, without overlap, as
    pairs (start, end).  [skip] counts the characters of the last match
    still to be passed.  None of the patterns below matches the empty
    string, so the scan has nothing to report at the end of the text. *)
Fixpoint scan (r : regex) (s : string) (pos : nat) (prev : option ascii) (skip : nat)
    : list (nat * nat) :=
  match s with
  | EmptyString => []
  | String c s' =>
      match skip with
      | S k => scan r s' (S pos) (Some c) k
      | O =>
          match match_here r prev s with
          | Some n => (pos, pos + n) :: scan r s' (S pos) (Some c) (n - 1)
          | None => scan r s' (S pos) (Some c) 0
          end
      end
  end.

Definition finditer (r : regex) (text : string) : list (nat * nat) :=
  scan r text 0 None 0.

(** [re.findall] for a pattern without capturing groups. *)
Definition findall (r : regex) (text : string) : list string :=
  map (fun m => substring (fst m) (snd m - fst m) text) (finditer r text).

Definition ws : regex := Chr Py.is_space.
Definition digit : regex := Chr Py.is_digit.

End Re.

(** [r1 r2 ... rn] in sequence. *)
Fixpoint seqs (rs : list Re.regex) : Re.regex :=
  match rs with
  | [] => Re.Eps
  | [r] => r
  | r :: rs' => Re.Seq r (seqs rs')
  end.

(** Words separated by [\s+], read without regard to case. *)
Fixpoint phrase (ws : list string) : Re.regex :=
  match ws with
  | [] => Re.Eps
  | [w] => Re.lit_ci w
  | w :: ws' => Re.Seq (Re.lit_ci w) (Re.Seq (Re.Plus Re.ws) (phrase ws'))
  end.

(** [[\d,]+\.?\d*], the number after a currency mark. *)
Definition amount_digits : Re.regex :=
  seqs [Re.Plus (Re.Chr (fun c => Py.is_digit c || Re.in_set "," c));
        Re.Opt (Re.one "."); Re.Star Re.digit].

(** The three risk levels, stored by the code as the strings of [level_name]. *)
Inductive RiskLevel : Type := HIGH | MEDIUM | LOW.

Definition level_name (l : RiskLevel) : string :=
  match l with
  | HIGH => "HIGH"
  | MEDIUM => "MEDIUM"
  | LOW => "LOW"
  end.

Definition RiskLevel_eqb (a b : RiskLevel) : bool :=
  match a, b with
  | HIGH, HIGH | MEDIUM, MEDIUM | LOW, LOW => true
  | _, _ => false
  end.

(** ** What PyPDF2 returns for a file *)

(** The information dictionary of a document.  A field is read through a
    property that decodes or parses the stored value: it gives a value
    (for a date, the text of the date), [None] when the entry is missing,
    or it raises (a date that cannot be parsed, for one). *)
Record DocumentInformation : Type := {
  title : Py.result (option string);
  author : Py.result (option string);
  subject : Py.result (option string);
  creator : Py.result (option string);
  producer : Py.result (option string);
  creation_date : Py.result (option string);
  modification_date : Py.result (option string)
}.

(** [pages] holds what [extract_text] returns page by page ([None] when a
    page has no text); [metadata] is what reading [reader.metadata] gives:
    the information dictionary, [None] when the file has none, or an
    error. *)
Record PdfReader : Type := {
  pages : list (option string);
  metadata : Py.result (option DocumentInformation);
  is_encrypted : bool
}.

(** Opening and parsing the file either raises (the message is kept) or
    gives a reader. *)
Inductive pdf_file : Type :=
  | Unreadable (e : string)
  | Readable (reader : PdfReader).

(** The text of every page of the file is ASCII. *)
Definition ascii_pages (file : pdf_file) : bool :=
  match file with
  | Unreadable _ => true
  | Readable reader =>
      forallb (fun page_text =>
                 match page_text with
                 | Some t => Py.is_ascii t
                 | None => true
                 end) (pages reader)
  end.

(** [os.path.basename] *)
Definition basename (path : string) : string := List.last (Py.split "/" path) "".

(** [has_key k d] is [k in d]. *)
Definition has_key {V} (k : string) (d : gmap string V) : bool :=
  match d !! k with
  | Some _ => true
  | None => false
  end.

(** * The text-only analyzer ([SimpleDocumentAnalyzer]) *)

Module Simple.

Definition risk_keywords : list string :=
  ["liability"; "penalty"; "breach"; "termination"; "indemnify";
   "damages"; "lawsuit"; "arbitration"; "confidential"; "proprietary";
   "non-compete"; "exclusive"; "irrevocable"; "perpetual"; "waive";
   "default"; "violation"; "prosecution"; "negligence"; "warranty"].

(** Each pattern with its source text, which the sections quote. *)
Definition high_risk_patterns : list (string * Re.regex) :=
  [("unlimited\s+liability", phrase ["unlimited"; "liability"]);
   ("personal\s+guarantee", phrase ["personal"; "guarantee"]);
   ("joint\s+and\s+several", phrase ["joint"; "and"; "several"]);
   ("automatic\s+renewal", phrase ["automatic"; "renewal"]);
   ("no\s+right\s+to\s+terminate", phrase ["no"; "right"; "to"; "terminate"]);
   ("waive\s+all\s+rights", phrase ["waive"; "all"; "rights"])].

(** The four money patterns, read with [re.IGNORECASE]. *)
Definition money_patterns : list Re.regex :=
  [seqs [Re.one "$"; amount_digits; Re.Opt (Re.set_ci "MKB")];
   seqs [Re.Plus Re.digit; Re.Star Re.ws;
         Re.alts (map Re.lit_ci ["million"; "thousand"; "billion"; "dollars"; "usd"])];
   seqs [Re.lit_ci "USD"; Re.Star Re.ws; amount_digits];
   seqs [Re.alts (map Re.lit ["€"; "£"; "¥"]); Re.Star Re.ws; amount_digits]].

Definition date_sep : Re.regex := Re.Chr (Re.in_set "-/").

Definition month_names : list string :=
  ["Jan"; "Feb"; "Mar"; "Apr"; "May"; "Jun"; "Jul"; "Aug"; "Sep"; "Oct"; "Nov"; "Dec"].

(** The date pattern, read with [re.IGNORECASE]. *)
Definition date_pattern : Re.regex :=
  seqs [Re.WordB;
        Re.alts
          [seqs [Re.Rep 1 2 Re.digit; date_sep; Re.Rep 1 2 Re.digit; date_sep;
                 Re.Rep 2 4 Re.digit];
           seqs [Re.Times 4 Re.digit; date_sep; Re.Rep 1 2 Re.digit; date_sep;
                 Re.Rep 1 2 Re.digit];
           seqs [Re.alts (map Re.lit_ci month_names); Re.Star Re.alpha_ci;
                 Re.one " "; Re.Rep 1 2 Re.digit; Re.Opt (Re.one ","); Re.one " ";
                 Re.Times 4 Re.digit]];
        Re.WordB].

(** The e-mail pattern, read as written (no flag). *)
Definition email_pattern : Re.regex :=
  let alnum c := Py.is_alpha c || Py.is_digit c in
  seqs [Re.WordB;
        Re.Plus (Re.Chr (fun c => alnum c || Re.in_set "._%+-" c));
        Re.one "@";
        Re.Plus (Re.Chr (fun c => alnum c || Re.in_set ".-" c));
        Re.one ".";
        Re.Times 2 (Re.Chr (fun c => Py.is_alpha c || Re.in_set "|" c));
        Re.Star (Re.Chr (fun c => Py.is_alpha c || Re.in_set "|" c));
        Re.WordB].

Definition signature_phrases : list string :=
  ["signature"; "signed by"; "authorized signature"; "/s/"; "by:"; "name:"].

(** A high-risk section: the dictionary with keys ['pattern'], ['context']
    and ['risk_level']. *)
Record Section : Type := {
  section_pattern : string;
  section_context : string;
  section_risk_level : RiskLevel
}.

(** The dictionary returned by [extract_metadata]. *)
Record Metadata : Type := {
  md_error : option string;
  md_pages : option Z;
  md_title : option string;
  md_author : option string;
  md_subject : option string;
  md_creator : option string;
  md_producer : option string;
  md_creation_date : option string;
  md_modification_date : option string;
  md_encrypted : option bool
}.

(** The dictionary returned by [extract_text_features]. *)
Record TextAnalysis : Type := {
  error : option string;
  total_characters : option Z;
  total_words : option Z;
  page_count : option Z;
  risk_keywords_found : option Z;
  keyword_breakdown : option (gmap string Z);
  monetary_amounts : option (list string);
  dates_found : option (list string);
  emails_found : option (list string);
  signature_indicators : option Z;
  high_risk_sections : option (list Section)
}.

(** The dictionary returned by [assess_risks]; every key is always set. *)
Record RiskScores : Type := {
  keyword_risk : Z;
  financial_risk : Z;
  compliance_risk : Z;
  signature_risk : Z;
  overall_risk : Z;
  risk_level : RiskLevel
}.

(** The dictionary returned by [analyze_document]. *)
Record Results : Type := {
  filename : string;
  timestamp : string;
  res_metadata : Metadata;
  text_analysis : TextAnalysis;
  risk_assessment : RiskScores;
  recommendations : list string
}.

(** [str(x) if metadata and x else 'Unknown'], where reading [x] may
    raise. *)
Definition field_or_unknown (metadata : option DocumentInformation)
    (field : DocumentInformation -> Py.result (option string)) : Py.result string :=
  match metadata with
  | Some m =>
      Py.bind (field m) (fun x =>
      match x with
      | Some s => if Py.truthy s then Py.Ok s else Py.Ok "Unknown"
      | None => Py.Ok "Unknown"
      end)
  | None => Py.Ok "Unknown"
  end.

(** The dictionary of the [except] branch. *)
Definition metadata_error (e : string) : Metadata :=
  {| md_error := Some e; md_pages := None; md_title := None; md_author := None;
     md_subject := None; md_creator := None; md_producer := None;
     md_creation_date := None; md_modification_date := None;
     md_encrypted := None |}.

(** [extract_metadata]: the information dictionary is read and the
    result is built inside the [try], entry by entry; the first reading
    that raises gives the dictionary of the [except] branch. *)
Definition extract_metadata (file : pdf_file) : Metadata :=
  match file with
  | Readable reader =>
      let built :=
        Py.bind (metadata reader) (fun metadata =>
        Py.bind (field_or_unknown metadata title) (fun title =>
        Py.bind (field_or_unknown metadata author) (fun author =>
        Py.bind (field_or_unknown metadata subject) (fun subject =>
        Py.bind (field_or_unknown metadata creator) (fun creator =>
        Py.bind (field_or_unknown metadata producer) (fun producer =>
        Py.bind (field_or_unknown metadata creation_date) (fun creation_date =>
        Py.bind (field_or_unknown metadata modification_date) (fun modification_date =>
        Py.Ok {| md_error := None;
                 md_pages := Some (Z.of_nat (length (pages reader)));
                 md_title := Some title;
                 md_author := Some author;
                 md_subject := Some subject;
                 md_creator := Some creator;
                 md_producer := Some producer;
                 md_creation_date := Some creation_date;
                 md_modification_date := Some modification_date;
                 md_encrypted := Some (is_encrypted reader) |})))))))) in
      match built with
      | Py.Ok d => d
      | Py.Raise e => metadata_error e
      end
  | Unreadable e => metadata_error e
  end.

(** The section appended for one match of a phrase pattern. *)
Definition pattern_section (text pattern : string) (m : nat * nat) : Section :=
  let start := Z.max 0 (Z.of_nat (fst m) - 100) in
  let end_ := Z.min (Py.len text) (Z.of_nat (snd m) + 100) in
  {| section_pattern := pattern;
     section_context := Py.strip (Py.slice text start end_);
     section_risk_level := HIGH |}.

(** Number of the risk keywords that occur in [para_lower]. *)
Definition keywords_present (para_lower : string) : Z :=
  fold_left (fun n keyword => if Py.contains keyword para_lower then (n + 1)%Z else n)
    risk_keywords 0%Z.

(** One turn of the paragraph loop on the list [sections]. *)
Definition paragraph_step (sections : list Section) (para : string) : list Section :=
  let para_lower := Py.lower para in
  let risk_count := keywords_present para_lower in
  if (3 <=? risk_count)%Z then
    sections ++
      [{| section_pattern := Py.str_of_Z risk_count +:+ " risk keywords";
          section_context :=
            if (300 <? Py.len para)%Z then Py.slice_to para 300 +:+ "..." else para;
          section_risk_level := if (risk_count <? 5)%Z then MEDIUM else HIGH |}]
  else sections.

Definition find_high_risk_sections (text : string) : list Section :=
  let sections :=
    fold_left
      (fun sections p =>
         fold_left (fun sections m => sections ++ [pattern_section text (fst p) m])
           (Re.finditer (snd p) text) sections)
      high_risk_patterns [] in
  let paragraphs := Py.split (Py.nl +:+ Py.nl) text in
  let sections := fold_left paragraph_step paragraphs sections in
  Py.lslice sections 0 10.

(** The text of all pages: a page whose text is missing or empty adds
    nothing, any other page adds its text and a line feed. *)
Definition full_text_of (reader : PdfReader) : string :=
  fold_left
    (fun full_text page_text =>
       match page_text with
       | Some t => if Py.truthy t then full_text +:+ t +:+ Py.nl else full_text
       | None => full_text
       end)
    (pages reader) "".

(** The keyword loop: the breakdown and the running total. *)
Definition count_keywords (text_lower : string) : gmap string Z * Z :=
  fold_left
    (fun st keyword =>
       let count := Py.count keyword text_lower in
       if (0 <? count)%Z then (<[keyword := count]> (fst st), (snd st + count)%Z) else st)
    risk_keywords (∅, 0%Z).

Definition extract_text_features (file : pdf_file) : TextAnalysis :=
  match file with
  | Readable reader =>
      let full_text := full_text_of reader in
      let page_count := Z.of_nat (length (pages reader)) in
      let text_lower := Py.lower full_text in
      let '(keyword_counts, total_risk_keywords) := count_keywords text_lower in
      let monetary_amounts :=
        fold_left (fun acc pattern => acc ++ Re.findall pattern full_text)
          money_patterns [] in
      let dates_found := Re.findall date_pattern full_text in
      let emails_found := Re.findall email_pattern full_text in
      let signature_count :=
        fold_left
          (fun n indicator => if Py.contains indicator text_lower then (n + 1)%Z else n)
          signature_phrases 0%Z in
      {| error := None;
         total_characters := Some (Py.len full_text);
         total_words := Some (Z.of_nat (Py.count_words full_text false));
         page_count := Some page_count;
         risk_keywords_found := Some total_risk_keywords;
         keyword_breakdown := Some keyword_counts;
         monetary_amounts := Some (Py.lslice monetary_amounts 0 10);
         dates_found := Some (Py.lslice dates_found 0 10);
         emails_found := Some (Py.lslice emails_found 0 5);
         signature_indicators := Some signature_count;
         high_risk_sections := Some (find_high_risk_sections full_text) |}
  | Unreadable e =>
      {| error := Some e; total_characters := None; total_words := None;
         page_count := None; risk_keywords_found := Some 0%Z;
         keyword_breakdown := None; monetary_amounts := None; dates_found := None;
         emails_found := None; signature_indicators := None;
         high_risk_sections := None |}
  end.

(** The loop over the amounts with its [break]: the first amount that
    names a million sets the score to 30. *)
Fixpoint check_high_amounts (amounts : list string) (financial_risk : Z) : Z :=
  match amounts with
  | [] => financial_risk
  | amount :: rest =>
      if Py.contains "million" (Py.lower amount) || Py.contains "M" amount
      then 30%Z
      else check_high_amounts rest financial_risk
  end.

Definition assess_risks (text_analysis : TextAnalysis) : RiskScores :=
  let keyword_count := default 0%Z (risk_keywords_found text_analysis) in
  let keyword_risk := Z.min 40 (keyword_count * 2) in
  let amounts := default [] (monetary_amounts text_analysis) in
  let financial_risk :=
    match amounts with
    | [] => 0%Z
    | _ => check_high_amounts amounts (Z.min 30 (Z.of_nat (length amounts) * 5))
    end in
  let sections := default [] (high_risk_sections text_analysis) in
  let compliance_risk := Z.min 20 (Z.of_nat (length sections) * 4) in
  let signature_risk :=
    if (default 0%Z (signature_indicators text_analysis) =? 0)%Z then 10%Z else 0%Z in
  let overall := (keyword_risk + financial_risk + compliance_risk + signature_risk)%Z in
  let risk_level :=
    if (70 <=? overall)%Z then HIGH
    else if (40 <=? overall)%Z then MEDIUM
    else LOW in
  {| keyword_risk := keyword_risk;
     financial_risk := financial_risk;
     compliance_risk := compliance_risk;
     signature_risk := signature_risk;
     overall_risk := overall;
     risk_level := risk_level |}.

Definition rec_high : string := "⚠️ HIGH RISK: Strongly recommend legal review before signing".
Definition rec_caution : string :=
  "🚨 Multiple risk factors detected - proceed with extreme caution".
Definition rec_medium : string := "⚡ MEDIUM RISK: Review highlighted sections carefully".
Definition rec_counsel : string := "💡 Consider consulting legal counsel for specific clauses".
Definition rec_low : string :=
  "✅ LOW RISK: Document appears standard, but always review before signing".
Definition rec_signature : string :=
  "📝 No signature indicators found - ensure proper execution".
Definition rec_financial : string :=
  "💰 High financial exposure detected - verify all monetary commitments".
Definition rec_compliance : string :=
  "⚖️ Multiple compliance concerns - ensure regulatory alignment".
Definition rec_sections : string :=
  "🔍 Numerous high-risk sections found - detailed review essential".
Definition rec_indemnify : string :=
  "🛡️ Indemnification clauses present - review liability exposure".
Definition rec_termination : string := "🚪 Review termination clauses and exit strategies".
Definition rec_confidential : string :=
  "🔒 Confidentiality obligations present - ensure compliance capability".

(** [if cond: recommendations.append(line)] *)
Definition append_if (cond : bool) (line : string) (recommendations : list string)
    : list string :=
  if cond then recommendations ++ [line] else recommendations.

(** [generate_recommendations] reads two keys of [results]. *)
Definition generate_recommendations (risk_assessment : RiskScores)
    (text_analysis : TextAnalysis) : list string :=
  let recommendations := [] in
  let recommendations :=
    match risk_level risk_assessment with
    | HIGH => (recommendations ++ [rec_high]) ++ [rec_caution]
    | MEDIUM => (recommendations ++ [rec_medium]) ++ [rec_counsel]
    | LOW => recommendations ++ [rec_low]
    end in
  let recommendations :=
    append_if (0 <? signature_risk risk_assessment)%Z rec_signature recommendations in
  let recommendations :=
    append_if (20 <=? financial_risk risk_assessment)%Z rec_financial recommendations in
  let recommendations :=
    append_if (15 <=? compliance_risk risk_assessment)%Z rec_compliance recommendations in
  let recommendations :=
    append_if (5 <? Z.of_nat (length (default [] (high_risk_sections text_analysis))))%Z
      rec_sections recommendations in
  let keyword_breakdown := default ∅ (keyword_breakdown text_analysis) in
  let recommendations :=
    append_if (has_key "indemnify" keyword_breakdown
               || has_key "indemnification" keyword_breakdown)
      rec_indemnify recommendations in
  let recommendations :=
    append_if (has_key "termination" keyword_breakdown) rec_termination recommendations in
  let recommendations :=
    append_if (has_key "confidential" keyword_breakdown
               || has_key "proprietary" keyword_breakdown)
      rec_confidential recommendations in
  recommendations.

(** [analyze_document]: [file] is what opening [pdf_path] gives, [now] is
    [datetime.now().isoformat()].  No step raises, so the function always
    returns its dictionary. *)
Definition analyze_document (pdf_path : string) (file : pdf_file) (now : string)
    : Py.result Results :=
  let metadata := extract_metadata file in
  let text_analysis := extract_text_features file in
  let risk_assessment := assess_risks text_analysis in
  Py.Ok {| filename := basename pdf_path;
           timestamp := now;
           res_metadata := metadata;
           text_analysis := text_analysis;
           risk_assessment := risk_assessment;
           recommendations := generate_recommendations risk_assessment text_analysis |}.

End Simple.

(** * The combined text + visual analyzer ([MultimodalDocumentAnalyzer]) *)

Module Multimodal.

Local Open Scope R_scope.

Definition risk_keywords : list string :=
  ["liability"; "penalty"; "breach"; "termination"; "indemnify";
   "damages"; "lawsuit"; "arbitration"; "confidential"; "proprietary";
   "non-compete"; "exclusive"; "irrevocable"; "perpetual"].

(** [visual_patterns['signature_region']] *)
Definition signature_min_area : R := 5000.
Definition signature_aspect_ratio_range : R * R := (2, 6).

(** The money pattern, read with [re.IGNORECASE]. *)
Definition money_pattern : Re.regex :=
  Re.Alt
    (seqs [Re.one "$"; amount_digits; Re.Opt (Re.set_ci "MKB")])
    (seqs [Re.Plus Re.digit; Re.Star Re.ws;
           Re.alts (map Re.lit_ci ["million"; "thousand"; "billion"])]).

(** ** What pdf2image and OpenCV return for the first page *)

(** A contour of the edge map: [cv2.contourArea] and [cv2.boundingRect]. *)
Record Contour : Type := {
  contour_area : R;
  bounding_rect : Z * Z * Z * Z
}.

(** A rendered page, seen through the OpenCV calls made on it:
    [contours] is [cv2.findContours] on the Canny edge map, [circles] is
    [cv2.HoughCircles] after rounding ([None] when no circle is found),
    [gray] is the grey-level image, row by row, [hist_max] and [hist_mean]
    are the largest and the mean bin of the hue/saturation histogram and
    [keypoints] is the number of ORB keypoints. *)
Record Image : Type := {
  contours : list Contour;
  circles : option (list (Z * Z * Z));
  gray : list (list Z);
  hist_max : R;
  hist_mean : R;
  keypoints : nat
}.

(** A page on which some NumPy or OpenCV call raises, or a page that is
    processed. *)
Inductive rendered_page : Type :=
  | Unprocessable (e : string)
  | Bitmap (img : Image).

(** The dictionary returned by [extract_text_features]. *)
Record TextFeatures : Type := {
  page_count : option Z;
  total_words : option Z;
  risk_keywords_found : option Z;
  monetary_amounts : option (list string);
  text_risk_score : option Z;
  high_risk_sections : option (list string)
}.

(** The dictionary returned by [extract_visual_features]. *)
Record VisualFeatures : Type := {
  error : option string;
  signatures_detected : option Z;
  stamps_detected : option Z;
  layout_consistency_score : option R;
  visual_risk_score : option Z;
  anomalies : option (list string)
}.

(** The dictionary returned by [analyze_document]. *)
Record Results : Type := {
  filename : string;
  timestamp : string;
  visual_analysis : VisualFeatures;
  text_analysis : TextFeatures;
  combined_risk_score : R;
  risk_factors : list string;
  recommendations : list string
}.

(** Number of the risk keywords that occur in [line_lower]. *)
Definition keywords_present (line_lower : string) : Z :=
  fold_left (fun n keyword => if Py.contains keyword line_lower then (n + 1)%Z else n)
    risk_keywords 0%Z.

Definition find_high_risk_sections (text : string) : list string :=
  let lines := Py.split Py.nl text in
  let n := Z.of_nat (length lines) in
  let sections :=
    fold_left
      (fun sections il =>
         let i := Z.of_nat (fst il) in
         let risk_count := keywords_present (Py.lower (snd il)) in
         if (2 <=? risk_count)%Z then
           let context := Py.join " " (Py.lslice lines (Z.max 0 (i - 1)) (Z.min n (i + 2))) in
           sections ++ [Py.slice_to context 200 +:+ "..."]
         else sections)
      (combine (seq 0 (length lines)) lines) [] in
  Py.lslice sections 0 3.

(** The text of all pages; a page without text makes [+] raise. *)
Fixpoint full_text_of (pages : list (option string)) (full_text : string)
    : Py.result string :=
  match pages with
  | [] => Py.Ok full_text
  | Some t :: rest => full_text_of rest (full_text +:+ t +:+ Py.nl)
  | None :: _ => Py.Raise "unsupported operand type(s) for +: 'NoneType' and 'str'"
  end.

(** [extract_text_features] has no handler: what the reader raises goes to
    the caller. *)
Definition extract_text_features (file : pdf_file) : Py.result TextFeatures :=
  match file with
  | Unreadable e => Py.Raise e
  | Readable reader =>
      Py.bind (full_text_of (pages reader) "") (fun full_text =>
      let page_count := Z.of_nat (length (pages reader)) in
      let risk_keyword_count :=
        fold_left (fun n keyword => (n + Py.count keyword (Py.lower full_text))%Z)
          risk_keywords 0%Z in
      let monetary_amounts := Re.findall money_pattern full_text in
      let text_risk_score := Z.min 100 (risk_keyword_count * 5) in
      Py.Ok {| page_count := Some page_count;
               total_words := Some (Z.of_nat (Py.count_words full_text false));
               risk_keywords_found := Some risk_keyword_count;
               monetary_amounts := Some (Py.lslice monetary_amounts 0 5);
               text_risk_score := Some text_risk_score;
               high_risk_sections := Some (find_high_risk_sections full_text) |})
  end.

(** A contour is kept when its area is above the minimum and the aspect
    ratio of its bounding box ([w / h], or 0 when [h] is 0) is in range. *)
Definition is_signature (c : Contour) : bool :=
  if Rlt_dec signature_min_area (contour_area c) then
    let '(_, _, w, h) := bounding_rect c in
    let aspect_ratio := if (0 <? h)%Z then IZR w / IZR h else 0 in
    let '(min_ar, max_ar) := signature_aspect_ratio_range in
    if Rle_dec min_ar aspect_ratio then
      if Rle_dec aspect_ratio max_ar then true else false
    else false
  else false.

Definition detect_signature_regions (image : Image) : list (Z * Z * Z * Z) :=
  fold_left
    (fun signatures contour =>
       if is_signature contour then signatures ++ [bounding_rect contour] else signatures)
    (contours image) [].

Definition detect_stamp_regions (image : Image) : list (Z * Z * Z) :=
  match circles image with
  | Some cs => cs
  | None => []
  end.

(** [cv2.threshold(gray, 200, 255, cv2.THRESH_BINARY_INV)] on one pixel. *)
Definition threshold_inv (g : Z) : Z := if (200 <? g)%Z then 0%Z else 255%Z.

(** [a[r0:r1, c0:c1]] on an array given row by row. *)
Definition block (a : list (list Z)) (r0 r1 c0 c1 : nat) : list (list Z) :=
  map (fun row => firstn (c1 - c0) (skipn c0 row)) (firstn (r1 - r0) (skipn r0 a)).

Definition Rsum (l : list R) : R := fold_right Rplus 0 l.

(** [np.mean] of a list of finite numbers: NaN ([None]) on an empty one. *)
Definition mean (l : list R) : option R :=
  match l with
  | [] => None
  | _ => Some (Rsum l / INR (length l))
  end.

(** [np.mean(q)] for a block of pixels. *)
Definition block_mean (q : list (list Z)) : option R := mean (map IZR (concat q)).

(** The numbers of a list when none of them is NaN. *)
Fixpoint all_finite (l : list (option R)) : option (list R) :=
  match l with
  | [] => Some []
  | Some x :: l' => option_map (cons x) (all_finite l')
  | None :: _ => None
  end.

(** [np.mean] and [np.std] of a list that may hold NaN: NaN as soon as
    one entry is. *)
Definition np_mean (l : list (option R)) : option R :=
  match all_finite l with
  | Some xs => mean xs
  | None => None
  end.

Definition np_std (l : list (option R)) : option R :=
  match all_finite l with
  | Some xs =>
      match mean xs with
      | Some m => option_map sqrt (mean (map (fun x => (x - m) * (x - m)) xs))
      | None => None
      end
  | None => None
  end.

(** The ink densities of the four quadrants. *)
Definition quadrant_densities (gray : list (list Z)) : list (option R) :=
  let binary := map (map threshold_inv) gray in
  let h := length binary in
  let w := length (hd [] binary) in
  let quadrants :=
    [block binary 0 (h / 2) 0 (w / 2);
     block binary 0 (h / 2) (w / 2) w;
     block binary (h / 2) h 0 (w / 2);
     block binary (h / 2) h (w / 2) w] in
  map (fun q => option_map (fun m => m / 255) (block_mean q)) quadrants.

(** [np.std(densities) / np.mean(densities) if np.mean(densities) > 0 else 0];
    a NaN mean is not greater than 0. *)
Definition spread (densities : list (option R)) : R :=
  match np_mean densities, np_std densities with
  | Some m, Some sd => if Rlt_dec 0 m then sd / m else 0
  | _, _ => 0
  end.

Definition analyze_layout_consistency (image : Image) : R :=
  let densities := quadrant_densities (gray image) in
  let consistency := 1 - spread densities in
  Rmin 1 (Rmax 0 consistency).

Definition detect_visual_anomalies (image : Image) : list string :=
  let anomalies := [] in
  let anomalies :=
    if Rlt_dec (hist_mean image * 10) (hist_max image)
    then anomalies ++ ["Unusual color concentration detected"] else anomalies in
  let anomalies :=
    if (500 <? keypoints image)%nat
    then anomalies ++ ["High number of similar features (possible copy-paste)"]
    else anomalies in
  anomalies.

(** The dictionary of the [except] branch. *)
Definition visual_error (e : string) : VisualFeatures :=
  {| error := Some e; signatures_detected := None; stamps_detected := None;
     layout_consistency_score := None; visual_risk_score := Some 50%Z;
     anomalies := None |}.

(** [extract_visual_features]: [render] is what [convert_from_path] gives
    for the first page, [round2 x] is [round(x, 2)].  The layout score is
    a float and the rounding of floats is not modelled: the function
    [round2] is left open, and no statement depends on it. *)
Definition extract_visual_features (round2 : R -> R)
    (render : Py.result (list rendered_page)) : VisualFeatures :=
  match render with
  | Py.Raise e => visual_error e
  | Py.Ok [] =>
      {| error := Some "Could not convert PDF to image"; signatures_detected := None;
         stamps_detected := None; layout_consistency_score := None;
         visual_risk_score := None; anomalies := None |}
  | Py.Ok (Unprocessable e :: _) => visual_error e
  | Py.Ok (Bitmap img_cv :: _) =>
      let signatures := detect_signature_regions img_cv in
      let stamps := detect_stamp_regions img_cv in
      let layout_score := analyze_layout_consistency img_cv in
      let visual_risk_score := 0%Z in
      let visual_risk_score :=
        if (length signatures =? 0)%nat then (visual_risk_score + 30)%Z
        else visual_risk_score in
      let visual_risk_score :=
        if (2 <? length stamps)%nat then (visual_risk_score + 20)%Z
        else visual_risk_score in
      let visual_risk_score :=
        if Rlt_dec layout_score 0.7 then (visual_risk_score + 25)%Z
        else visual_risk_score in
      {| error := None;
         signatures_detected := Some (Z.of_nat (length signatures));
         stamps_detected := Some (Z.of_nat (length stamps));
         layout_consistency_score := Some (round2 layout_score);
         visual_risk_score := Some visual_risk_score;
         anomalies := Some (detect_visual_anomalies img_cv) |}
  end.

Definition calculate_combined_risk (text_features : TextFeatures)
    (visual_features : VisualFeatures) : R :=
  let text_score := default 0%Z (text_risk_score text_features) in
  let visual_score := default 0%Z (visual_risk_score visual_features) in
  let combined := IZR text_score * 0.6 + IZR visual_score * 0.4 in
  let combined :=
    if (default 0%Z (signatures_detected visual_features) =? 0)%Z
    then combined + 10 else combined in
  let combined :=
    if (3 <? length (default [] (monetary_amounts text_features)))%nat
    then combined + 5 else combined in
  Rmin 100 combined.

Definition rec_high : string := "⚠️ HIGH RISK: Recommend legal review before signing".
Definition rec_medium : string := "⚡ MEDIUM RISK: Review highlighted sections carefully".
Definition rec_low : string := "✅ LOW RISK: Standard document, safe to proceed".
Definition rec_signature : string := "📝 No signatures detected - ensure proper signing".
Definition rec_sections : string := "🔍 Review high-risk sections for unfavorable terms".
Definition rec_anomalies : string :=
  "🚨 Visual anomalies detected - verify document authenticity".

(** [generate_recommendations] reads three keys of [results]. *)
Definition generate_recommendations (risk_score : R) (visual_analysis : VisualFeatures)
    (text_analysis : TextFeatures) : list string :=
  let recommendations := [] in
  let recommendations :=
    if Rle_dec 70 risk_score then recommendations ++ [rec_high]
    else if Rle_dec 40 risk_score then recommendations ++ [rec_medium]
    else recommendations ++ [rec_low] in
  let recommendations :=
    if (default 0%Z (signatures_detected visual_analysis) =? 0)%Z
    then recommendations ++ [rec_signature] else recommendations in
  let recommendations :=
    if (0 <? length (default [] (high_risk_sections text_analysis)))%nat
    then recommendations ++ [rec_sections] else recommendations in
  let recommendations :=
    match default [] (anomalies visual_analysis) with
    | [] => recommendations
    | _ => recommendations ++ [rec_anomalies]
    end in
  recommendations.

(** [analyze_document]: [file] is what PyPDF2 gives for [pdf_path],
    [render] what pdf2image gives, [now] is [datetime.now().isoformat()]
    and [round2] is the rounding of [extract_visual_features]. *)
Definition analyze_document (round2 : R -> R) (pdf_path : string) (file : pdf_file)
    (render : Py.result (list rendered_page)) (now : string) : Py.result Results :=
  Py.bind (extract_text_features file) (fun text_features =>
  let visual_features := extract_visual_features round2 render in
  let combined := calculate_combined_risk text_features visual_features in
  Py.Ok {| filename := basename pdf_path;
           timestamp := now;
           visual_analysis := visual_features;
           text_analysis := text_features;
           combined_risk_score := combined;
           risk_factors := [];
           recommendations :=
             generate_recommendations combined visual_features text_features |}).

End Multimodal.

(** * The statements of the specification

    Definitions that follow the words of the specification, to be compared
    with the functions of the two analyzers. *)

Module Spec.

(** The threshold rule: HIGH from 70, MEDIUM from 40, LOW below. *)
Definition level_of_score (overall : Z) : RiskLevel :=
  if (70 <=? overall)%Z then HIGH
  else if (40 <=? overall)%Z then MEDIUM
  else LOW.

(** The financial sub-score as the specification words it: the count
    formula, replaced by 30 when an amount contains "million" (in any
    case) or ends with the letter M. *)
Definition financial_with_suffix (amounts : list string) : Z :=
  if existsb (fun a => Py.contains "million" (Py.lower a) || Py.endswith "M" a) amounts
  then 30%Z
  else Z.min 30 (5 * Z.of_nat (length amounts)).

(** The financial sub-score with the letter M looked for anywhere in the
    amount. *)
Definition financial_with_letter (amounts : list string) : Z :=
  if existsb (fun a => Py.contains "million" (Py.lower a) || Py.contains "M" a) amounts
  then 30%Z
  else Z.min 30 (5 * Z.of_nat (length amounts)).

(** The recommendation list of the text-only mode as the specification
    words it: one line for the level, a second line for HIGH only, then
    the advisories in their fixed order. *)
Definition line_if (cond : bool) (line : string) : list string :=
  if cond then [line] else [].

Definition level_line (l : RiskLevel) : string :=
  match l with
  | HIGH => Simple.rec_high
  | MEDIUM => Simple.rec_medium
  | LOW => Simple.rec_low
  end.

Definition advisories (indemnify : bool) (r : Simple.RiskScores) (ta : Simple.TextAnalysis)
    : list string :=
  let kb := default ∅ (Simple.keyword_breakdown ta) in
  line_if (0 <? Simple.signature_risk r)%Z Simple.rec_signature ++
  line_if (20 <=? Simple.financial_risk r)%Z Simple.rec_financial ++
  line_if (15 <=? Simple.compliance_risk r)%Z Simple.rec_compliance ++
  line_if (5 <? length (default [] (Simple.high_risk_sections ta)))%nat Simple.rec_sections ++
  line_if indemnify Simple.rec_indemnify ++
  line_if (has_key "termination" kb) Simple.rec_termination ++
  line_if (has_key "confidential" kb || has_key "proprietary" kb) Simple.rec_confidential.

Definition recommendations_one_level_line (r : Simple.RiskScores) (ta : Simple.TextAnalysis)
    : list string :=
  let kb := default ∅ (Simple.keyword_breakdown ta) in
  [level_line (Simple.risk_level r)] ++
  line_if (RiskLevel_eqb (Simple.risk_level r) HIGH) Simple.rec_caution ++
  advisories (has_key "indemnify" kb) r ta.

(** The same list with the lines the code appends for each level: two for
    HIGH, two for MEDIUM, one for LOW; the indemnification line is also
    triggered by the key "indemnification". *)
Definition level_lines (l : RiskLevel) : list string :=
  match l with
  | HIGH => [Simple.rec_high; Simple.rec_caution]
  | MEDIUM => [Simple.rec_medium; Simple.rec_counsel]
  | LOW => [Simple.rec_low]
  end.

Definition recommendations_by_level (r : Simple.RiskScores) (ta : Simple.TextAnalysis)
    : list string :=
  let kb := default ∅ (Simple.keyword_breakdown ta) in
  level_lines (Simple.risk_level r) ++
  advisories (has_key "indemnify" kb || has_key "indemnification" kb) r ta.

(** The high-risk sections as the specification words them.  The fixed
    set of phrase patterns: the words of a phrase in any case, with
    whitespace between them. *)
Definition phrases : list (list string) :=
  [["unlimited"; "liability"];
   ["personal"; "guarantee"];
   ["joint"; "and"; "several"];
   ["automatic"; "renewal"];
   ["no"; "right"; "to"; "terminate"];
   ["waive"; "all"; "rights"]].

Definition phrase_patterns : list (string * Re.regex) :=
  map (fun words => (Py.join "\s+" words, phrase words)) phrases.

(** First pass: one HIGH section per match of a phrase pattern, whose
    context is the window from 100 characters before the match to 100
    characters after it. *)
Definition window (text : string) (m : nat * nat) : string :=
  let a := fst m - 100 in
  let b := Nat.min (String.length text) (snd m + 100) in
  substring a (b - a) text.

Definition phrase_section (text pattern : string) (m : nat * nat) : Simple.Section :=
  {| Simple.section_pattern := pattern;
     Simple.section_context := window text m;
     Simple.section_risk_level := HIGH |}.

Definition phrase_sections (text : string) : list Simple.Section :=
  flat_map (fun p => map (phrase_section text (fst p)) (Re.finditer (snd p) text))
    phrase_patterns.

(** The first pass as amended: the window is stripped of the whitespace
    at its two ends. *)
Definition stripped_section (text pattern : string) (m : nat * nat) : Simple.Section :=
  {| Simple.section_pattern := pattern;
     Simple.section_context := Py.strip (window text m);
     Simple.section_risk_level := HIGH |}.

Definition stripped_sections (text : string) : list Simple.Section :=
  flat_map (fun p => map (stripped_section text (fst p)) (Re.finditer (snd p) text))
    phrase_patterns.

(** Second pass: the paragraphs between blank lines that contain at
    least three different keywords; MEDIUM for three or four, HIGH from
    five; the paragraph cut to 300 characters and marked when longer. *)
Definition distinct_keywords (para : string) : nat :=
  length (List.filter (fun keyword => Py.contains keyword (Py.lower para))
            Simple.risk_keywords).

Definition paragraph_section (para : string) : list Simple.Section :=
  let k := distinct_keywords para in
  if (3 <=? k)%nat then
    [{| Simple.section_pattern := Py.str_of_nat k +:+ " risk keywords";
        Simple.section_context :=
          if (String.length para <=? 300)%nat then para
          else substring 0 300 para +:+ "...";
        Simple.section_risk_level := if (k <=? 4)%nat then MEDIUM else HIGH |}]
  else [].

Definition paragraph_sections (text : string) : list Simple.Section :=
  flat_map paragraph_section (Py.split (Py.nl +:+ Py.nl) text).

Definition high_risk_sections (text : string) : list Simple.Section :=
  firstn 10 (phrase_sections text ++ paragraph_sections text).

(** The sections as amended: the stripped sections of the first pass,
    then those of the second. *)
Definition stripped_high_risk_sections (text : string) : list Simple.Section :=
  firstn 10 (stripped_sections text ++ paragraph_sections text).

(** The visual score as the specification words it: 30 without a
    signature region, 20 with more than 2 stamp regions, 25 with a layout
    consistency below 0.7. *)
Definition visual_score (signatures stamps : nat) (layout : R) : Z :=
  ((if (signatures =? 0)%nat then 30 else 0) +
   (if (2 <? stamps)%nat then 20 else 0) +
   (if Rlt_dec layout 0.7 then 25 else 0))%Z.

(** The combined score as the specification words it: the 0.6 / 0.4
    blend of the text score min(100, 5 x keywords) and the visual score,
    plus 10 without a signature and 5 with more than 3 amounts, cut to the
    interval from 0 to 100. *)
Definition combined_score (keywords visual : Z) (signatures amounts : nat) : R :=
  Rmax 0
    (Rmin 100
       (0.6 * IZR (Z.min 100 (5 * keywords)) + 0.4 * IZR visual +
        (if (signatures =? 0)%nat then 10 else 0) +
        (if (3 <? amounts)%nat then 5 else 0)))%R.

End Spec.

(** * Sample documents *)

Module Samples.

(** [s * n] *)
Fixpoint times (s : string) (n : nat) : string :=
  match n with
  | O => ""
  | S n' => s +:+ times s n'
  end.

(** A readable file with the given page texts and no metadata. *)
Definition document (page_texts : list string) : pdf_file :=
  Readable {| pages := map Some page_texts; metadata := Py.Ok None;
              is_encrypted := false |}.

(** Twenty keyword hits, six amounts and a signature line: 40 + 30 + 0 + 0. *)
Definition doc_70 : pdf_file :=
  document [times "liability " 20 +:+ "$1 $2 $3 $4 $5 $6 signature"].

(** Twenty keyword hits and a signature line: 40 + 0 + 0 + 0. *)
Definition doc_40 : pdf_file := document [times "liability " 20 +:+ "signature"].

(** Seventeen keyword hits, one amount and a signature line: 34 + 5 + 0 + 0. *)
Definition doc_39 : pdf_file := document [times "liability " 17 +:+ "$5 signature"].

(** A signature line only. *)
Definition doc_0 : pdf_file := document ["signature"].

(** Four amounts, one of them in millions. *)
Definition doc_million : pdf_file :=
  document ["Fees of $100 then $250 then $900 capped at 4 million. /s/ J. Doe"].

(** "liability" twice and "breach" once, no amount, no signature line. *)
Definition doc_16 : pdf_file :=
  document ["Liability is limited. No liability for breach."].

(** A dictionary of text features given key by key. *)
Definition features (keywords : Z) (amounts : list string) (sections : list Simple.Section)
    (signatures : Z) : Simple.TextAnalysis :=
  {| Simple.error := None; Simple.total_characters := Some 0%Z;
     Simple.total_words := Some 0%Z; Simple.page_count := Some 1%Z;
     Simple.risk_keywords_found := Some keywords;
     Simple.keyword_breakdown := Some ∅;
     Simple.monetary_amounts := Some amounts;
     Simple.dates_found := Some []; Simple.emails_found := Some [];
     Simple.signature_indicators := Some signatures;
     Simple.high_risk_sections := Some sections |}.

(** The amount "5 MILLION" written with the capital I with a dot above
    (U+0130) in place of each I. *)
Definition dotted_million : string :=
  "5 M" +:+ Re.dotted_I +:+ "LL" +:+ Re.dotted_I +:+ "ON".

Definition doc_dotted_million : pdf_file := document ["Total due: " +:+ dotted_million].

(** A page with the risky phrase between two spaces. *)
Definition doc_spaced_phrase : pdf_file := document [" unlimited liability "].

(** A clause with a risky phrase, a paragraph with three keywords and a
    paragraph with five. *)
Definition clauses : string :=
  "The Supplier accepts unlimited liability for any breach."
  +:+ Py.nl +:+ Py.nl +:+
  "Penalty, damages and lawsuit costs are borne by the Client."
  +:+ Py.nl +:+ Py.nl +:+
  "Confidential and proprietary data; exclusive, irrevocable, perpetual licence.".

(** A blank page of 2 x 2 white pixels: no ink in any quadrant. *)
Definition blank_page : Multimodal.Image :=
  {| Multimodal.contours := [];
     Multimodal.circles := None;
     Multimodal.gray := [[255; 255]; [255; 255]]%Z;
     Multimodal.hist_max := 0%R;
     Multimodal.hist_mean := 0%R;
     Multimodal.keypoints := 0 |}.

(** A page of a single inked pixel: every quadrant is empty. *)
Definition tiny_page : Multimodal.Image :=
  {| Multimodal.contours := [];
     Multimodal.circles := None;
     Multimodal.gray := [[0]]%Z;
     Multimodal.hist_max := 0%R;
     Multimodal.hist_mean := 0%R;
     Multimodal.keypoints := 0 |}.

(** A page of 4 x 4 pixels with three of the four pixels inked in each
    upper quadrant and one of four in each lower quadrant, no contour and
    three circles. *)
Definition uneven_page : Multimodal.Image :=
  {| Multimodal.contours := [];
     Multimodal.circles := Some [(120, 80, 40); (300, 90, 35); (500, 400, 60)]%Z;
     Multimodal.gray :=
       [[0; 0; 0; 0]; [0; 255; 0; 255]; [255; 255; 255; 255]; [255; 0; 255; 0]]%Z;
     Multimodal.hist_max := 0%R;
     Multimodal.hist_mean := 0%R;
     Multimodal.keypoints := 0 |}.

(** Three keyword hits and four amounts. *)
Definition doc_fees : pdf_file :=
  document ["Liability for breach: penalty of $100 or $250 or $900 or $5M."].

(** The text features of [doc_fees] in the combined analyzer. *)
Definition features_fees : Multimodal.TextFeatures :=
  {| Multimodal.page_count := Some 1%Z;
     Multimodal.total_words := Some 12%Z;
     Multimodal.risk_keywords_found := Some 3%Z;
     Multimodal.monetary_amounts := Some ["$100"; "$250"; "$900"; "$5M"];
     Multimodal.text_risk_score := Some 15%Z;
     Multimodal.high_risk_sections :=
       Some ["Liability for breach: penalty of $100 or $250 or $900 or $5M. ..."] |}.

(** A rounding to two decimals, for the examples: the one of exact
    arithmetic, a tie going to the even hundredth. *)
Definition round_exact (x : R) : R :=
  let y := (x * 100)%R in
  let f := Zfloor y in
  let d := (y - IZR f)%R in
  (IZR (if Rlt_dec d (1 / 2) then f
        else if Rlt_dec (1 / 2) d then (f + 1)%Z
        else if Z.even f then f else (f + 1)%Z) / 100)%R.

End Samples.

(** * The language of a regular expression *)

Module ReLang.

(** [lang r s]: the string [s] is matched by [r], word boundaries left
    aside (they match the empty string). *)
Inductive lang : Re.regex -> string -> Prop :=
  | lang_chr p c : p c = true -> lang (Re.Chr p) (String c "")
  | lang_eps : lang Re.Eps ""
  | lang_seq r1 r2 s1 s2 : lang r1 s1 -> lang r2 s2 -> lang (Re.Seq r1 r2) (s1 +:+ s2)
  | lang_alt_l r1 r2 s : lang r1 s -> lang (Re.Alt r1 r2) s
  | lang_alt_r r1 r2 s : lang r2 s -> lang (Re.Alt r1 r2) s
  | lang_star_nil r : lang (Re.Star r) ""
  | lang_star_cons r s1 s2 :
      lang r s1 -> lang (Re.Star r) s2 -> lang (Re.Star r) (s1 +:+ s2)
  | lang_wordb : lang Re.WordB "".

(** Whether the character [c] can occur in a match of [r]. *)
Fixpoint charset (r : Re.regex) (c : ascii) : bool :=
  match r with
  | Re.Chr p => p c
  | Re.Eps => false
  | Re.Seq r1 r2 => charset r1 c || charset r2 c
  | Re.Alt r1 r2 => charset r1 c || charset r2 c
  | Re.Star r1 => charset r1 c
  | Re.WordB => false
  end.

(** All the characters of [s] pass the test [p]. *)
Fixpoint all_chars (p : ascii -> bool) (s : string) : bool :=
  match s with
  | EmptyString => true
  | String c s' => p c && all_chars p s'
  end.

End ReLang.

(** * Strings that start and end with a visible character *)

Module TextShape.

(** The first character of [s] exists and is not whitespace. *)
Definition starts_solid (s : string) : Prop :=
  exists c s', s = String c s' /\ Py.is_space c = false.

(** The last character of [s] exists and is not whitespace. *)
Definition ends_solid (s : string) : Prop :=
  exists s' c, s = s' +:+ String c "" /\ Py.is_space c = false.

End TextShape.

(** * The report of the combined analyzer ([create_sample_report]) *)

Module Report.

Import Multimodal.

Section Formats.

(** [f"{x:.1f}"] and [str(x)] for a float [x]. *)
Variable format_1f : R -> string.
Variable str_of_float : R -> string.

(** [d[key]]: a missing key raises [KeyError(key)], whose text is the key
    between quotes. *)
Definition getitem {A} (key : string) (value : option A) : Py.result A :=
  match value with
  | Some a => Py.Ok a
  | None => Py.Raise ("'" +:+ key +:+ "'")
  end.

(** A comma after every three digits, on the digits from the right. *)
Fixpoint group3 (digits : list ascii) : list ascii :=
  match digits with
  | a :: b :: c :: (_ :: _) as rest => a :: b :: c :: ","%char :: group3 rest
  | _ => digits
  end.

(** [f"{n:,}"] for an integer. *)
Definition thousands (n : Z) : string :=
  let digits := list_ascii_of_string (Py.str_of_nat (Z.abs_nat n)) in
  (if (n <? 0)%Z then "-" else "") +:+ string_of_list_ascii (rev (group3 (rev digits))).

(** [chr(10).join('   • ' + x for x in l)] *)
Definition bullets (l : list string) : string :=
  Py.join Py.nl (map (fun x => "   • " +:+ x) l).

Definition rule : string :=
  "═══════════════════════════════════════════════════════════════".

(** The replacement fields are read from left to right: the first key
    that is missing raises. *)
Definition create_sample_report (results : Results) : Py.result string :=
  let text := text_analysis results in
  let visual := visual_analysis results in
  Py.bind (getitem "text_risk_score" (text_risk_score text)) (fun text_risk =>
  Py.bind (getitem "visual_risk_score" (visual_risk_score visual)) (fun visual_risk =>
  Py.bind (getitem "page_count" (page_count text)) (fun pages =>
  Py.bind (getitem "total_words" (total_words text)) (fun words =>
  Py.bind (getitem "risk_keywords_found" (risk_keywords_found text)) (fun keywords =>
  Py.Ok (
    Py.nl +:+ "╔══════════════════════════════════════════════════════════════╗" +:+
    Py.nl +:+ "║          MULTIMODAL DOCUMENT ANALYSIS REPORT                 ║" +:+
    Py.nl +:+ "╚══════════════════════════════════════════════════════════════╝" +:+
    Py.nl +:+ Py.nl +:+ "📄 Document: " +:+ (filename results) +:+ Py.nl +:+
    "📅 Analysis Date: " +:+ (Py.slice_to (timestamp results) 10) +:+ Py.nl +:+ Py.nl +:+
    rule +:+ Py.nl +:+ "                    RISK ASSESSMENT" +:+ Py.nl +:+ rule +:+
    Py.nl +:+ Py.nl +:+ "🎯 Overall Risk Score: " +:+
    (format_1f (combined_risk_score results)) +:+ "/100" +:+ Py.nl +:+ "   Text Risk: " +:+
    (Py.str_of_Z text_risk) +:+ "/100" +:+ Py.nl +:+ "   Visual Risk: " +:+
    (Py.str_of_Z visual_risk) +:+ "/100" +:+ Py.nl +:+ Py.nl +:+ rule +:+ Py.nl +:+
    "                    TEXT ANALYSIS" +:+ Py.nl +:+ rule +:+ Py.nl +:+ Py.nl +:+
    "📊 Document Statistics:" +:+ Py.nl +:+ "   • Pages: " +:+ (Py.str_of_Z pages) +:+
    Py.nl +:+ "   • Words: " +:+ (thousands words) +:+ Py.nl +:+ "   • Risk Keywords: " +:+
    (Py.str_of_Z keywords) +:+ Py.nl +:+ Py.nl +:+ "💰 Monetary Amounts Found:" +:+
    Py.nl +:+ "   " +:+
    (bullets (Py.lslice (default ["None"] (monetary_amounts text)) 0 3)) +:+ Py.nl +:+
    Py.nl +:+ rule +:+ Py.nl +:+ "                    VISUAL ANALYSIS" +:+ Py.nl +:+
    rule +:+ Py.nl +:+ Py.nl +:+ "🖼️ Visual Features:" +:+ Py.nl +:+
    "   • Signatures Detected: " +:+
    (from_option Py.str_of_Z "N/A" (signatures_detected visual)) +:+ Py.nl +:+
    "   • Official Stamps: " +:+
    (from_option Py.str_of_Z "N/A" (stamps_detected visual)) +:+ Py.nl +:+
    "   • Layout Consistency: " +:+
    (from_option str_of_float "N/A" (layout_consistency_score visual)) +:+ Py.nl +:+
    Py.nl +:+ "🔍 Anomalies:" +:+ Py.nl +:+ "   " +:+
    (bullets (default ["None"] (anomalies visual))) +:+ Py.nl +:+ Py.nl +:+ rule +:+
    Py.nl +:+ "                    RECOMMENDATIONS" +:+ Py.nl +:+ rule +:+ Py.nl +:+
    Py.nl +:+ (Py.join Py.nl (recommendations results)) +:+ Py.nl +:+ Py.nl +:+ rule +:+
    Py.nl)))))).

End Formats.

End Report.

(** * Properties *)


Example count_example : Py.count "ab" "abcabab" = 3%Z.
Proof. reflexivity. Qed.

Example split_example : Py.split "ab" "1ab2abab3" = ["1"; "2"; ""; "3"].
Proof. reflexivity. Qed.

Example strip_example : Py.strip "  a b  " = "a b".
Proof. reflexivity. Qed.

Example str_example : Py.str_of_Z 305 = "305".
Proof. reflexivity. Qed.

Example findall_example :
  Re.findall (Re.Seq (Re.lit_ci "waive") (Re.Seq (Re.Plus Re.ws) (Re.lit_ci "all")))
    "We WAIVE  all and waive all." = ["WAIVE  all"; "waive all"].
Proof. reflexivity. Qed.

(** ** The risk scorer of the text-only analyzer *)

Section RiskScorer.

Import Simple.
Local Open Scope Z_scope.

Lemma check_high_amounts_exists amounts fin :
  check_high_amounts amounts fin =
  if existsb (fun a => Py.contains "million" (Py.lower a) || Py.contains "M" a) amounts
  then 30 else fin.
Proof.
  induction amounts as [|a rest IH]; simpl; [reflexivity|].
  destruct (Py.contains "million" (Py.lower a) || Py.contains "M" a); [reflexivity|].
  exact IH.
Qed.

Lemma check_high_amounts_range amounts fin :
  0 <= fin <= 30 -> 0 <= check_high_amounts amounts fin <= 30.
Proof.
  intros Hfin. rewrite check_high_amounts_exists.
  destruct (existsb _ amounts); lia.
Qed.

Lemma financial_risk_range ta : 0 <= financial_risk (assess_risks ta) <= 30.
Proof.
  unfold assess_risks; simpl.
  destruct (default [] (monetary_amounts ta)) as [|a rest] eqn:E; [lia|].
  apply check_high_amounts_range. lia.
Qed.

End RiskScorer.

Section RiskScorerClaims.

Import Simple.
Local Open Scope Z_scope.

(** The financial sub-score in closed form: the loop with its [break]
    is a test for the existence of an amount that names a million. *)
Lemma financial_risk_closed_form ta :
  financial_risk (assess_risks ta) =
  Spec.financial_with_letter (default [] (monetary_amounts ta)).
Proof.
  unfold assess_risks, Spec.financial_with_letter; simpl.
  destruct (default [] (monetary_amounts ta)) as [|a rest]; [reflexivity|].
  rewrite check_high_amounts_exists.
  replace (Z.of_nat (length (a :: rest)) * 5) with (5 * Z.of_nat (length (a :: rest))) by lia.
  reflexivity.
Qed.

(** An amount that contains "million" makes the test succeed. *)
Lemma existsb_million amounts a :
  In a amounts -> Py.contains "million" (Py.lower a) = true ->
  existsb (fun a => Py.contains "million" (Py.lower a) || Py.contains "M" a) amounts = true.
Proof.
  intros Hin Hm. apply existsb_exists. exists a. split; [exact Hin|].
  rewrite Hm. reflexivity.
Qed.

(** C4, as the code has it: the financial sub-score is min(30, 5 x the
    number of amounts), replaced by exactly 30 when some amount contains
    "million" in any case or contains the capital letter M anywhere; with
    four amounts of which one contains "million" it is 30, and so it is on
    the sample document with four amounts. *)
Theorem C4_financial_sub_score :
  (forall ta,
     financial_risk (assess_risks ta) =
     Spec.financial_with_letter (default [] (monetary_amounts ta))) /\
  (forall ta a,
     length (default [] (monetary_amounts ta)) = 4%nat /\
     In a (default [] (monetary_amounts ta)) /\
     Py.contains "million" (Py.lower a) = true ->
     financial_risk (assess_risks ta) = 30) /\
  monetary_amounts (extract_text_features Samples.doc_million)
    = Some ["$100"; "$250"; "$900"; "4 million"] /\
  financial_risk (assess_risks (extract_text_features Samples.doc_million)) = 30.
Proof.
  split; [exact financial_risk_closed_form|].
  split.
  - intros ta a (_ & Hin & Hm). rewrite financial_risk_closed_form.
    unfold Spec.financial_with_letter. rewrite (existsb_million _ a Hin Hm). reflexivity.
  - apply conj; vm_compute; reflexivity.
Qed.

(** C4, against the wording "a literal M suffix": on a page that writes
    "5 MILLION" with dotted capital I's, the unit rule of the extractor
    (read with [re.IGNORECASE]) finds the amount; its lowercase form does
    not contain "million" and it does not end with the letter M, but it
    contains the letter M, so the sub-score is 30 where the wording gives
    the count formula, 5. *)
Lemma C4_letter_M_not_only_suffix :
  monetary_amounts (extract_text_features Samples.doc_dotted_million) =
    Some [Samples.dotted_million] /\
  Py.contains "million" (Py.lower Samples.dotted_million) = false /\
  Py.endswith "M" Samples.dotted_million = false /\
  Py.contains "M" Samples.dotted_million = true /\
  financial_risk (assess_risks (extract_text_features Samples.doc_dotted_million)) = 30 /\
  Spec.financial_with_suffix [Samples.dotted_million] = 5 /\
  financial_risk (assess_risks (extract_text_features Samples.doc_dotted_million)) <>
  Spec.financial_with_suffix
    (default [] (monetary_amounts (extract_text_features Samples.doc_dotted_million))).
Proof.
  repeat apply conj; vm_compute; congruence.
Qed.

(** C5: for text features whose keyword count is not negative, every
    sub-score lies between 0 and its cap (40, 30, 20, 10), the overall
    score is the sum of the four and lies between 0 and 100. *)
Theorem C5_sub_score_caps ta :
  0 <= default 0 (risk_keywords_found ta) ->
  let r := assess_risks ta in
  0 <= keyword_risk r <= 40 /\
  0 <= financial_risk r <= 30 /\
  0 <= compliance_risk r <= 20 /\
  0 <= signature_risk r <= 10 /\
  overall_risk r = keyword_risk r + financial_risk r + compliance_risk r + signature_risk r /\
  0 <= overall_risk r <= 100.
Proof.
  intros Hk r.
  pose proof (financial_risk_range ta) as Hf. fold r in Hf.
  assert (Hkw : 0 <= keyword_risk r <= 40) by (subst r; unfold assess_risks; simpl; lia).
  assert (Hc : 0 <= compliance_risk r <= 20) by (subst r; unfold assess_risks; simpl; lia).
  assert (Hs : 0 <= signature_risk r <= 10).
  { subst r; unfold assess_risks; simpl.
    destruct (default 0 (signature_indicators ta) =? 0); lia. }
  assert (Ho : overall_risk r =
               keyword_risk r + financial_risk r + compliance_risk r + signature_risk r)
    by reflexivity.
  repeat split; try lia.
Qed.

Lemma C5_sub_score_caps_witness :
  let r := assess_risks (extract_text_features Samples.doc_70) in
  0 <= keyword_risk r <= 40 /\
  0 <= financial_risk r <= 30 /\
  0 <= compliance_risk r <= 20 /\
  0 <= signature_risk r <= 10 /\
  overall_risk r = keyword_risk r + financial_risk r + compliance_risk r + signature_risk r /\
  0 <= overall_risk r <= 100.
Proof.
  apply (C5_sub_score_caps (extract_text_features Samples.doc_70)).
  vm_compute. discriminate.
Defined.

(** C6: the level is the threshold rule applied to the overall score:
    HIGH from 70, MEDIUM from 40 up to 69, LOW below 40; the sample
    documents that score exactly 70, 40, 39 and 0 are HIGH, MEDIUM, LOW
    and LOW. *)
Theorem C6_risk_level_thresholds :
  (forall ta,
     risk_level (assess_risks ta) = Spec.level_of_score (overall_risk (assess_risks ta))) /\
  (forall overall,
     (Spec.level_of_score overall = HIGH <-> 70 <= overall) /\
     (Spec.level_of_score overall = MEDIUM <-> 40 <= overall < 70) /\
     (Spec.level_of_score overall = LOW <-> overall < 40)) /\
  (let r := assess_risks (extract_text_features Samples.doc_70) in
   overall_risk r = 70 /\ risk_level r = HIGH) /\
  (let r := assess_risks (extract_text_features Samples.doc_40) in
   overall_risk r = 40 /\ risk_level r = MEDIUM) /\
  (let r := assess_risks (extract_text_features Samples.doc_39) in
   overall_risk r = 39 /\ risk_level r = LOW) /\
  (let r := assess_risks (extract_text_features Samples.doc_0) in
   overall_risk r = 0 /\ risk_level r = LOW).
Proof.
  split; [intros ta; reflexivity|].
  split.
  - intros overall. unfold Spec.level_of_score.
    destruct (70 <=? overall) eqn:E70; destruct (40 <=? overall) eqn:E40;
      repeat split; intros; try congruence; try lia.
  - cbv zeta. repeat apply conj; vm_compute; reflexivity.
Qed.

End RiskScorerClaims.

(** ** The recommendations of the text-only analyzer *)

Section Recommendations.

Import Simple.

Lemma append_if_app cond line l :
  append_if cond line l = l ++ Spec.line_if cond line.
Proof.
  unfold append_if, Spec.line_if. destruct cond; [reflexivity|].
  symmetry. apply app_nil_r.
Qed.

Lemma Zltb_length {A} (l : list A) n :
  (Z.of_nat n <? Z.of_nat (length l))%Z = (n <? length l)%nat.
Proof.
  destruct (Nat.ltb_spec n (length l)); [apply Z.ltb_lt | apply Z.ltb_ge]; lia.
Qed.

(** C8, as the code has it: the list starts with the lines of the level
    (two lines for HIGH, the second one the "extreme caution" line; two
    lines for MEDIUM, the second one the "legal counsel" line; one line for
    LOW, the three first lines being different texts), followed by the
    advisories in the fixed order signature, financial >= 20, compliance >=
    15, more than 5 sections, indemnify (or indemnification), termination,
    confidential or proprietary. *)
Theorem C8_recommendations_by_level :
  (forall r ta, generate_recommendations r ta = Spec.recommendations_by_level r ta) /\
  rec_high <> rec_medium /\ rec_high <> rec_low /\ rec_medium <> rec_low.
Proof.
  split.
  - intros r ta. unfold generate_recommendations, Spec.recommendations_by_level.
    rewrite !append_if_app. unfold Spec.advisories.
    change 5%Z with (Z.of_nat 5). rewrite Zltb_length.
    rewrite <- !app_assoc.
    destruct (risk_level r); reflexivity.
  - repeat apply conj; vm_compute; congruence.
Qed.

(** C8, against the wording "exactly one line keyed by the risk level,
    only HIGH appending a second line": the sample document of level MEDIUM
    gets the MEDIUM line and then the "legal counsel" line. *)
Lemma C8_medium_has_second_line :
  let ta := extract_text_features Samples.doc_40 in
  let r := assess_risks ta in
  risk_level r = MEDIUM /\
  generate_recommendations r ta = [rec_medium; rec_counsel] /\
  Spec.recommendations_one_level_line r ta = [rec_medium] /\
  generate_recommendations r ta <> Spec.recommendations_one_level_line r ta.
Proof.
  cbv zeta. repeat apply conj; vm_compute; congruence.
Qed.

End Recommendations.

(** ** A file that cannot be parsed *)

Section ParseFailure.

(** C3, as the code has it: the text-only analyzer absorbs the failure
    and returns a complete result (error marker, keyword count 0, scores
    0, 0, 0, 10, overall 10, LOW, the LOW line and the signature advisory);
    the combined analyzer hands the error to its caller and produces
    nothing. *)
Theorem C3_parse_failure pdf_path e now :
  Simple.analyze_document pdf_path (Unreadable e) now =
  Py.Ok
    {| Simple.filename := basename pdf_path;
       Simple.timestamp := now;
       Simple.res_metadata := Simple.extract_metadata (Unreadable e);
       Simple.text_analysis :=
         {| Simple.error := Some e; Simple.total_characters := None;
            Simple.total_words := None; Simple.page_count := None;
            Simple.risk_keywords_found := Some 0%Z; Simple.keyword_breakdown := None;
            Simple.monetary_amounts := None; Simple.dates_found := None;
            Simple.emails_found := None; Simple.signature_indicators := None;
            Simple.high_risk_sections := None |};
       Simple.risk_assessment :=
         {| Simple.keyword_risk := 0; Simple.financial_risk := 0;
            Simple.compliance_risk := 0; Simple.signature_risk := 10;
            Simple.overall_risk := 10; Simple.risk_level := LOW |};
       Simple.recommendations := [Simple.rec_low; Simple.rec_signature] |} /\
  Simple.md_error (Simple.extract_metadata (Unreadable e)) = Some e /\
  forall round2 render,
    Multimodal.analyze_document round2 pdf_path (Unreadable e) render now = Py.Raise e.
Proof.
  repeat apply conj; reflexivity.
Qed.

(** C3, against "the analysis fails and no result is produced": on an
    unreadable file the text-only analyzer raises nothing and returns a
    result. *)
Lemma C3_simple_analyzer_returns_a_result :
  (exists results,
     Simple.analyze_document "contract.pdf" (Unreadable "EOF marker not found")
       "2024-05-01T10:00:00" = Py.Ok results /\
     Simple.overall_risk (Simple.risk_assessment results) = 10%Z) /\
  ~ (exists e,
       Simple.analyze_document "contract.pdf" (Unreadable "EOF marker not found")
         "2024-05-01T10:00:00" = Py.Raise e).
Proof.
  split.
  - eexists. split; reflexivity.
  - intros [e He]. discriminate He.
Qed.

End ParseFailure.

(** ** The high-risk sections of the text-only analyzer *)

Section HighRiskSections.

Import Simple.

Lemma fold_left_ext {A B} (f g : A -> B -> A) l a :
  (forall a x, f a x = g a x) -> fold_left f l a = fold_left g l a.
Proof.
  intros Hfg. revert a. induction l as [|x l IH]; intros a; simpl; [reflexivity|].
  rewrite Hfg. apply IH.
Qed.

(** A loop that appends to a list builds the concatenation of what each
    turn appends. *)
Lemma fold_left_append {A B} (f : B -> list A) l acc :
  fold_left (fun acc x => acc ++ f x) l acc = acc ++ flat_map f l.
Proof.
  revert acc. induction l as [|x l IH]; intros acc; simpl.
  - symmetry. apply app_nil_r.
  - rewrite IH. symmetry. apply app_assoc.
Qed.

Lemma fold_left_append_one {A B} (g : B -> A) l acc :
  fold_left (fun acc x => acc ++ [g x]) l acc = acc ++ map g l.
Proof.
  revert acc. induction l as [|x l IH]; intros acc; simpl.
  - symmetry. apply app_nil_r.
  - rewrite IH. rewrite <- app_assoc. reflexivity.
Qed.

(** A loop that counts the elements passing a test. *)
Lemma fold_left_count {B} (p : B -> bool) l n :
  fold_left (fun n x => if p x then (n + 1)%Z else n) l n =
  (n + Z.of_nat (length (List.filter p l)))%Z.
Proof.
  revert n. induction l as [|x l IH]; intros n; simpl; [lia|].
  rewrite IH. destruct (p x); simpl length; lia.
Qed.

Lemma keywords_present_distinct para :
  keywords_present (Py.lower para) = Z.of_nat (Spec.distinct_keywords para).
Proof.
  unfold keywords_present, Spec.distinct_keywords. rewrite fold_left_count. lia.
Qed.

Lemma substring_no_length n s : substring n 0 s = "".
Proof.
  revert n. induction s as [|c s IH]; intros [|n]; simpl; auto.
Qed.

Lemma substring_past_end n m s : String.length s <= n -> substring n m s = "".
Proof.
  revert n. induction s as [|c s IH]; intros [|n] Hn; simpl in *;
    try reflexivity; try lia.
  - destruct m; reflexivity.
  - apply IH. lia.
Qed.

(** A slice with bounds in range is a substring. *)
Lemma slice_substring s (a b : nat) :
  b <= String.length s ->
  Py.slice s (Z.of_nat a) (Z.of_nat b) = substring a (b - a) s.
Proof.
  intros Hb. unfold Py.slice, Py.norm_index, Py.len.
  destruct (Z.ltb_spec (Z.of_nat a) 0); [lia|].
  destruct (Z.ltb_spec (Z.of_nat b) 0); [lia|].
  replace (Z.to_nat (Z.min (Z.of_nat (String.length s)) (Z.max 0 (Z.of_nat b)))) with b by lia.
  destruct (Nat.le_gt_cases a (String.length s)) as [Ha|Ha].
  - replace (Z.to_nat (Z.min (Z.of_nat (String.length s)) (Z.max 0 (Z.of_nat a)))) with a by lia.
    reflexivity.
  - replace (Z.to_nat (Z.min (Z.of_nat (String.length s)) (Z.max 0 (Z.of_nat a))))
      with (String.length s) by lia.
    replace (b - String.length s) with 0 by lia.
    replace (b - a) with 0 by lia.
    rewrite !substring_no_length. reflexivity.
Qed.

Lemma pattern_section_phrase text pattern m :
  pattern_section text pattern m = Spec.stripped_section text pattern m.
Proof.
  unfold pattern_section, Spec.stripped_section, Spec.window, Py.len. f_equal. f_equal.
  replace (Z.max 0 (Z.of_nat (fst m) - 100)) with (Z.of_nat (fst m - 100)) by lia.
  replace (Z.min (Z.of_nat (String.length text)) (Z.of_nat (snd m) + 100))
    with (Z.of_nat (Nat.min (String.length text) (snd m + 100))) by lia.
  apply slice_substring. lia.
Qed.

Lemma slice_to_300 para :
  300 < String.length para -> Py.slice_to para 300 = substring 0 300 para.
Proof.
  intros Hlen. unfold Py.slice_to.
  change 0%Z with (Z.of_nat 0). change 300%Z with (Z.of_nat 300).
  rewrite slice_substring by lia. reflexivity.
Qed.

Lemma str_of_Z_nat k : Py.str_of_Z (Z.of_nat k) = Py.str_of_nat k.
Proof.
  unfold Py.str_of_Z. destruct (Z.ltb_spec (Z.of_nat k) 0); [lia|].
  rewrite Nat2Z.id. reflexivity.
Qed.

Lemma paragraph_step_section sections para :
  paragraph_step sections para = sections ++ Spec.paragraph_section para.
Proof.
  unfold paragraph_step, Spec.paragraph_section.
  rewrite keywords_present_distinct. set (k := Spec.distinct_keywords para).
  destruct (Nat.leb_spec 3 k) as [Hk|Hk].
  - replace (3 <=? Z.of_nat k)%Z with true by (symmetry; apply Z.leb_le; lia).
    f_equal. f_equal. rewrite str_of_Z_nat. f_equal.
    + unfold Py.len.
      destruct (Nat.leb_spec (String.length para) 300) as [Hl|Hl].
      * replace (300 <? Z.of_nat (String.length para))%Z with false
          by (symmetry; apply Z.ltb_ge; lia).
        reflexivity.
      * replace (300 <? Z.of_nat (String.length para))%Z with true
          by (symmetry; apply Z.ltb_lt; lia).
        rewrite slice_to_300 by lia. reflexivity.
    + destruct (Nat.leb_spec k 4) as [H4|H4].
      * replace (Z.of_nat k <? 5)%Z with true by (symmetry; apply Z.ltb_lt; lia).
        reflexivity.
      * replace (Z.of_nat k <? 5)%Z with false by (symmetry; apply Z.ltb_ge; lia).
        reflexivity.
  - replace (3 <=? Z.of_nat k)%Z with false by (symmetry; apply Z.leb_gt; lia).
    symmetry. apply app_nil_r.
Qed.

Lemma lslice_from_0 {A} (l : list A) n : Py.lslice l 0 (Z.of_nat n) = firstn n l.
Proof.
  unfold Py.lslice. rewrite Nat2Z.id. change (Z.to_nat 0) with 0.
  rewrite Nat.sub_0_r. reflexivity.
Qed.

Lemma find_high_risk_sections_spec text :
  find_high_risk_sections text = Spec.stripped_high_risk_sections text.
Proof.
  unfold find_high_risk_sections, Spec.stripped_high_risk_sections. cbv zeta.
  change 10%Z with (Z.of_nat 10). rewrite lslice_from_0. apply f_equal.
  rewrite (fold_left_ext paragraph_step (fun acc para => acc ++ Spec.paragraph_section para))
    by apply paragraph_step_section.
  rewrite fold_left_append. apply (f_equal (fun l => l ++ _)).
  unfold Spec.stripped_sections.
  rewrite (fold_left_ext _
             (fun acc p => acc ++ map (Spec.stripped_section text (fst p))
                                      (Re.finditer (snd p) text))).
  - rewrite fold_left_append. reflexivity.
  - intros acc p. rewrite fold_left_append_one. f_equal.
    apply map_ext. intros m. apply pattern_section_phrase.
Qed.

End HighRiskSections.

Section HighRiskSectionsClaim.

Import Simple.

Lemma length_append s1 s2 :
  String.length (s1 +:+ s2) = String.length s1 + String.length s2.
Proof.
  induction s1 as [|c s1 IH]; simpl; [reflexivity|]. rewrite IH. reflexivity.
Qed.

Lemma length_substring n m s : String.length (substring n m s) <= m.
Proof.
  revert n m. induction s as [|c s IH]; intros [|n] [|m]; simpl; try lia.
  - specialize (IH 0 m). lia.
  - apply IH.
  - apply IH.
Qed.

(** What a section of the second pass looks like. *)
Lemma paragraph_section_shape para s :
  In s (Spec.paragraph_section para) ->
  3 <= Spec.distinct_keywords para /\
  (section_risk_level s = MEDIUM <-> Spec.distinct_keywords para <= 4) /\
  (section_risk_level s = HIGH <-> 5 <= Spec.distinct_keywords para) /\
  (String.length para <= 300 -> section_context s = para) /\
  (300 < String.length para -> section_context s = substring 0 300 para +:+ "...") /\
  String.length (section_context s) <= 303.
Proof.
  unfold Spec.paragraph_section. cbv zeta.
  set (k := Spec.distinct_keywords para). intros Hin.
  destruct (Nat.leb_spec 3 k) as [Hk|Hk]; [|destruct Hin].
  destruct Hin as [<-|[]]. simpl.
  split; [exact Hk|].
  split; [|split; [|split; [|split]]].
  - destruct (Nat.leb_spec k 4); split; intros; try congruence; try lia.
  - destruct (Nat.leb_spec k 4); split; intros; try congruence; try lia.
  - intros Hl. destruct (Nat.leb_spec (String.length para) 300); [reflexivity|lia].
  - intros Hl. destruct (Nat.leb_spec (String.length para) 300); [lia|reflexivity].
  - destruct (Nat.leb_spec (String.length para) 300); [lia|].
    rewrite length_append. pose proof (length_substring 0 300 para). simpl. lia.
Qed.

Lemma phrase_sections_high text :
  Forall (fun s => section_risk_level s = HIGH) (Spec.stripped_sections text).
Proof.
  unfold Spec.stripped_sections. apply List.Forall_forall. intros s Hin.
  apply in_flat_map in Hin. destruct Hin as (p & _ & Hin).
  apply in_map_iff in Hin. destruct Hin as (m & <- & _). reflexivity.
Qed.

(** C9, as the code has it: the sections are the first 10 of the
    sections of the first pass (one HIGH section per match of one of the
    six phrase patterns, in the order of the patterns and then of the
    matches, whose context is the window from 100 characters before the
    match to 100 after it, stripped of the whitespace at its two ends)
    followed by those of the second pass (one section per paragraph with at
    least 3 different keywords, MEDIUM for 3 or 4 and HIGH from 5, the
    paragraph itself up to 300 characters and otherwise its first 300
    characters and "..."). *)
Theorem C9_high_risk_sections text :
  find_high_risk_sections text =
    firstn 10 (Spec.stripped_sections text ++ Spec.paragraph_sections text) /\
  length (find_high_risk_sections text) <= 10 /\
  Forall (fun s => section_risk_level s = HIGH) (Spec.stripped_sections text) /\
  (forall para s,
     In s (Spec.paragraph_section para) ->
     3 <= Spec.distinct_keywords para /\
     (section_risk_level s = MEDIUM <-> Spec.distinct_keywords para <= 4) /\
     (section_risk_level s = HIGH <-> 5 <= Spec.distinct_keywords para) /\
     (String.length para <= 300 -> section_context s = para) /\
     (300 < String.length para -> section_context s = substring 0 300 para +:+ "...") /\
     String.length (section_context s) <= 303) /\
  (forall para, 3 <= Spec.distinct_keywords para -> length (Spec.paragraph_section para) = 1) /\
  high_risk_patterns = Spec.phrase_patterns /\
  (forall pattern m,
     section_pattern (Spec.stripped_section text pattern m) = pattern /\
     section_context (Spec.stripped_section text pattern m) =
       Py.strip (section_context (Spec.phrase_section text pattern m)) /\
     section_context (Spec.phrase_section text pattern m) =
       substring (fst m - 100)
         (Nat.min (String.length text) (snd m + 100) - (fst m - 100)) text).
Proof.
  split; [apply find_high_risk_sections_spec|].
  split; [rewrite find_high_risk_sections_spec; unfold Spec.stripped_high_risk_sections;
          rewrite List.length_firstn; lia|].
  split; [apply phrase_sections_high|].
  split; [intros para s Hin; exact (paragraph_section_shape para s Hin)|].
  split.
  - intros para Hk. unfold Spec.paragraph_section.
    destruct (Nat.leb_spec 3 (Spec.distinct_keywords para)); [reflexivity|lia].
  - split; [reflexivity|]. intros pattern m. repeat split.
Qed.

(** C9, against "a section with a +-100-character context window": on a
    page with the phrase between two spaces the code returns the phrase
    alone, 19 characters, where the window is the whole text of 22
    characters: the two spaces, the phrase and the line feed that ends the
    page. *)
Lemma C9_window_is_stripped :
  let text := " unlimited liability " +:+ Py.nl in
  total_characters (extract_text_features Samples.doc_spaced_phrase) =
    Some (Py.len text) /\
  high_risk_sections (extract_text_features Samples.doc_spaced_phrase) =
    Some (find_high_risk_sections text) /\
  find_high_risk_sections text =
    [{| section_pattern := "unlimited\s+liability";
        section_context := "unlimited liability";
        section_risk_level := HIGH |}] /\
  Spec.high_risk_sections text =
    [{| section_pattern := "unlimited\s+liability";
        section_context := text;
        section_risk_level := HIGH |}] /\
  find_high_risk_sections text <> Spec.high_risk_sections text.
Proof.
  repeat apply conj; try (vm_compute; reflexivity).
  vm_compute. intros H. discriminate H.
Qed.

(** The sections of the sample clauses: the phrase match first, then the
    paragraphs with three and with five keywords. *)
Example sections_of_clauses :
  map (fun s => (section_pattern s, section_risk_level s))
    (find_high_risk_sections Samples.clauses) =
  [("unlimited\s+liability", HIGH); ("3 risk keywords", MEDIUM); ("5 risk keywords", HIGH)].
Proof. vm_compute. reflexivity. Qed.

End HighRiskSectionsClaim.

(** ** The layout consistency of a page *)

Section LayoutConsistency.

Import Multimodal.
Local Open Scope R_scope.

(** The value returned is cut to the interval from 0 to 1. *)
Lemma layout_consistency_range image : 0 <= analyze_layout_consistency image <= 1.
Proof.
  unfold analyze_layout_consistency, Rmin, Rmax.
  repeat destruct Rle_dec; lra.
Qed.

(** Without a mean above 0 the ratio is taken as 0. *)
Lemma spread_without_positive_mean densities :
  (forall m, np_mean densities = Some m -> m <= 0) -> spread densities = 0.
Proof.
  intros Hm. unfold spread.
  destruct (np_mean densities) as [m|]; [|reflexivity].
  destruct (np_std densities) as [sd|]; [|reflexivity].
  destruct (Rlt_dec 0 m) as [Hpos|]; [|reflexivity].
  specialize (Hm m eq_refl). lra.
Qed.

Lemma layout_consistency_without_positive_mean image :
  (forall m, np_mean (quadrant_densities (gray image)) = Some m -> m <= 0) ->
  analyze_layout_consistency image = 1.
Proof.
  intros Hm. unfold analyze_layout_consistency.
  rewrite (spread_without_positive_mean _ Hm).
  unfold Rmin, Rmax. repeat destruct Rle_dec; lra.
Qed.

Lemma blank_page_mean :
  np_mean (quadrant_densities (gray Samples.blank_page)) = Some 0.
Proof.
  unfold np_mean, quadrant_densities, block_mean, mean, block, Rsum. simpl.
  change (threshold_inv 255) with 0%Z. f_equal. lra.
Qed.

(** C1, as the code has it: the layout consistency of every page lies
    between 0 and 1; when the mean ink density of the four quadrants is 0,
    or is not a number because a quadrant is empty, the ratio of the
    deviation to the mean is taken as 0 without any division, and the
    consistency is 1. *)
Theorem C1_layout_consistency :
  (forall image, 0 <= analyze_layout_consistency image <= 1) /\
  (forall image,
     np_mean (quadrant_densities (gray image)) = Some 0 ->
     spread (quadrant_densities (gray image)) = 0 /\
     analyze_layout_consistency image = 1) /\
  (forall image,
     np_mean (quadrant_densities (gray image)) = None ->
     spread (quadrant_densities (gray image)) = 0 /\
     analyze_layout_consistency image = 1).
Proof.
  split; [exact layout_consistency_range|].
  split; intros image Hmean.
  - assert (Hm : forall m, np_mean (quadrant_densities (gray image)) = Some m -> m <= 0)
      by (intros m Em; rewrite Hmean in Em; injection Em as <-; lra).
    split; [apply spread_without_positive_mean | apply layout_consistency_without_positive_mean];
      exact Hm.
  - assert (Hm : forall m, np_mean (quadrant_densities (gray image)) = Some m -> m <= 0)
      by (intros m Em; rewrite Hmean in Em; discriminate Em).
    split; [apply spread_without_positive_mean | apply layout_consistency_without_positive_mean];
      exact Hm.
Qed.

(** C1, against "the consistency score is 0 when the mean density is 0":
    on the blank page the mean density is 0 and the consistency is 1. *)
Lemma C1_blank_page_is_consistent :
  np_mean (quadrant_densities (gray Samples.blank_page)) = Some 0 /\
  analyze_layout_consistency Samples.blank_page = 1 /\
  analyze_layout_consistency Samples.blank_page <> 0.
Proof.
  assert (H1 : analyze_layout_consistency Samples.blank_page = 1).
  { apply layout_consistency_without_positive_mean.
    intros m Em. rewrite blank_page_mean in Em. injection Em as <-. lra. }
  split; [exact blank_page_mean|].
  split; [exact H1|]. rewrite H1. lra.
Qed.

(** On a page too small to have four quadrants the mean density is not
    a number, the test [> 0] fails and the consistency is 1 as well. *)
Example tiny_page_is_consistent :
  np_mean (quadrant_densities (gray Samples.tiny_page)) = None /\
  analyze_layout_consistency Samples.tiny_page = 1.
Proof.
  assert (Hnan : np_mean (quadrant_densities (gray Samples.tiny_page)) = None)
    by reflexivity.
  split; [exact Hnan|].
  apply layout_consistency_without_positive_mean.
  intros m Em. rewrite Hnan in Em. discriminate Em.
Qed.

End LayoutConsistency.

(** ** The visual features when rendering or detection fails *)

Section VisualFailure.

Import Multimodal.

(** When rendering raises, or when an OpenCV call raises on the first
    page, the dictionary of the handler is returned: the message and the
    fallback score 50. *)
Lemma visual_failure_absorbed round2 e rest :
  extract_visual_features round2 (Py.Raise e) = visual_error e /\
  extract_visual_features round2 (Py.Ok (Unprocessable e :: rest)) = visual_error e /\
  error (visual_error e) = Some e /\
  visual_risk_score (visual_error e) = Some 50%Z.
Proof.
  repeat apply conj; reflexivity.
Qed.

(** Whatever the rendering gives, the analysis of a file whose text can
    be read returns a result that carries the visual features. *)
Lemma visual_failure_does_not_abort round2 pdf_path file render now tf :
  extract_text_features file = Py.Ok tf ->
  exists results,
    analyze_document round2 pdf_path file render now = Py.Ok results /\
    visual_analysis results = extract_visual_features round2 render.
Proof.
  intros Htf. unfold analyze_document. rewrite Htf. simpl.
  eexists. split; reflexivity.
Qed.

(** C2, on the path where rendering gives no image: the dictionary
    returned has the error marker but no visual risk score, so the combined
    score reads 0 where the handler of the other failures gives 50. *)
Theorem C2_no_image_without_fallback_score round2 :
  error (extract_visual_features round2 (Py.Ok [])) =
    Some "Could not convert PDF to image" /\
  visual_risk_score (extract_visual_features round2 (Py.Ok [])) = None /\
  visual_risk_score (extract_visual_features round2 (Py.Ok [])) <> Some 50%Z /\
  visual_risk_score (extract_visual_features round2 (Py.Raise "Unable to get page count"))
    = Some 50%Z /\
  default 0%Z (visual_risk_score (extract_visual_features round2 (Py.Ok []))) = 0%Z.
Proof.
  repeat apply conj; try reflexivity. discriminate.
Qed.

End VisualFailure.

(** ** The combined score *)

Section CombinedScore.

Import Multimodal.
Local Open Scope R_scope.

Lemma count_nonneg sub s : (0 <= Py.count sub s)%Z.
Proof.
  unfold Py.count. destruct sub; lia.
Qed.

Lemma keyword_total_nonneg text keywords n :
  (0 <= n)%Z ->
  (0 <= fold_left (fun n keyword => (n + Py.count keyword text)%Z) keywords n)%Z.
Proof.
  revert n. induction keywords as [|k keywords IH]; intros n Hn; simpl; [exact Hn|].
  apply IH. pose proof (count_nonneg k text). lia.
Qed.

Lemma Ok_inj {A} (a b : A) : Py.Ok a = Py.Ok b -> a = b.
Proof.
  intros H. injection H as H. exact H.
Qed.

(** The text score of the features that the extractor returns. *)
Lemma text_features_scores file tf :
  extract_text_features file = Py.Ok tf ->
  exists k,
    (0 <= k)%Z /\
    risk_keywords_found tf = Some k /\
    text_risk_score tf = Some (Z.min 100 (k * 5)).
Proof.
  unfold extract_text_features. destruct file as [e|reader]; [discriminate|].
  destruct (full_text_of (pages reader) "") as [full_text|e]; unfold Py.bind;
    [|discriminate].
  intros Htf. apply Ok_inj in Htf. subst tf.
  cbv beta iota zeta delta [risk_keywords_found text_risk_score].
  eexists. split; [|split; reflexivity].
  apply keyword_total_nonneg. lia.
Qed.

Lemma visual_score_range signatures stamps layout :
  (0 <= Spec.visual_score signatures stamps layout <= 75)%Z.
Proof.
  unfold Spec.visual_score.
  destruct (signatures =? 0)%nat, (2 <? stamps)%nat, (Rlt_dec layout 0.7); lia.
Qed.

(** The visual features of a page that is processed. *)
Lemma visual_features_of_page round2 img rest :
  let vf := extract_visual_features round2 (Py.Ok (Bitmap img :: rest)) in
  visual_risk_score vf =
    Some (Spec.visual_score (length (detect_signature_regions img))
            (length (detect_stamp_regions img)) (analyze_layout_consistency img)) /\
  signatures_detected vf = Some (Z.of_nat (length (detect_signature_regions img))).
Proof.
  simpl. unfold Spec.visual_score. split; [|reflexivity].
  destruct (length (detect_signature_regions img) =? 0)%nat,
           (2 <? length (detect_stamp_regions img))%nat,
           (Rlt_dec (analyze_layout_consistency img) 0.7); reflexivity.
Qed.

Lemma Zeqb_of_nat_0 n : (Z.of_nat n =? 0)%Z = (n =? 0)%nat.
Proof.
  destruct n; reflexivity.
Qed.

(** The combined score of features with a text score and a visual score
    that are not negative, written as the clamped blend. *)
Lemma combined_risk_blend tf vf k v s :
  (0 <= k)%Z -> (0 <= v)%Z ->
  text_risk_score tf = Some (Z.min 100 (k * 5)) ->
  visual_risk_score vf = Some v ->
  signatures_detected vf = Some (Z.of_nat s) ->
  calculate_combined_risk tf vf =
  Spec.combined_score k v s (length (default [] (monetary_amounts tf))).
Proof.
  intros Hk Hv Ht Hvs Hs. unfold calculate_combined_risk, Spec.combined_score.
  rewrite Ht, Hvs, Hs. simpl default. rewrite Zeqb_of_nat_0.
  replace (5 * k)%Z with (k * 5)%Z by lia.
  assert (Ht0 : 0 <= IZR (Z.min 100 (k * 5))) by (apply IZR_le; lia).
  assert (Hv0 : 0 <= IZR v) by (apply IZR_le; lia).
  destruct (s =? 0)%nat, (3 <? length (default [] (monetary_amounts tf)))%nat;
    unfold Rmin, Rmax; repeat destruct Rle_dec; lra.
Qed.

Lemma visual_score_scenario : Spec.visual_score 0 3 0.5 = 75%Z.
Proof.
  unfold Spec.visual_score. simpl.
  destruct (Rlt_dec 0.5 0.7); [reflexivity | lra].
Qed.

(** C7: for a page that is processed, the visual risk score is 30
    without a signature region, plus 20 with more than 2 stamp regions,
    plus 25 with a layout consistency below 0.7 (75 with 0 signatures, 3
    stamps and a consistency of 0.5); and the combined score of the text
    features of the extractor with these visual features is
    0.6 x min(100, 5 x keywords) + 0.4 x visual score, plus 10 without a
    signature and plus 5 with more than 3 amounts, cut to [0, 100]. *)
Theorem C7_combined_score round2 file tf img rest :
  extract_text_features file = Py.Ok tf ->
  visual_risk_score (extract_visual_features round2 (Py.Ok (Bitmap img :: rest))) =
    Some (Spec.visual_score (length (detect_signature_regions img))
            (length (detect_stamp_regions img)) (analyze_layout_consistency img)) /\
  (length (detect_signature_regions img) = 0%nat ->
   length (detect_stamp_regions img) = 3%nat ->
   analyze_layout_consistency img = 0.5 ->
   visual_risk_score (extract_visual_features round2 (Py.Ok (Bitmap img :: rest))) = Some 75%Z) /\
  calculate_combined_risk tf (extract_visual_features round2 (Py.Ok (Bitmap img :: rest))) =
    Spec.combined_score (default 0%Z (risk_keywords_found tf))
      (Spec.visual_score (length (detect_signature_regions img))
         (length (detect_stamp_regions img)) (analyze_layout_consistency img))
      (length (detect_signature_regions img))
      (length (default [] (monetary_amounts tf))).
Proof.
  intros Htf.
  destruct (text_features_scores file tf Htf) as (k & Hk & Hkf & Hts).
  pose proof (visual_features_of_page round2 img rest) as Hvf. cbv zeta in Hvf.
  destruct Hvf as [Hv Hs].
  split; [exact Hv|]. split.
  - intros H0 H3 H5. rewrite Hv, H0, H3, H5, visual_score_scenario. reflexivity.
  - rewrite Hkf. simpl default.
    apply combined_risk_blend; try assumption.
    apply visual_score_range.
Qed.

Lemma C7_combined_score_witness :
  extract_text_features Samples.doc_fees = Py.Ok Samples.features_fees /\
  (visual_risk_score
     (extract_visual_features Samples.round_exact (Py.Ok [Bitmap Samples.uneven_page])) =
     Some (Spec.visual_score (length (detect_signature_regions Samples.uneven_page))
             (length (detect_stamp_regions Samples.uneven_page))
             (analyze_layout_consistency Samples.uneven_page)) /\
   (length (detect_signature_regions Samples.uneven_page) = 0%nat ->
    length (detect_stamp_regions Samples.uneven_page) = 3%nat ->
    analyze_layout_consistency Samples.uneven_page = 0.5 ->
    visual_risk_score
      (extract_visual_features Samples.round_exact (Py.Ok [Bitmap Samples.uneven_page])) = Some 75%Z) /\
   calculate_combined_risk Samples.features_fees
     (extract_visual_features Samples.round_exact (Py.Ok [Bitmap Samples.uneven_page])) =
     Spec.combined_score (default 0%Z (risk_keywords_found Samples.features_fees))
       (Spec.visual_score (length (detect_signature_regions Samples.uneven_page))
          (length (detect_stamp_regions Samples.uneven_page))
          (analyze_layout_consistency Samples.uneven_page))
       (length (detect_signature_regions Samples.uneven_page))
       (length (default [] (monetary_amounts Samples.features_fees)))).
Proof.
  split.
  - vm_compute. reflexivity.
  - apply (C7_combined_score Samples.round_exact Samples.doc_fees Samples.features_fees
             Samples.uneven_page []).
    vm_compute. reflexivity.
Defined.

(** The sample page with uneven quadrants: densities 3/4, 3/4, 1/4 and
    1/4, mean 1/2, deviation 1/4, consistency 1/2. *)
Lemma uneven_page_densities :
  quadrant_densities (gray Samples.uneven_page) =
  [Some (3 / 4); Some (3 / 4); Some (1 / 4); Some (1 / 4)].
Proof.
  unfold quadrant_densities, block_mean, mean, block, Rsum. simpl.
  change (threshold_inv 0) with 255%Z. change (threshold_inv 255) with 0%Z.
  repeat (apply (f_equal2 cons); [apply (f_equal Some); field|]). reflexivity.
Qed.

Lemma uneven_page_consistency : analyze_layout_consistency Samples.uneven_page = 0.5.
Proof.
  unfold analyze_layout_consistency. rewrite uneven_page_densities.
  assert (Hspread : spread [Some (3 / 4); Some (3 / 4); Some (1 / 4); Some (1 / 4)] = 1 / 2).
  { unfold spread, np_mean, np_std, mean, Rsum. simpl.
    replace (((3 / 4 - (3 / 4 + (3 / 4 + (1 / 4 + (1 / 4 + 0)))) / (1 + 1 + 1 + 1)) *
              (3 / 4 - (3 / 4 + (3 / 4 + (1 / 4 + (1 / 4 + 0)))) / (1 + 1 + 1 + 1)) +
              ((3 / 4 - (3 / 4 + (3 / 4 + (1 / 4 + (1 / 4 + 0)))) / (1 + 1 + 1 + 1)) *
               (3 / 4 - (3 / 4 + (3 / 4 + (1 / 4 + (1 / 4 + 0)))) / (1 + 1 + 1 + 1)) +
               ((1 / 4 - (3 / 4 + (3 / 4 + (1 / 4 + (1 / 4 + 0)))) / (1 + 1 + 1 + 1)) *
                (1 / 4 - (3 / 4 + (3 / 4 + (1 / 4 + (1 / 4 + 0)))) / (1 + 1 + 1 + 1)) +
                ((1 / 4 - (3 / 4 + (3 / 4 + (1 / 4 + (1 / 4 + 0)))) / (1 + 1 + 1 + 1)) *
                 (1 / 4 - (3 / 4 + (3 / 4 + (1 / 4 + (1 / 4 + 0)))) / (1 + 1 + 1 + 1)) + 0)))) /
             (1 + 1 + 1 + 1)) with (Rsqr (1 / 4)) by (unfold Rsqr; lra).
    rewrite sqrt_Rsqr by lra.
    destruct Rlt_dec; lra. }
  rewrite Hspread. unfold Rmin, Rmax. repeat destruct Rle_dec; lra.
Qed.

(** The sample document with the sample page: text score 15, visual
    score 75, no signature and four amounts give 9 + 30 + 10 + 5. *)
Example combined_score_of_samples :
  visual_risk_score (extract_visual_features Samples.round_exact (Py.Ok [Bitmap Samples.uneven_page]))
    = Some 75%Z /\
  calculate_combined_risk Samples.features_fees
    (extract_visual_features Samples.round_exact (Py.Ok [Bitmap Samples.uneven_page])) = 54.
Proof.
  pose proof (visual_features_of_page Samples.round_exact Samples.uneven_page []) as Hvf.
  cbv zeta in Hvf. destruct Hvf as [Hv Hs].
  change (length (detect_signature_regions Samples.uneven_page)) with 0%nat in Hv, Hs.
  change (length (detect_stamp_regions Samples.uneven_page)) with 3%nat in Hv.
  rewrite uneven_page_consistency, visual_score_scenario in Hv.
  split; [exact Hv|].
  rewrite (combined_risk_blend Samples.features_fees _ 3 75 0 ltac:(lia) ltac:(lia)
             eq_refl Hv Hs).
  unfold Spec.combined_score.
  change (Z.min 100 (5 * 3)) with 15%Z.
  change (length (default [] (monetary_amounts Samples.features_fees))) with 4%nat.
  change (0 =? 0)%nat with true. change (3 <? 4)%nat with true. cbv iota.
  unfold Rmin, Rmax. repeat destruct Rle_dec; lra.
Qed.

End CombinedScore.

(** ** A degraded visual analysis in the combined score *)

Section DegradedVisual.

Import Multimodal.
Local Open Scope R_scope.

(** The two dictionaries with an error marker. *)
Lemma error_state_cases round2 render :
  error (extract_visual_features round2 render) <> None ->
  (exists e, extract_visual_features round2 render = visual_error e) \/
  extract_visual_features round2 render =
    {| error := Some "Could not convert PDF to image"; signatures_detected := None;
       stamps_detected := None; layout_consistency_score := None;
       visual_risk_score := None; anomalies := None |}.
Proof.
  destruct render as [[|[e|img] rest]|e]; simpl; intros Herr.
  - right. reflexivity.
  - left. exists e. reflexivity.
  - contradiction.
  - left. exists e. reflexivity.
Qed.

(** Features without the key ['signatures_detected'] are scored as if no
    signature had been found. *)
Lemma combined_risk_without_signature_key tf vf :
  signatures_detected vf = None ->
  calculate_combined_risk tf vf =
  Rmin 100
    (IZR (default 0%Z (text_risk_score tf)) * 0.6 +
     IZR (default 0%Z (visual_risk_score vf)) * 0.4 + 10 +
     (if (3 <? length (default [] (monetary_amounts tf)))%nat then 5 else 0)).
Proof.
  intros Hs. unfold calculate_combined_risk. rewrite Hs. simpl.
  destruct (3 <? length (default [] (monetary_amounts tf)))%nat; f_equal; lra.
Qed.

(** ... and get the signature advisory as their second recommendation. *)
Lemma recommendations_without_signature_key score vf ta :
  signatures_detected vf = None -> anomalies vf = None ->
  exists level_line,
    generate_recommendations score vf ta =
    [level_line; rec_signature] ++
    (if (0 <? length (default [] (high_risk_sections ta)))%nat then [rec_sections] else []).
Proof.
  intros Hs Ha. unfold generate_recommendations. rewrite Hs, Ha. simpl.
  destruct (Rle_dec 70 score); [|destruct (Rle_dec 40 score)];
    destruct (0 <? length (default [] (high_risk_sections ta)))%nat;
    eexists; reflexivity.
Qed.

(** C10: visual features in the error state have no signature count; the
    combined score then counts 0 signatures and always contains the +10
    penalty (without being cut at 100 when the text score is at most 100),
    and the recommendations always carry the "no signatures detected"
    advisory, in second position. *)
Theorem C10_degraded_visual_penalty round2 render tf :
  error (extract_visual_features round2 render) <> None ->
  signatures_detected (extract_visual_features round2 render) = None /\
  default 0%Z (signatures_detected (extract_visual_features round2 render)) = 0%Z /\
  calculate_combined_risk tf (extract_visual_features round2 render) =
    Rmin 100
      (IZR (default 0%Z (text_risk_score tf)) * 0.6 +
       IZR (default 0%Z (visual_risk_score (extract_visual_features round2 render))) * 0.4 + 10 +
       (if (3 <? length (default [] (monetary_amounts tf)))%nat then 5 else 0)) /\
  ((default 0%Z (text_risk_score tf) <= 100)%Z ->
   calculate_combined_risk tf (extract_visual_features round2 render) =
     IZR (default 0%Z (text_risk_score tf)) * 0.6 +
     IZR (default 0%Z (visual_risk_score (extract_visual_features round2 render))) * 0.4 + 10 +
     (if (3 <? length (default [] (monetary_amounts tf)))%nat then 5 else 0)) /\
  (forall score ta,
     In rec_signature (generate_recommendations score (extract_visual_features round2 render) ta) /\
     nth 1 (generate_recommendations score (extract_visual_features round2 render) ta) ""
       = rec_signature).
Proof.
  intros Herr.
  assert (Hkeys : signatures_detected (extract_visual_features round2 render) = None /\
                  anomalies (extract_visual_features round2 render) = None /\
                  (0 <= default 0%Z (visual_risk_score (extract_visual_features round2 render))
                   <= 50)%Z).
  { destruct (error_state_cases round2 render Herr) as [[e ->]| ->]; simpl; repeat split; lia. }
  destruct Hkeys as (Hs & Ha & Hv).
  split; [exact Hs|]. split; [rewrite Hs; reflexivity|].
  split; [apply combined_risk_without_signature_key; exact Hs|].
  split.
  - intros Ht. rewrite (combined_risk_without_signature_key _ _ Hs).
    assert (Ht' : IZR (default 0%Z (text_risk_score tf)) <= 100)
      by (apply (IZR_le _ 100); exact Ht).
    assert (Hv' : IZR (default 0%Z (visual_risk_score (extract_visual_features round2 render))) <= 50)
      by (apply (IZR_le _ 50); lia).
    destruct (3 <? length (default [] (monetary_amounts tf)))%nat;
      unfold Rmin; destruct Rle_dec; lra.
  - intros score ta.
    destruct (recommendations_without_signature_key score _ ta Hs Ha) as [line ->].
    split; [simpl; auto | reflexivity].
Qed.

Lemma C10_degraded_visual_penalty_witness :
  error (extract_visual_features Samples.round_exact (Py.Raise "Unable to get page count")) <> None /\
  (signatures_detected (extract_visual_features Samples.round_exact (Py.Raise "Unable to get page count")) = None /\
  default 0%Z (signatures_detected (extract_visual_features Samples.round_exact (Py.Raise "Unable to get page count"))) = 0%Z /\
  calculate_combined_risk Samples.features_fees (extract_visual_features Samples.round_exact (Py.Raise "Unable to get page count")) =
    Rmin 100
      (IZR (default 0%Z (text_risk_score Samples.features_fees)) * 0.6 +
       IZR (default 0%Z (visual_risk_score (extract_visual_features Samples.round_exact (Py.Raise "Unable to get page count")))) * 0.4 + 10 +
       (if (3 <? length (default [] (monetary_amounts Samples.features_fees)))%nat then 5 else 0)) /\
  ((default 0%Z (text_risk_score Samples.features_fees) <= 100)%Z ->
   calculate_combined_risk Samples.features_fees (extract_visual_features Samples.round_exact (Py.Raise "Unable to get page count")) =
     IZR (default 0%Z (text_risk_score Samples.features_fees)) * 0.6 +
     IZR (default 0%Z (visual_risk_score (extract_visual_features Samples.round_exact (Py.Raise "Unable to get page count")))) * 0.4 + 10 +
     (if (3 <? length (default [] (monetary_amounts Samples.features_fees)))%nat then 5 else 0)) /\
  (forall score ta,
     In rec_signature (generate_recommendations score (extract_visual_features Samples.round_exact (Py.Raise "Unable to get page count")) ta) /\
     nth 1 (generate_recommendations score (extract_visual_features Samples.round_exact (Py.Raise "Unable to get page count")) ta) ""
       = rec_signature)).
Proof.
  split.
  - simpl. discriminate.
  - apply (C10_degraded_visual_penalty Samples.round_exact
             (Py.Raise "Unable to get page count") Samples.features_fees).
    simpl. discriminate.
Defined.

(** The sample document when rendering fails: 9 + 20 + 10 + 5. *)
Example degraded_score_of_sample :
  calculate_combined_risk Samples.features_fees
    (extract_visual_features Samples.round_exact (Py.Raise "Unable to get page count")) = 44.
Proof.
  rewrite combined_risk_without_signature_key by reflexivity. simpl.
  unfold Rmin. destruct Rle_dec; lra.
Qed.

End DegradedVisual.

(** * Further properties of the text-only analyzer *)

(** ** Keyword counts *)

Section KeywordCounts.

Import Simple.

(** [s.count(sub) > 0] and [sub in s] agree for a word that is not empty. *)
Lemma count_from_positive sub s :
  sub <> "" -> (0 < Py.count_from sub s 0 <-> Py.contains sub s = true).
Proof.
  intros Hsub. induction s as [|c s IH].
  - simpl. destruct sub as [|a sub]; [congruence|]. simpl. split; [lia | discriminate].
  - cbn [Py.count_from Py.contains].
    destruct (Py.startswith sub (String c s)) eqn:E.
    + split; [reflexivity | lia].
    + rewrite orb_false_l. exact IH.
Qed.

Lemma count_positive sub s :
  sub <> "" -> ((0 < Py.count sub s)%Z <-> Py.contains sub s = true).
Proof.
  intros Hsub. rewrite <- (count_from_positive sub s Hsub).
  unfold Py.count. destruct sub; [congruence|]. lia.
Qed.

(** The state of the keyword loop after the keywords of [l]. *)
Lemma count_keywords_loop text l (m : gmap string Z) (t : Z) kw :
  let r :=
    fold_left
      (fun st keyword =>
         let count := Py.count keyword text in
         if (0 <? count)%Z then (<[keyword := count]> (fst st), (snd st + count)%Z) else st)
      l (m, t) in
  fst r !! kw =
    (if existsb (String.eqb kw) l && (0 <? Py.count kw text)%Z
     then Some (Py.count kw text) else m !! kw) /\
  snd r = (t + fold_right Z.add 0%Z (map (fun k => Py.count k text) l))%Z.
Proof.
  revert m t. induction l as [|k l IH]; intros m t; cbn zeta.
  - simpl. split; [reflexivity | lia].
  - cbn [fold_left existsb map fold_right].
    pose proof (count_nonneg k text) as Hk.
    destruct (Z.ltb_spec 0 (Py.count k text)) as [Hpos|Hzero].
    + specialize (IH (<[k := Py.count k text]> m) (t + Py.count k text)%Z).
      cbn zeta in IH. cbn [fst snd]. destruct IH as [IHm IHt].
      rewrite IHm, IHt. split; [|lia].
      destruct (String.eqb_spec kw k) as [->|Hne].
      * rewrite lookup_insert_eq. cbn [orb andb].
        destruct (Z.ltb_spec 0 (Py.count k text)); [|lia].
        destruct (existsb (String.eqb k) l); reflexivity.
      * rewrite lookup_insert_ne by congruence. reflexivity.
    + specialize (IH m t). cbn zeta in IH. destruct IH as [IHm IHt].
      rewrite IHm, IHt. split; [|lia].
      destruct (String.eqb_spec kw k) as [->|Hne]; [|reflexivity].
      cbn [orb andb].
      destruct (Z.ltb_spec 0 (Py.count k text)); [lia|].
      rewrite andb_false_r. reflexivity.
Qed.

Lemma existsb_eqb_In kw l : existsb (String.eqb kw) l = true <-> In kw l.
Proof.
  rewrite existsb_exists. split.
  - intros (x & Hin & Heq). apply String.eqb_eq in Heq. subst x. exact Hin.
  - intros Hin. exists kw. split; [exact Hin | apply String.eqb_refl].
Qed.

Lemma risk_keywords_not_empty kw : In kw risk_keywords -> kw <> "".
Proof.
  intros Hin ->. revert Hin. unfold risk_keywords. simpl.
  intuition discriminate.
Qed.

(** The dictionary and the total that the keyword loop returns: an entry
    for exactly the keywords that occur in the text, holding the number of
    occurrences, and the total of all occurrences. *)
Lemma count_keywords_entries text :
  (forall kw,
     fst (count_keywords text) !! kw =
     if existsb (String.eqb kw) risk_keywords && Py.contains kw text
     then Some (Py.count kw text) else None) /\
  snd (count_keywords text) =
    fold_right Z.add 0%Z (map (fun k => Py.count k text) risk_keywords).
Proof.
  split.
  - intros kw.
    destruct (count_keywords_loop text risk_keywords ∅ 0%Z kw) as [Hm _].
    (etransitivity; [exact Hm|]). rewrite lookup_empty.
    destruct (existsb (String.eqb kw) risk_keywords) eqn:Ein; [|reflexivity].
    cbn [andb]. apply existsb_eqb_In, risk_keywords_not_empty in Ein.
    pose proof (count_positive kw text Ein) as Hc.
    destruct (Z.ltb_spec 0 (Py.count kw text)) as [Hpos|Hzero];
      destruct (Py.contains kw text); try reflexivity.
    + apply Hc in Hpos. discriminate.
    + assert (0 < Py.count kw text)%Z by (apply Hc; reflexivity). lia.
  - destruct (count_keywords_loop text risk_keywords ∅ 0%Z "") as [_ Ht].
    (etransitivity; [exact Ht|]). lia.
Qed.

End KeywordCounts.

(** ** The text features of a readable file *)

Section TextFeaturesOfFile.

Import Simple.
Local Open Scope Z_scope.

(** The dictionary of a readable file, key by key. *)
Lemma text_features_readable reader :
  extract_text_features (Readable reader) =
  {| error := None;
     total_characters := Some (Py.len (full_text_of reader));
     total_words := Some (Z.of_nat (Py.count_words (full_text_of reader) false));
     page_count := Some (Z.of_nat (length (pages reader)));
     risk_keywords_found := Some (snd (count_keywords (Py.lower (full_text_of reader))));
     keyword_breakdown := Some (fst (count_keywords (Py.lower (full_text_of reader))));
     monetary_amounts :=
       Some (Py.lslice
               (fold_left (fun acc pattern => acc ++ Re.findall pattern (full_text_of reader))
                  money_patterns []) 0 10);
     dates_found := Some (Py.lslice (Re.findall date_pattern (full_text_of reader)) 0 10);
     emails_found := Some (Py.lslice (Re.findall email_pattern (full_text_of reader)) 0 5);
     signature_indicators :=
       Some (fold_left
               (fun n indicator =>
                  if Py.contains indicator (Py.lower (full_text_of reader))
                  then n + 1 else n)
               signature_phrases 0);
     high_risk_sections := Some (find_high_risk_sections (full_text_of reader)) |}.
Proof.
  unfold extract_text_features.
  destruct (count_keywords (Py.lower (full_text_of reader))) as [kb total].
  reflexivity.
Qed.

(** The keyword dictionary of a document: a keyword has an entry exactly
    when it occurs in the lowercased text; the entry is its number of
    occurrences, which is positive; and the keyword total is the sum of the
    entries. *)
Theorem keyword_breakdown_of_document reader :
  exists kb total,
    keyword_breakdown (extract_text_features (Readable reader)) = Some kb /\
    risk_keywords_found (extract_text_features (Readable reader)) = Some total /\
    (forall kw,
       kb !! kw =
       if existsb (String.eqb kw) risk_keywords
          && Py.contains kw (Py.lower (full_text_of reader))
       then Some (Py.count kw (Py.lower (full_text_of reader))) else None) /\
    (forall kw c, kb !! kw = Some c -> In kw risk_keywords /\ 0 < c) /\
    total = fold_right Z.add 0 (map (fun kw => default 0 (kb !! kw)) risk_keywords) /\
    0 <= total.
Proof.
  rewrite text_features_readable. cbn [keyword_breakdown risk_keywords_found].
  set (text := Py.lower (full_text_of reader)).
  destruct (count_keywords_entries text) as [Hkb Htotal].
  exists (fst (count_keywords text)), (snd (count_keywords text)).
  split; [reflexivity|]. split; [reflexivity|]. split; [exact Hkb|].
  assert (Hentry : forall kw c,
             fst (count_keywords text) !! kw = Some c -> In kw risk_keywords /\ 0 < c).
  { intros kw c. rewrite Hkb.
    destruct (existsb (String.eqb kw) risk_keywords) eqn:Ein; [|discriminate].
    destruct (Py.contains kw text) eqn:Ec; [|discriminate].
    cbn [andb]. intros [= <-]. apply existsb_eqb_In in Ein. split; [exact Ein|].
    apply count_positive; [apply risk_keywords_not_empty; exact Ein | exact Ec]. }
  split; [exact Hentry|].
  assert (Hsum : snd (count_keywords text) =
                 fold_right Z.add 0
                   (map (fun kw => default 0 (fst (count_keywords text) !! kw)) risk_keywords)).
  { rewrite Htotal. f_equal. apply map_ext_in. intros kw Hin. rewrite Hkb.
    assert (Ein : existsb (String.eqb kw) risk_keywords = true)
      by (apply existsb_eqb_In; exact Hin).
    rewrite Ein. cbn [andb].
    destruct (Py.contains kw text) eqn:Ec; [reflexivity|].
    pose proof (count_positive kw text (risk_keywords_not_empty kw Hin)) as Hc.
    pose proof (count_nonneg kw text) as Hn.
    assert (~ 0 < Py.count kw text) by (intros Hp; apply Hc in Hp; congruence).
    simpl. lia. }
  split; [exact Hsum|].
  rewrite Htotal. clear. induction risk_keywords as [|k l IH]; simpl; [lia|].
  pose proof (count_nonneg k text). lia.
Qed.

End TextFeaturesOfFile.

(** ** Scores of a whole analysis *)

Section AnalysisScores.

Import Simple.
Local Open Scope Z_scope.

(** The ranges of the four sub-scores and of their sum. *)
Lemma assess_risks_ranges ta :
  0 <= default 0 (risk_keywords_found ta) ->
  0 <= keyword_risk (assess_risks ta) <= 40 /\
  0 <= financial_risk (assess_risks ta) <= 30 /\
  0 <= compliance_risk (assess_risks ta) <= 20 /\
  0 <= signature_risk (assess_risks ta) <= 10 /\
  0 <= overall_risk (assess_risks ta) <= 100.
Proof.
  intros Hk.
  pose proof (financial_risk_range ta) as Hf.
  assert (Hkw : 0 <= keyword_risk (assess_risks ta) <= 40)
    by (unfold assess_risks; cbn [keyword_risk]; lia).
  assert (Hc : 0 <= compliance_risk (assess_risks ta) <= 20)
    by (unfold assess_risks; cbn [compliance_risk]; lia).
  assert (Hs : 0 <= signature_risk (assess_risks ta) <= 10).
  { unfold assess_risks; cbn [signature_risk].
    destruct (default 0 (signature_indicators ta) =? 0); lia. }
  assert (Ho : overall_risk (assess_risks ta) =
               keyword_risk (assess_risks ta) + financial_risk (assess_risks ta) +
               compliance_risk (assess_risks ta) + signature_risk (assess_risks ta))
    by reflexivity.
  repeat split; lia.
Qed.

Lemma counts_sum_nonneg text l :
  0 <= fold_right Z.add 0 (map (fun k => Py.count k text) l).
Proof.
  induction l as [|k l IH]; simpl; [lia|].
  pose proof (count_nonneg k text). lia.
Qed.

Lemma keywords_found_nonneg file :
  0 <= default 0 (risk_keywords_found (extract_text_features file)).
Proof.
  destruct file as [e|reader]; [simpl; lia|].
  rewrite text_features_readable. cbn [risk_keywords_found default].
  destruct (count_keywords_entries (Py.lower (full_text_of reader))) as [_ ->].
  apply counts_sum_nonneg.
Qed.

(** Whatever the file, readable or not, the analysis returns a result;
    its sub-scores are within 0..40, 0..30, 0..20 and 0..10, its overall
    score is within 0..100 and its level is the one of the overall score. *)
Theorem analyze_document_scores pdf_path file now :
  exists results,
    analyze_document pdf_path file now = Py.Ok results /\
    text_analysis results = extract_text_features file /\
    risk_assessment results = assess_risks (extract_text_features file) /\
    0 <= keyword_risk (risk_assessment results) <= 40 /\
    0 <= financial_risk (risk_assessment results) <= 30 /\
    0 <= compliance_risk (risk_assessment results) <= 20 /\
    0 <= signature_risk (risk_assessment results) <= 10 /\
    0 <= overall_risk (risk_assessment results) <= 100 /\
    risk_level (risk_assessment results) =
      Spec.level_of_score (overall_risk (risk_assessment results)).
Proof.
  eexists. split; [reflexivity|]. cbn [text_analysis risk_assessment].
  split; [reflexivity|]. split; [reflexivity|].
  pose proof (assess_risks_ranges _ (keywords_found_nonneg file)) as H.
  intuition.
Qed.

(** A HIGH rating needs at least five keyword hits: amounts, sections and
    the missing signature give 60 points at most. *)
Theorem high_level_needs_keywords ta :
  risk_level (assess_risks ta) = HIGH -> 5 <= default 0 (risk_keywords_found ta).
Proof.
  intros Hhigh.
  pose proof (financial_risk_range ta) as Hf.
  assert (Hc : compliance_risk (assess_risks ta) <= 20)
    by (unfold assess_risks; cbn [compliance_risk]; lia).
  assert (Hs : signature_risk (assess_risks ta) <= 10).
  { unfold assess_risks; cbn [signature_risk].
    destruct (default 0 (signature_indicators ta) =? 0); lia. }
  assert (Ho : overall_risk (assess_risks ta) =
               Z.min 40 (default 0 (risk_keywords_found ta) * 2) +
               financial_risk (assess_risks ta) +
               compliance_risk (assess_risks ta) + signature_risk (assess_risks ta))
    by reflexivity.
  assert (Hl : risk_level (assess_risks ta) =
               Spec.level_of_score (overall_risk (assess_risks ta))) by reflexivity.
  rewrite Hhigh in Hl. unfold Spec.level_of_score in Hl.
  destruct (Z.leb_spec 70 (overall_risk (assess_risks ta))) as [H70|H70].
  - lia.
  - destruct (40 <=? overall_risk (assess_risks ta)); discriminate.
Qed.

Lemma high_level_needs_keywords_witness :
  risk_level (assess_risks (extract_text_features Samples.doc_70)) = HIGH /\
  5 <= default 0 (risk_keywords_found (extract_text_features Samples.doc_70)).
Proof.
  split.
  - vm_compute. reflexivity.
  - apply (high_level_needs_keywords (extract_text_features Samples.doc_70)).
    vm_compute. reflexivity.
Defined.

(** More keyword hits, everything else equal, never lower a score or a
    level. *)
Theorem keyword_risk_monotone ta ta' :
  monetary_amounts ta = monetary_amounts ta' ->
  high_risk_sections ta = high_risk_sections ta' ->
  signature_indicators ta = signature_indicators ta' ->
  default 0 (risk_keywords_found ta) <= default 0 (risk_keywords_found ta') ->
  keyword_risk (assess_risks ta) <= keyword_risk (assess_risks ta') /\
  overall_risk (assess_risks ta) <= overall_risk (assess_risks ta') /\
  (risk_level (assess_risks ta) = HIGH -> risk_level (assess_risks ta') = HIGH) /\
  (risk_level (assess_risks ta') = LOW -> risk_level (assess_risks ta) = LOW).
Proof.
  intros Ha Hsec Hsig Hk.
  assert (Hkw : keyword_risk (assess_risks ta) <= keyword_risk (assess_risks ta'))
    by (unfold assess_risks; cbn [keyword_risk]; lia).
  assert (Ho : overall_risk (assess_risks ta) <= overall_risk (assess_risks ta')).
  { unfold assess_risks; cbn [overall_risk]. rewrite Ha, Hsec, Hsig. lia. }
  split; [exact Hkw|]. split; [exact Ho|].
  assert (Hl : forall t, risk_level (assess_risks t) =
                         Spec.level_of_score (overall_risk (assess_risks t)))
    by reflexivity.
  rewrite !Hl. unfold Spec.level_of_score.
  destruct (Z.leb_spec 70 (overall_risk (assess_risks ta)));
    destruct (Z.leb_spec 70 (overall_risk (assess_risks ta')));
    destruct (Z.leb_spec 40 (overall_risk (assess_risks ta)));
    destruct (Z.leb_spec 40 (overall_risk (assess_risks ta')));
    split; intros; try congruence; try lia.
Qed.

Lemma keyword_risk_monotone_witness :
  keyword_risk (assess_risks (Samples.features 3 [] [] 1)) <=
    keyword_risk (assess_risks (Samples.features 25 [] [] 1)) /\
  overall_risk (assess_risks (Samples.features 3 [] [] 1)) <=
    overall_risk (assess_risks (Samples.features 25 [] [] 1)).
Proof.
  destruct (keyword_risk_monotone (Samples.features 3 [] [] 1)
              (Samples.features 25 [] [] 1)) as (H1 & H2 & _);
    [reflexivity | reflexivity | reflexivity | simpl; lia |].
  split; [exact H1 | exact H2].
Defined.

End AnalysisScores.

(** ** Which advisories a risk assessment triggers *)

Section AdvisoryTriggers.

Import Simple.
Local Open Scope Z_scope.

(** The list in closed form: the lines of the level, then one optional
    line per rule. *)
Lemma generate_recommendations_closed_form r ta :
  generate_recommendations r ta = Spec.recommendations_by_level r ta.
Proof.
  unfold generate_recommendations, Spec.recommendations_by_level.
  rewrite !append_if_app. unfold Spec.advisories.
  change 5 with (Z.of_nat 5). rewrite Zltb_length.
  rewrite <- !app_assoc.
  destruct (risk_level r); reflexivity.
Qed.

Lemma In_existsb_eqb x l : In x l <-> existsb (String.eqb x) l = true.
Proof.
  symmetry. apply existsb_eqb_In.
Qed.

(** Membership of each fixed line in a list built from the level and
    from seven conditions: the texts are all different, so a line is in the
    list exactly when its own condition holds. *)
Lemma lines_membership (l : RiskLevel) (b1 b2 b3 b4 b5 b6 b7 : bool) :
  let recs :=
    Spec.level_lines l ++
    Spec.line_if b1 rec_signature ++ Spec.line_if b2 rec_financial ++
    Spec.line_if b3 rec_compliance ++ Spec.line_if b4 rec_sections ++
    Spec.line_if b5 rec_indemnify ++ Spec.line_if b6 rec_termination ++
    Spec.line_if b7 rec_confidential in
  existsb (String.eqb rec_signature) recs = b1 /\
  existsb (String.eqb rec_financial) recs = b2 /\
  existsb (String.eqb rec_compliance) recs = b3 /\
  existsb (String.eqb rec_sections) recs = b4 /\
  existsb (String.eqb rec_indemnify) recs = b5 /\
  existsb (String.eqb rec_termination) recs = b6 /\
  existsb (String.eqb rec_confidential) recs = b7 /\
  existsb (String.eqb rec_caution) recs = RiskLevel_eqb l HIGH /\
  existsb (String.eqb rec_counsel) recs = RiskLevel_eqb l MEDIUM /\
  bool_decide (NoDup recs) = true /\
  (1 <= length recs <= 9)%nat /\
  nth 0 recs "" = Spec.level_line l.
Proof.
  destruct l, b1, b2, b3, b4, b5, b6, b7; vm_compute;
    repeat apply conj; try reflexivity; lia.
Qed.

End AdvisoryTriggers.

Section AdvisoryTriggersOfFeatures.

Import Simple.
Local Open Scope Z_scope.

(** Every list of recommendations has between 1 and 9 lines, starts with
    the line of the level and repeats no line. *)
Theorem recommendations_shape r ta :
  (1 <= length (generate_recommendations r ta) <= 9)%nat /\
  nth 0 (generate_recommendations r ta) "" = Spec.level_line (risk_level r) /\
  NoDup (generate_recommendations r ta).
Proof.
  rewrite generate_recommendations_closed_form.
  unfold Spec.recommendations_by_level, Spec.advisories. cbv zeta.
  match goal with
  | |- context [Spec.level_lines ?l ++ Spec.line_if ?b1 _ ++ Spec.line_if ?b2 _ ++
                Spec.line_if ?b3 _ ++ Spec.line_if ?b4 _ ++ Spec.line_if ?b5 _ ++
                Spec.line_if ?b6 _ ++ Spec.line_if ?b7 _] =>
      pose proof (lines_membership l b1 b2 b3 b4 b5 b6 b7) as H
  end.
  cbv zeta in H.
  destruct H as (_ & _ & _ & _ & _ & _ & _ & _ & _ & Hnd & Hlen & Hhd).
  split; [exact Hlen|]. split; [exact Hhd|].
  apply bool_decide_eq_true in Hnd. exact Hnd.
Qed.

(** The advisories in terms of the text features: what triggers each
    line when the assessment is the one of [assess_risks]. *)
Theorem advisory_triggers ta :
  (In rec_signature (generate_recommendations (assess_risks ta) ta) <->
   default 0 (signature_indicators ta) = 0) /\
  (In rec_financial (generate_recommendations (assess_risks ta) ta) <->
   (4 <= length (default [] (monetary_amounts ta)))%nat \/
   existsb (fun a => Py.contains "million" (Py.lower a) || Py.contains "M" a)
     (default [] (monetary_amounts ta)) = true) /\
  (In rec_compliance (generate_recommendations (assess_risks ta) ta) <->
   (4 <= length (default [] (high_risk_sections ta)))%nat) /\
  (In rec_sections (generate_recommendations (assess_risks ta) ta) <->
   (6 <= length (default [] (high_risk_sections ta)))%nat) /\
  (In rec_caution (generate_recommendations (assess_risks ta) ta) <->
   70 <= overall_risk (assess_risks ta)) /\
  (In rec_counsel (generate_recommendations (assess_risks ta) ta) <->
   40 <= overall_risk (assess_risks ta) < 70) /\
  (In rec_termination (generate_recommendations (assess_risks ta) ta) <->
   has_key "termination" (default ∅ (keyword_breakdown ta)) = true).
Proof.
  rewrite generate_recommendations_closed_form.
  unfold Spec.recommendations_by_level, Spec.advisories. cbv zeta.
  match goal with
  | |- context [Spec.level_lines ?l ++ Spec.line_if ?b1 _ ++ Spec.line_if ?b2 _ ++
                Spec.line_if ?b3 _ ++ Spec.line_if ?b4 _ ++ Spec.line_if ?b5 _ ++
                Spec.line_if ?b6 _ ++ Spec.line_if ?b7 _] =>
      pose proof (lines_membership l b1 b2 b3 b4 b5 b6 b7) as H
  end.
  cbv zeta in H.
  destruct H as (H1 & H2 & H3 & H4 & _ & H6 & _ & Hc & Hm & _).
  rewrite !In_existsb_eqb, H1, H2, H3, H4, H6, Hc, Hm.
  assert (Hl : risk_level (assess_risks ta) =
               Spec.level_of_score (overall_risk (assess_risks ta))) by reflexivity.
  assert (Hsig : signature_risk (assess_risks ta) =
                 if default 0 (signature_indicators ta) =? 0 then 10 else 0) by reflexivity.
  assert (Hcomp : compliance_risk (assess_risks ta) =
                  Z.min 20 (Z.of_nat (length (default [] (high_risk_sections ta))) * 4))
    by reflexivity.
  rewrite financial_risk_closed_form, Hl, Hsig, Hcomp.
  unfold Spec.financial_with_letter, Spec.level_of_score.
  split; [|split; [|split; [|split; [|split; [|split]]]]].
  - destruct (Z.eqb_spec (default 0 (signature_indicators ta)) 0); simpl; split;
      intros; try congruence; try lia.
  - destruct (existsb _ (default [] (monetary_amounts ta))); simpl.
    + split; [intros _; right; reflexivity | reflexivity].
    + rewrite Z.leb_le. split; [intros; left; lia | intros [H|H]; [lia | discriminate]].
  - rewrite Z.leb_le. lia.
  - rewrite Nat.ltb_lt. lia.
  - destruct (Z.leb_spec 70 (overall_risk (assess_risks ta)));
      [|destruct (Z.leb_spec 40 (overall_risk (assess_risks ta)))];
      cbn [RiskLevel_eqb]; split; intros; try congruence; try lia.
  - destruct (Z.leb_spec 70 (overall_risk (assess_risks ta)));
      [|destruct (Z.leb_spec 40 (overall_risk (assess_risks ta)))];
      cbn [RiskLevel_eqb]; split; intros; try congruence; try lia.
  - reflexivity.
Qed.

End AdvisoryTriggersOfFeatures.

(** ** Advisories of a document *)

Section AdvisoriesOfDocument.

Import Simple.
Local Open Scope Z_scope.

(** Membership of the three keyword lines and of the signature line in
    the recommendations, as booleans. *)
Lemma keyword_lines_membership r ta :
  existsb (String.eqb rec_signature) (generate_recommendations r ta)
    = (0 <? signature_risk r) /\
  existsb (String.eqb rec_indemnify) (generate_recommendations r ta)
    = has_key "indemnify" (default ∅ (keyword_breakdown ta))
      || has_key "indemnification" (default ∅ (keyword_breakdown ta)) /\
  existsb (String.eqb rec_termination) (generate_recommendations r ta)
    = has_key "termination" (default ∅ (keyword_breakdown ta)) /\
  existsb (String.eqb rec_confidential) (generate_recommendations r ta)
    = has_key "confidential" (default ∅ (keyword_breakdown ta))
      || has_key "proprietary" (default ∅ (keyword_breakdown ta)).
Proof.
  rewrite generate_recommendations_closed_form.
  unfold Spec.recommendations_by_level, Spec.advisories. cbv zeta.
  match goal with
  | |- context [Spec.level_lines ?l ++ Spec.line_if ?b1 _ ++ Spec.line_if ?b2 _ ++
                Spec.line_if ?b3 _ ++ Spec.line_if ?b4 _ ++ Spec.line_if ?b5 _ ++
                Spec.line_if ?b6 _ ++ Spec.line_if ?b7 _] =>
      pose proof (lines_membership l b1 b2 b3 b4 b5 b6 b7) as H
  end.
  cbv zeta in H.
  destruct H as (H1 & _ & _ & _ & H5 & H6 & H7 & _).
  repeat split; assumption.
Qed.

(** A keyword is a key of the dictionary of a document exactly when it is
    one of the risk keywords and occurs in the lowercased text. *)
Lemma has_key_of_document reader kw :
  has_key kw (default ∅ (keyword_breakdown (extract_text_features (Readable reader)))) =
  existsb (String.eqb kw) risk_keywords && Py.contains kw (Py.lower (full_text_of reader)).
Proof.
  rewrite text_features_readable. cbn [keyword_breakdown default].
  unfold has_key.
  destruct (count_keywords_entries (Py.lower (full_text_of reader))) as [Hkb _].
  rewrite Hkb.
  destruct (existsb (String.eqb kw) risk_keywords
            && Py.contains kw (Py.lower (full_text_of reader))); reflexivity.
Qed.

(** The number of signature phrases found, as a count. *)
Lemma signature_indicators_of_document reader :
  signature_indicators (extract_text_features (Readable reader)) =
  Some (Z.of_nat (length (List.filter
                            (fun phrase => Py.contains phrase (Py.lower (full_text_of reader)))
                            signature_phrases))).
Proof.
  rewrite text_features_readable. cbn [signature_indicators].
  rewrite fold_left_count. reflexivity.
Qed.

Lemma filter_length_0 {A} (p : A -> bool) l :
  length (List.filter p l) = 0%nat <-> forall x, In x l -> p x = false.
Proof.
  induction l as [|a l IH]; simpl.
  - split; [intros _ x [] | reflexivity].
  - destruct (p a) eqn:Ea; simpl.
    + split; [discriminate|]. intros H. specialize (H a (or_introl eq_refl)). congruence.
    + rewrite IH. split.
      * intros H x [<-|Hin]; [exact Ea | apply H; exact Hin].
      * intros H x Hin. apply H. right. exact Hin.
Qed.

(** The recommendations of a readable document, in terms of its text:
    the termination line appears exactly when the lowercased text contains
    "termination", the indemnification line exactly when it contains
    "indemnify" (the key "indemnification" is never produced), the
    confidentiality line exactly when it contains "confidential" or
    "proprietary", and the signature line exactly when it contains none of
    the six signature phrases. *)
Theorem advisories_of_document reader :
  (In rec_termination
      (generate_recommendations (assess_risks (extract_text_features (Readable reader)))
         (extract_text_features (Readable reader))) <->
   Py.contains "termination" (Py.lower (full_text_of reader)) = true) /\
  (In rec_indemnify
      (generate_recommendations (assess_risks (extract_text_features (Readable reader)))
         (extract_text_features (Readable reader))) <->
   Py.contains "indemnify" (Py.lower (full_text_of reader)) = true) /\
  (In rec_confidential
      (generate_recommendations (assess_risks (extract_text_features (Readable reader)))
         (extract_text_features (Readable reader))) <->
   Py.contains "confidential" (Py.lower (full_text_of reader)) = true \/
   Py.contains "proprietary" (Py.lower (full_text_of reader)) = true) /\
  (In rec_signature
      (generate_recommendations (assess_risks (extract_text_features (Readable reader)))
         (extract_text_features (Readable reader))) <->
   forall phrase,
     In phrase signature_phrases ->
     Py.contains phrase (Py.lower (full_text_of reader)) = false).
Proof.
  set (ta := extract_text_features (Readable reader)).
  destruct (keyword_lines_membership (assess_risks ta) ta) as (Hs & Hi & Ht & Hc).
  rewrite !In_existsb_eqb, Hs, Hi, Ht, Hc. subst ta.
  rewrite !has_key_of_document.
  change (existsb (String.eqb "termination") risk_keywords) with true.
  change (existsb (String.eqb "indemnify") risk_keywords) with true.
  change (existsb (String.eqb "indemnification") risk_keywords) with false.
  change (existsb (String.eqb "confidential") risk_keywords) with true.
  change (existsb (String.eqb "proprietary") risk_keywords) with true.
  cbn [andb]. rewrite orb_false_r, orb_true_iff.
  split; [reflexivity|]. split; [reflexivity|]. split; [reflexivity|].
  assert (Hsig : signature_risk (assess_risks (extract_text_features (Readable reader))) =
                 if default 0 (signature_indicators (extract_text_features (Readable reader)))
                    =? 0 then 10 else 0) by reflexivity.
  rewrite Hsig, signature_indicators_of_document. cbv [default from_option Datatypes.id].
  rewrite <- filter_length_0.
  destruct (Z.eqb_spec
              (Z.of_nat (length (List.filter
                 (fun phrase => Py.contains phrase (Py.lower (full_text_of reader)))
                 signature_phrases))) 0) as [E|E];
    [change (0 <? 10) with true | change (0 <? 0) with false];
    split; intros H; try lia; try reflexivity; try discriminate H.
Qed.

End AdvisoriesOfDocument.

(** ** Documents without text, and the capped lists *)

Section EmptyAndCapped.

Import Simple.
Local Open Scope Z_scope.

Lemma full_text_without_text pages0 acc :
  (forall p, In p pages0 -> p = None \/ p = Some "") ->
  fold_left
    (fun full_text page_text =>
       match page_text with
       | Some t => if Py.truthy t then full_text +:+ t +:+ Py.nl else full_text
       | None => full_text
       end) pages0 acc = acc.
Proof.
  revert acc. induction pages0 as [|p l IH]; intros acc Hp; simpl; [reflexivity|].
  destruct (Hp p (or_introl eq_refl)) as [-> | ->]; simpl; apply IH;
    intros q Hq; apply Hp; right; exact Hq.
Qed.

(** A document without any text (no page, or pages whose text is missing
    or empty) is analysed without error: no keyword, no amount, no
    section, no signature phrase, hence the scores 0, 0, 0, 10, the overall
    score 10, the level LOW and two recommendations. *)
Theorem document_without_text pdf_path reader now :
  (forall p, In p (pages reader) -> p = None \/ p = Some "") ->
  exists results,
    analyze_document pdf_path (Readable reader) now = Py.Ok results /\
    error (text_analysis results) = None /\
    total_characters (text_analysis results) = Some 0 /\
    risk_keywords_found (text_analysis results) = Some 0 /\
    keyword_breakdown (text_analysis results) = Some ∅ /\
    monetary_amounts (text_analysis results) = Some [] /\
    high_risk_sections (text_analysis results) = Some [] /\
    signature_indicators (text_analysis results) = Some 0 /\
    risk_assessment results =
      {| keyword_risk := 0; financial_risk := 0; compliance_risk := 0;
         signature_risk := 10; overall_risk := 10; risk_level := LOW |} /\
    recommendations results = [rec_low; rec_signature].
Proof.
  intros Hp.
  assert (Hft : full_text_of reader = "")
    by (unfold full_text_of; apply full_text_without_text; exact Hp).
  unfold analyze_document. eexists. split; [reflexivity|].
  cbn [text_analysis risk_assessment recommendations].
  rewrite text_features_readable, Hft.
  repeat apply conj; vm_compute; reflexivity.
Qed.

Lemma document_without_text_witness :
  exists results,
    analyze_document "blank.pdf"
      (Readable {| pages := [None; Some ""]; metadata := Py.Ok None; is_encrypted := false |})
      "2024-05-01T10:00:00" = Py.Ok results /\
    overall_risk (risk_assessment results) = 10 /\
    recommendations results = [rec_low; rec_signature].
Proof.
  destruct (document_without_text "blank.pdf"
              {| pages := [None; Some ""]; metadata := Py.Ok None; is_encrypted := false |}
              "2024-05-01T10:00:00") as (results & Hr & _ & _ & _ & _ & _ & _ & _ & Ha & Hrec).
  - intros p [<-|[<-|[]]]; [left | right]; reflexivity.
  - exists results. split; [exact Hr|]. split; [rewrite Ha; reflexivity | exact Hrec].
Defined.

(** The lists of a document are the first matches found: the amounts are
    the first 10 of the matches of the four money rules taken rule after
    rule, the dates the first 10 matches, the e-mails the first 5. *)
Theorem capped_lists_of_document reader :
  monetary_amounts (extract_text_features (Readable reader)) =
    Some (firstn 10 (flat_map (fun pattern => Re.findall pattern (full_text_of reader))
                       money_patterns)) /\
  dates_found (extract_text_features (Readable reader)) =
    Some (firstn 10 (Re.findall date_pattern (full_text_of reader))) /\
  emails_found (extract_text_features (Readable reader)) =
    Some (firstn 5 (Re.findall email_pattern (full_text_of reader))) /\
  (length (default [] (monetary_amounts (extract_text_features (Readable reader)))) <= 10)%nat /\
  (length (default [] (dates_found (extract_text_features (Readable reader)))) <= 10)%nat /\
  (length (default [] (emails_found (extract_text_features (Readable reader)))) <= 5)%nat /\
  (length (default [] (high_risk_sections (extract_text_features (Readable reader)))) <= 10)%nat.
Proof.
  rewrite text_features_readable.
  cbn [monetary_amounts dates_found emails_found high_risk_sections].
  change 10 with (Z.of_nat 10). change 5 with (Z.of_nat 5).
  rewrite !lslice_from_0, fold_left_append, app_nil_l.
  cbv [default from_option Datatypes.id].
  rewrite find_high_risk_sections_spec. unfold Spec.stripped_high_risk_sections.
  rewrite !List.length_firstn.
  repeat apply conj; try reflexivity; lia.
Qed.

End EmptyAndCapped.

(** * Further properties of the combined analyzer *)

(** ** Signature regions *)

Section SignatureRegions.

Import Multimodal.
Local Open Scope R_scope.

Lemma ratio_at_least a w h : 0 < h -> (a <= w / h <-> a * h <= w).
Proof.
  intros Hh. assert (Hw : w = w / h * h) by (field; lra).
  split; intros H; nra.
Qed.

Lemma ratio_at_most b w h : 0 < h -> (w / h <= b <-> w <= b * h).
Proof.
  intros Hh. assert (Hw : w = w / h * h) by (field; lra).
  split; intros H; nra.
Qed.

(** The test on a contour without division: the area is above 5000, the
    box has a positive height and its width is between 2 and 6 times its
    height. *)
Lemma is_signature_iff c :
  is_signature c = true <->
  5000 < contour_area c /\
  (0 < snd (bounding_rect c))%Z /\
  (2 * snd (bounding_rect c) <= snd (fst (bounding_rect c)) <= 6 * snd (bounding_rect c))%Z.
Proof.
  unfold is_signature, signature_min_area, signature_aspect_ratio_range.
  destruct (bounding_rect c) as [[[x y] w] h]. cbn [fst snd].
  destruct (Rlt_dec 5000 (contour_area c)) as [Ha|Ha];
    [|split; [discriminate | intros [H _]; contradiction]].
  destruct (Z.ltb_spec 0 h) as [Hh|Hh].
  - assert (Hh' : 0 < IZR h) by (apply (IZR_lt 0); exact Hh).
    destruct (Rle_dec 2 (IZR w / IZR h)) as [H2|H2];
      [destruct (Rle_dec (IZR w / IZR h) 6) as [H6|H6]|].
    + split; [intros _|reflexivity]. split; [exact Ha|]. split; [exact Hh|].
      apply (proj1 (ratio_at_least _ _ _ Hh')) in H2.
      apply (proj1 (ratio_at_most _ _ _ Hh')) in H6.
      rewrite <- mult_IZR in H2, H6. apply le_IZR in H2. apply le_IZR in H6. lia.
    + split; [discriminate|]. intros (_ & _ & _ & Hw). exfalso. apply H6.
      apply (proj2 (ratio_at_most _ _ _ Hh')). rewrite <- mult_IZR. apply IZR_le. exact Hw.
    + split; [discriminate|]. intros (_ & _ & Hw & _). exfalso. apply H2.
      apply (proj2 (ratio_at_least _ _ _ Hh')). rewrite <- mult_IZR. apply IZR_le. exact Hw.
  - destruct (Rle_dec 2 0) as [H|H]; [lra|].
    split; [discriminate | intros (_ & Hpos & _); lia].
Qed.

Lemma fold_left_filter_map {A B} (p : A -> bool) (g : A -> B) l acc :
  fold_left (fun acc x => if p x then acc ++ [g x] else acc) l acc =
  acc ++ map g (List.filter p l).
Proof.
  revert acc. induction l as [|x l IH]; intros acc; simpl.
  - symmetry. apply app_nil_r.
  - rewrite IH. destruct (p x); [|reflexivity].
    simpl. rewrite <- app_assoc. reflexivity.
Qed.

(** The signature regions are the boxes of the qualifying contours, in
    the order of the contours; every box returned has a positive height and
    a width between 2 and 6 times its height, so a contour whose box has
    height 0 is never a signature. *)
Theorem detect_signature_regions_boxes image :
  detect_signature_regions image =
    map bounding_rect (List.filter is_signature (contours image)) /\
  (length (detect_signature_regions image) <= length (contours image))%nat /\
  (forall box,
     In box (detect_signature_regions image) ->
     (0 < snd box /\ 2 * snd box <= snd (fst box) <= 6 * snd box)%Z /\
     exists c, In c (contours image) /\ bounding_rect c = box /\ 5000 < contour_area c).
Proof.
  assert (Heq : detect_signature_regions image =
                map bounding_rect (List.filter is_signature (contours image)))
    by (unfold detect_signature_regions; apply (fold_left_filter_map is_signature bounding_rect)).
  split; [exact Heq|]. rewrite Heq. split.
  - rewrite length_map. apply List.filter_length_le.
  - intros box Hin. apply in_map_iff in Hin. destruct Hin as (c & <- & Hc).
    apply filter_In in Hc. destruct Hc as [Hc Hsig].
    apply is_signature_iff in Hsig. destruct Hsig as (Ha & Hh & Hw).
    split; [split; assumption|]. exists c. repeat split; assumption.
Qed.

End SignatureRegions.

(** ** The outcome of a combined analysis *)

Section CombinedOutcome.

Import Multimodal.
Local Open Scope R_scope.

(** Reading the pages raises exactly when a page has no text. *)
Lemma full_text_of_outcome pages0 acc :
  (In None pages0 ->
   full_text_of pages0 acc =
   Py.Raise "unsupported operand type(s) for +: 'NoneType' and 'str'") /\
  (~ In None pages0 -> exists text, full_text_of pages0 acc = Py.Ok text).
Proof.
  revert acc. induction pages0 as [|p l IH]; intros acc.
  - split; [intros [] | intros _; exists acc; reflexivity].
  - destruct p as [t|]; simpl.
    + destruct (IH (acc +:+ t +:+ Py.nl)) as [IH1 IH2]. split.
      * intros [H|H]; [discriminate | apply IH1; exact H].
      * intros H. apply IH2. intros Hin. apply H. right. exact Hin.
    + split; [reflexivity | intros H; exfalso; apply H; left; reflexivity].
Qed.

(** The visual risk score of any rendering outcome is between 0 and 75. *)
Lemma visual_risk_score_range round2 render :
  (0 <= default 0%Z (visual_risk_score (extract_visual_features round2 render)) <= 75)%Z.
Proof.
  destruct render as [[|[e|img] rest]|e]; try (simpl; lia).
  destruct (visual_features_of_page round2 img rest) as [Hv _]. rewrite Hv.
  apply visual_score_range.
Qed.

(** The combined score of scores that are not negative. *)
Lemma combined_risk_range tf vf :
  (0 <= default 0%Z (text_risk_score tf))%Z ->
  (0 <= default 0%Z (visual_risk_score vf))%Z ->
  0 <= calculate_combined_risk tf vf <= 100.
Proof.
  intros Ht Hv. unfold calculate_combined_risk.
  apply (IZR_le 0) in Ht. apply (IZR_le 0) in Hv.
  destruct (default 0%Z (signatures_detected vf) =? 0)%Z,
           (3 <? length (default [] (monetary_amounts tf)))%nat;
    unfold Rmin; destruct Rle_dec; lra.
Qed.

(** The combined analysis of a readable file raises exactly when a page
    has no text (the error of the failed concatenation reaches the caller);
    otherwise it returns a result, whatever the rendering gives: the
    combined score is between 0 and 100, the list of risk factors is always
    empty and there is at least one recommendation. *)
Theorem analyze_document_outcome round2 pdf_path reader render now :
  (In None (pages reader) ->
   analyze_document round2 pdf_path (Readable reader) render now =
   Py.Raise "unsupported operand type(s) for +: 'NoneType' and 'str'") /\
  (~ In None (pages reader) ->
   exists results,
     analyze_document round2 pdf_path (Readable reader) render now = Py.Ok results /\
     filename results = basename pdf_path /\
     visual_analysis results = extract_visual_features round2 render /\
     0 <= combined_risk_score results <= 100 /\
     risk_factors results = [] /\
     recommendations results <> []).
Proof.
  destruct (full_text_of_outcome (pages reader) "") as [Hnone Hall].
  split; intros Hp.
  - unfold analyze_document, extract_text_features. rewrite (Hnone Hp). reflexivity.
  - destruct (Hall Hp) as [text Htext].
    assert (Htf : exists tf, extract_text_features (Readable reader) = Py.Ok tf)
      by (unfold extract_text_features; rewrite Htext; unfold Py.bind; eexists; reflexivity).
    destruct Htf as [tf Htf].
    destruct (text_features_scores _ _ Htf) as (k & Hk & _ & Hts).
    unfold analyze_document. rewrite Htf. unfold Py.bind.
    eexists. split; [reflexivity|].
    cbn [filename visual_analysis combined_risk_score risk_factors recommendations].
    split; [reflexivity|]. split; [reflexivity|]. split.
    + apply combined_risk_range; [rewrite Hts; simpl; lia | apply visual_risk_score_range].
    + split; [reflexivity|].
      unfold generate_recommendations.
      destruct (Rle_dec 70 _); [|destruct (Rle_dec 40 _)];
        destruct (default 0%Z (signatures_detected (extract_visual_features round2 render)) =? 0)%Z;
        destruct (0 <? length (default [] (high_risk_sections tf)))%nat;
        destruct (default [] (anomalies (extract_visual_features round2 render)));
        discriminate.
Qed.

End CombinedOutcome.

(** ** Text features and recommendations of the combined analyzer *)

Section CombinedText.

Import Multimodal.

Lemma fold_left_invariant {A B} (P : A -> Prop) (f : A -> B -> A) l a :
  (forall a x, P a -> P (f a x)) -> P a -> P (fold_left f l a).
Proof.
  intros Hf. revert a. induction l as [|x l IH]; intros a Ha; simpl; [exact Ha|].
  apply IH, Hf, Ha.
Qed.

Lemma In_firstn {A} n (l : list A) x : In x (firstn n l) -> In x l.
Proof.
  intros Hin. rewrite <- (firstn_skipn n l). apply in_or_app. left. exact Hin.
Qed.

Lemma endswith_append s suf : Py.endswith suf (s +:+ suf) = true.
Proof.
  induction s as [|c s IH]; simpl.
  - destruct suf as [|a suf]; simpl; [reflexivity|].
    rewrite Ascii.eqb_refl, String.eqb_refl. reflexivity.
  - rewrite IH. apply orb_true_r.
Qed.

Lemma length_slice_to s (n : nat) : String.length (Py.slice_to s (Z.of_nat n)) <= n.
Proof.
  unfold Py.slice_to, Py.slice.
  etransitivity; [apply length_substring|].
  unfold Py.norm_index, Py.len. simpl (0 <? 0)%Z. cbv iota.
  destruct (Z.of_nat n <? 0)%Z eqn:E; [apply Z.ltb_lt in E; lia|]. lia.
Qed.

(** The sections of the combined analyzer: at most 3; each one is at
    most 200 characters of context followed by "...", which is appended
    whether or not the context was cut. *)
Theorem combined_sections_shape text :
  length (find_high_risk_sections text) <= 3 /\
  (forall s,
     In s (find_high_risk_sections text) ->
     Py.endswith "..." s = true /\ String.length s <= 203).
Proof.
  unfold find_high_risk_sections. cbv zeta.
  change 3%Z with (Z.of_nat 3). rewrite lslice_from_0.
  split; [rewrite List.length_firstn; lia|].
  intros s Hin. apply In_firstn in Hin. revert s Hin. apply List.Forall_forall.
  apply fold_left_invariant; [|constructor].
  intros acc il Hacc.
  destruct (2 <=? keywords_present (Py.lower (snd il)))%Z; [|exact Hacc].
  apply Forall_app. split; [exact Hacc|]. constructor; [|constructor].
  split; [apply endswith_append|].
  rewrite length_append.
  pose proof (length_slice_to
                (Py.join " "
                   (Py.lslice (Py.split Py.nl text)
                      (Z.max 0 (Z.of_nat (fst il) - 1))
                      (Z.min (Z.of_nat (length (Py.split Py.nl text)))
                         (Z.of_nat (fst il) + 2)))) 200) as Hlen.
  change (Z.of_nat 200) with 200%Z in Hlen. simpl String.length. lia.
Qed.

(** The text features that the extractor returns: a keyword count that
    is not negative, the text score min(100, 5 x count), at most 5 amounts
    and at most 3 sections. *)
Theorem combined_text_features file tf :
  extract_text_features file = Py.Ok tf ->
  exists k amounts sections,
    risk_keywords_found tf = Some k /\ (0 <= k)%Z /\
    text_risk_score tf = Some (Z.min 100 (k * 5)) /\
    monetary_amounts tf = Some amounts /\ length amounts <= 5 /\
    high_risk_sections tf = Some sections /\ length sections <= 3.
Proof.
  intros Htf.
  destruct (text_features_scores file tf Htf) as (k & Hk & Hkf & Hts).
  unfold extract_text_features in Htf. destruct file as [e|reader]; [discriminate|].
  destruct (full_text_of (pages reader) "") as [full_text|e]; unfold Py.bind in Htf;
    [|discriminate].
  apply Ok_inj in Htf.
  exists k, (Py.lslice (Re.findall money_pattern full_text) 0 5),
    (find_high_risk_sections full_text).
  split; [exact Hkf|]. split; [exact Hk|]. split; [exact Hts|].
  subst tf. cbv beta iota zeta delta [monetary_amounts high_risk_sections].
  split; [reflexivity|]. split.
  - change 5%Z with (Z.of_nat 5). rewrite lslice_from_0, List.length_firstn. lia.
  - split; [reflexivity|].
    unfold find_high_risk_sections. cbv zeta.
    change 3%Z with (Z.of_nat 3). rewrite lslice_from_0, List.length_firstn. lia.
Qed.

Lemma combined_text_features_witness :
  extract_text_features Samples.doc_fees = Py.Ok Samples.features_fees /\
  exists k amounts sections,
    risk_keywords_found Samples.features_fees = Some k /\ (0 <= k)%Z /\
    text_risk_score Samples.features_fees = Some (Z.min 100 (k * 5)) /\
    monetary_amounts Samples.features_fees = Some amounts /\ length amounts <= 5 /\
    high_risk_sections Samples.features_fees = Some sections /\ length sections <= 3.
Proof.
  split.
  - vm_compute. reflexivity.
  - apply (combined_text_features Samples.doc_fees). vm_compute. reflexivity.
Defined.

End CombinedText.

(** ** Recommendations of the combined analyzer *)

Section CombinedRecommendations.

Import Multimodal.
Local Open Scope R_scope.

(** The list built from a level line and three conditions. *)
Lemma combined_lines_membership (line : string) (b1 b2 b3 : bool) :
  line = rec_high \/ line = rec_medium \/ line = rec_low ->
  let recs :=
    [line] ++ (if b1 then [rec_signature] else []) ++
    (if b2 then [rec_sections] else []) ++ (if b3 then [rec_anomalies] else []) in
  existsb (String.eqb rec_signature) recs = b1 /\
  existsb (String.eqb rec_sections) recs = b2 /\
  existsb (String.eqb rec_anomalies) recs = b3 /\
  (1 <= length recs <= 4)%nat /\
  nth 0 recs "" = line.
Proof.
  intros [-> | [-> | ->]]; destruct b1, b2, b3; vm_compute;
    repeat apply conj; try reflexivity; lia.
Qed.

(** The recommendations of the combined analyzer have between 1 and 4
    lines; the first is HIGH from a score of 70, MEDIUM from 40 and LOW
    below; the signature line is present exactly when the signature count
    is 0 or missing, the sections line exactly when there is a high-risk
    section, the anomalies line exactly when there is an anomaly. *)
Theorem combined_recommendations_shape score vf tf :
  (1 <= length (generate_recommendations score vf tf) <= 4)%nat /\
  (70 <= score -> nth 0 (generate_recommendations score vf tf) "" = rec_high) /\
  (40 <= score < 70 -> nth 0 (generate_recommendations score vf tf) "" = rec_medium) /\
  (score < 40 -> nth 0 (generate_recommendations score vf tf) "" = rec_low) /\
  (In rec_signature (generate_recommendations score vf tf) <->
   default 0%Z (signatures_detected vf) = 0%Z) /\
  (In rec_sections (generate_recommendations score vf tf) <->
   default [] (high_risk_sections tf) <> []) /\
  (In rec_anomalies (generate_recommendations score vf tf) <->
   default [] (anomalies vf) <> []).
Proof.
  set (line := if Rle_dec 70 score then rec_high
               else if Rle_dec 40 score then rec_medium else rec_low).
  set (b1 := (default 0%Z (signatures_detected vf) =? 0)%Z).
  set (b2 := (0 <? length (default [] (high_risk_sections tf)))%nat).
  set (b3 := match default [] (anomalies vf) with [] => false | _ => true end).
  assert (Hrecs : generate_recommendations score vf tf =
                  [line] ++ (if b1 then [rec_signature] else []) ++
                  (if b2 then [rec_sections] else []) ++
                  (if b3 then [rec_anomalies] else [])).
  { unfold generate_recommendations, line, b1, b2, b3.
    destruct (Rle_dec 70 score); [|destruct (Rle_dec 40 score)];
      destruct (default 0%Z (signatures_detected vf) =? 0)%Z;
      destruct (0 <? length (default [] (high_risk_sections tf)))%nat;
      destruct (default [] (anomalies vf)); reflexivity. }
  assert (Hline : line = rec_high \/ line = rec_medium \/ line = rec_low).
  { unfold line. destruct (Rle_dec 70 score); [|destruct (Rle_dec 40 score)]; auto. }
  pose proof (combined_lines_membership line b1 b2 b3 Hline) as H. cbv zeta in H.
  rewrite <- Hrecs in H. destruct H as (H1 & H2 & H3 & Hlen & Hhd).
  rewrite !In_existsb_eqb, H1, H2, H3, Hhd.
  split; [exact Hlen|].
  split; [intros Hs; unfold line; destruct (Rle_dec 70 score); [reflexivity | lra]|].
  split; [intros Hs; unfold line; destruct (Rle_dec 70 score); [lra|];
          destruct (Rle_dec 40 score); [reflexivity | lra]|].
  split; [intros Hs; unfold line; destruct (Rle_dec 70 score); [lra|];
          destruct (Rle_dec 40 score); [lra | reflexivity]|].
  split; [unfold b1; apply Z.eqb_eq|].
  split.
  - unfold b2. rewrite Nat.ltb_lt.
    destruct (default [] (high_risk_sections tf)); simpl; split; intros; try congruence; lia.
  - unfold b3. destruct (default [] (anomalies vf)); split; intros; congruence.
Qed.

End CombinedRecommendations.

(** ** More on the layout consistency *)

Section LayoutValues.

Import Multimodal.
Local Open Scope R_scope.

(** The deviation is never negative. *)
Lemma np_std_nonneg densities sd : np_std densities = Some sd -> 0 <= sd.
Proof.
  unfold np_std. destruct (all_finite densities) as [xs|]; [|discriminate].
  destruct (mean xs) as [m|]; [|discriminate].
  destruct (mean (map (fun x => (x - m) * (x - m)) xs)) as [v|]; [|discriminate].
  simpl. intros [= <-]. apply sqrt_pos.
Qed.

Lemma spread_nonneg densities : 0 <= spread densities.
Proof.
  unfold spread. destruct (np_mean densities) as [m|]; [|lra].
  destruct (np_std densities) as [sd|] eqn:Esd; [|lra].
  destruct (Rlt_dec 0 m) as [Hm|]; [|lra].
  apply np_std_nonneg in Esd. apply Rmult_le_pos; [exact Esd|].
  apply Rlt_le, Rinv_0_lt_compat, Hm.
Qed.

(** The ratio of four finite densities with a positive mean. *)
Lemma spread_of_four a b c d :
  0 < (a + b + c + d) / 4 ->
  spread [Some a; Some b; Some c; Some d] =
  sqrt (((a - (a + b + c + d) / 4) * (a - (a + b + c + d) / 4) +
         (b - (a + b + c + d) / 4) * (b - (a + b + c + d) / 4) +
         (c - (a + b + c + d) / 4) * (c - (a + b + c + d) / 4) +
         (d - (a + b + c + d) / 4) * (d - (a + b + c + d) / 4)) / 4) /
  ((a + b + c + d) / 4).
Proof.
  intros Hm. unfold spread, np_mean, np_std, mean, Rsum. simpl.
  replace ((a + (b + (c + (d + 0)))) / (1 + 1 + 1 + 1)) with ((a + b + c + d) / 4)
    by (field).
  destruct (Rlt_dec 0 ((a + b + c + d) / 4)) as [_|H]; [|contradiction].
  f_equal. f_equal. field.
Qed.

(** The consistency is the ratio subtracted from 1, cut at 0: the cut at
    1 never applies.  Four equal densities above 0 give 1; ink in a single
    quadrant gives 0, the deviation being larger than the mean. *)
Theorem layout_consistency_values image :
  analyze_layout_consistency image =
    Rmax 0 (1 - spread (quadrant_densities (gray image))) /\
  (forall d, 0 < d ->
     quadrant_densities (gray image) = [Some d; Some d; Some d; Some d] ->
     analyze_layout_consistency image = 1) /\
  (forall d, 0 < d ->
     quadrant_densities (gray image) = [Some d; Some 0; Some 0; Some 0] \/
     quadrant_densities (gray image) = [Some 0; Some d; Some 0; Some 0] \/
     quadrant_densities (gray image) = [Some 0; Some 0; Some d; Some 0] \/
     quadrant_densities (gray image) = [Some 0; Some 0; Some 0; Some d] ->
     analyze_layout_consistency image = 0).
Proof.
  assert (Hcut : analyze_layout_consistency image =
                 Rmax 0 (1 - spread (quadrant_densities (gray image)))).
  { unfold analyze_layout_consistency.
    pose proof (spread_nonneg (quadrant_densities (gray image))) as Hs.
    unfold Rmin, Rmax. repeat destruct Rle_dec; lra. }
  split; [exact Hcut|]. rewrite Hcut. split.
  - intros d Hd ->. rewrite spread_of_four by lra.
    replace ((d - (d + d + d + d) / 4) * (d - (d + d + d + d) / 4) +
             (d - (d + d + d + d) / 4) * (d - (d + d + d + d) / 4) +
             (d - (d + d + d + d) / 4) * (d - (d + d + d + d) / 4) +
             (d - (d + d + d + d) / 4) * (d - (d + d + d + d) / 4)) with 0 by field.
    replace (0 / 4) with 0 by field. rewrite sqrt_0.
    unfold Rmax. destruct Rle_dec; lra.
  - intros d Hd Hq.
    assert (Hs : 1 <= spread (quadrant_densities (gray image))).
    { assert (Hroot : d / 4 <= sqrt (3 * d * d / 16)).
      { rewrite <- (sqrt_Rsqr (d / 4)) at 1 by lra.
        apply sqrt_le_1_alt. unfold Rsqr. nra. }
      assert (Hratio : 1 <= sqrt (3 * d * d / 16) / (d / 4)).
      { apply (proj2 (ratio_at_least 1 _ (d / 4) ltac:(lra))). lra. }
      destruct Hq as [-> | [-> | [-> | ->]]]; rewrite spread_of_four by lra;
        match goal with
        | |- 1 <= sqrt ?v / ?m =>
            replace v with (3 * d * d / 16) by field;
            replace m with (d / 4) by field
        end; exact Hratio. }
    unfold Rmax. destruct Rle_dec; lra.
Qed.

Lemma layout_consistency_values_witness :
  analyze_layout_consistency
    {| contours := []; circles := None; gray := [[0; 0]; [0; 0]]%Z;
       hist_max := 0; hist_mean := 0; keypoints := 0 |} = 1 /\
  analyze_layout_consistency
    {| contours := []; circles := None; gray := [[0; 255]; [255; 255]]%Z;
       hist_max := 0; hist_mean := 0; keypoints := 0 |} = 0.
Proof.
  split.
  - apply (proj1 (proj2 (layout_consistency_values _)) 1); [lra|].
    unfold quadrant_densities, block_mean, mean, block, Rsum. simpl.
    change (threshold_inv 0) with 255%Z.
    repeat (apply (f_equal2 cons); [apply (f_equal Some); field|]). reflexivity.
  - apply (proj2 (proj2 (layout_consistency_values _)) 1); [lra|]. left.
    unfold quadrant_densities, block_mean, mean, block, Rsum. simpl.
    change (threshold_inv 0) with 255%Z. change (threshold_inv 255) with 0%Z.
    repeat (apply (f_equal2 cons); [apply (f_equal Some); field|]). reflexivity.
Defined.

End LayoutValues.

(** * The matcher and the language of a pattern *)

Section MatcherSoundness.

Lemma append_cons c (s1 s2 : string) : String c s1 +:+ s2 = String c (s1 +:+ s2).
Proof.
  reflexivity.
Qed.

Lemma append_assoc (s1 s2 s3 : string) : s1 +:+ (s2 +:+ s3) = (s1 +:+ s2) +:+ s3.
Proof.
  induction s1 as [|c s1 IH]; [reflexivity|].
  rewrite !append_cons, IH. reflexivity.
Qed.

Lemma append_nil_r (s : string) : s +:+ "" = s.
Proof.
  induction s as [|c s IH]; [reflexivity|]. rewrite append_cons, IH. reflexivity.
Qed.

(** A successful run of the matcher splits its input into a string of the
    language and the input handed to the continuation. *)
Lemma run_sound r :
  forall prev s k rest,
    Re.run r prev s k = Some rest ->
    exists s1 s2 prev',
      s = s1 +:+ s2 /\ ReLang.lang r s1 /\ k prev' s2 = Some rest.
Proof.
  induction r as [p| |r1 IH1 r2 IH2|r1 IH1 r2 IH2|r1 IH1|]; intros prev s k rest H.
  - simpl in H. destruct s as [|c s']; [discriminate|].
    destruct (p c) eqn:Ep; [|discriminate].
    exists (String c ""), s', (Some c). repeat split; [constructor; exact Ep | exact H].
  - simpl in H. exists "", s, prev. repeat split; [constructor | exact H].
  - simpl in H. apply IH1 in H. destruct H as (s1 & s2 & prev1 & -> & Hl1 & H).
    apply IH2 in H. destruct H as (s1' & s2' & prev2 & -> & Hl2 & H).
    exists (s1 +:+ s1'), s2', prev2. split; [apply append_assoc|].
    split; [constructor; assumption | exact H].
  - simpl in H. destruct (Re.run r1 prev s k) as [rest1|] eqn:E1.
    + injection H as ->. apply IH1 in E1. destruct E1 as (s1 & s2 & prev1 & -> & Hl & Hk).
      exists s1, s2, prev1. repeat split; [apply ReLang.lang_alt_l; exact Hl | exact Hk].
    + apply IH2 in H. destruct H as (s1 & s2 & prev1 & -> & Hl & Hk).
      exists s1, s2, prev1. repeat split; [apply ReLang.lang_alt_r; exact Hl | exact Hk].
  - cbn [Re.run] in H. revert H. generalize (String.length s). intros n.
    revert prev s. induction n as [|n IHn]; intros prev s H.
    + exists "", s, prev. repeat split; [constructor | exact H].
    + match type of H with
      | match ?run1 with _ => _ end = _ => destruct run1 as [rest1|] eqn:E1
      end.
      * injection H as ->. apply IH1 in E1.
        destruct E1 as (s1 & s2 & prev1 & -> & Hl & Hk).
        destruct (Nat.ltb (String.length s2) (String.length (s1 +:+ s2))); [|discriminate].
        apply IHn in Hk. destruct Hk as (s1' & s2' & prev2 & -> & Hl' & Hk).
        exists (s1 +:+ s1'), s2', prev2. split; [apply append_assoc|].
        split; [constructor; assumption | exact Hk].
      * exists "", s, prev. repeat split; [constructor | exact H].
  - simpl in H.
    destruct (xorb (Re.is_word_opt prev) (Re.is_word_opt (Re.head s))); [|discriminate].
    exists "", s, prev. repeat split; [constructor | exact H].
Qed.

End MatcherSoundness.

Section ScanSoundness.

Lemma append_snoc pre c s : pre +:+ String c s = (pre +:+ String c "") +:+ s.
Proof.
  rewrite <- append_assoc. reflexivity.
Qed.

Lemma substring_middle pre s1 rest :
  substring (String.length pre) (String.length s1) (pre +:+ s1 +:+ rest) = s1.
Proof.
  induction pre as [|c pre IH]; [|rewrite append_cons; exact IH].
  change ("" +:+ s1 +:+ rest) with (s1 +:+ rest). simpl String.length.
  induction s1 as [|c s1 IH]; [apply substring_no_length|].
  rewrite append_cons. simpl. rewrite IH. reflexivity.
Qed.

(** Every span reported by the scan lies in the text, after the current
    position, and delimits a string of the language. *)
Lemma scan_sound r s :
  forall pre pos prev skip a b,
    pos = String.length pre ->
    In (a, b) (Re.scan r s pos prev skip) ->
    ReLang.lang r (substring a (b - a) (pre +:+ s)) /\
    pos <= a /\ a <= b /\ b <= String.length (pre +:+ s).
Proof.
  induction s as [|c s IH]; intros pre pos prev skip a b Hpos Hin; [destruct Hin|].
  assert (Htail : forall skip',
             In (a, b) (Re.scan r s (S pos) (Some c) skip') ->
             ReLang.lang r (substring a (b - a) (pre +:+ String c s)) /\
             pos <= a /\ a <= b /\ b <= String.length (pre +:+ String c s)).
  { intros skip' Hin'. rewrite append_snoc.
    destruct (IH (pre +:+ String c "") (S pos) (Some c) skip' a b) as (Hl & Ha & Hab & Hb).
    - rewrite length_append, Hpos. simpl. lia.
    - exact Hin'.
    - repeat split; try assumption. lia. }
  cbn [Re.scan] in Hin. destruct skip as [|k]; [|apply (Htail k); exact Hin].
  destruct (Re.match_here r prev (String c s)) as [n|] eqn:E; [|apply (Htail 0); exact Hin].
  destruct Hin as [Hhead|Hin]; [|apply (Htail (n - 1)); exact Hin].
  injection Hhead as <- <-.
  unfold Re.match_here in E.
  destruct (Re.run r prev (String c s) (fun _ rest => Some rest)) as [rest|] eqn:R;
    [|discriminate].
  injection E as <-.
  apply run_sound in R. destruct R as (s1 & s2 & prev' & Hs & Hl & Hk).
  injection Hk as ->.
  assert (Hlen : S (String.length s) = String.length s1 + String.length rest)
    by (change (S (String.length s)) with (String.length (String c s));
        rewrite Hs; apply length_append).
  rewrite Hs, length_append, Hlen.
  replace (pos + (String.length s1 + String.length rest - String.length rest) - pos)
    with (String.length s1) by lia.
  rewrite Hpos, substring_middle, !length_append.
  repeat split; try assumption; lia.
Qed.

(** Every string returned by [findall] is matched by the pattern, and
    every span of [finditer] lies in the text. *)
Lemma findall_lang r text m : In m (Re.findall r text) -> ReLang.lang r m.
Proof.
  unfold Re.findall, Re.finditer. intros Hin.
  apply in_map_iff in Hin. destruct Hin as ([a b] & <- & Hin).
  apply (scan_sound r text "" 0 None 0 a b eq_refl) in Hin. apply Hin.
Qed.

Lemma finditer_bounds r text a b :
  In (a, b) (Re.finditer r text) -> a <= b /\ b <= String.length text.
Proof.
  unfold Re.finditer. intros Hin.
  apply (scan_sound r text "" 0 None 0 a b eq_refl) in Hin.
  destruct Hin as (_ & _ & Hab & Hb). split; assumption.
Qed.

Lemma all_chars_append p s1 s2 :
  ReLang.all_chars p (s1 +:+ s2) = ReLang.all_chars p s1 && ReLang.all_chars p s2.
Proof.
  induction s1 as [|c s1 IH]; [reflexivity|].
  rewrite append_cons. simpl. rewrite IH. apply andb_assoc.
Qed.

Lemma all_chars_weaken (p q : ascii -> bool) s :
  (forall c, p c = true -> q c = true) ->
  ReLang.all_chars p s = true -> ReLang.all_chars q s = true.
Proof.
  intros Hpq. induction s as [|c s IH]; simpl; [reflexivity|].
  intros H. apply andb_true_iff in H. destruct H as [Hc Hs].
  rewrite (Hpq c Hc), (IH Hs). reflexivity.
Qed.

(** The characters of a match all belong to the character set of the
    pattern. *)
Lemma lang_charset r s : ReLang.lang r s -> ReLang.all_chars (ReLang.charset r) s = true.
Proof.
  induction 1 as [p c Hc| |r1 r2 s1 s2 _ IH1 _ IH2|r1 r2 s _ IH|r1 r2 s _ IH
                 |r|r s1 s2 _ IH1 _ IH2|]; simpl; try reflexivity.
  - rewrite Hc. reflexivity.
  - rewrite all_chars_append. apply andb_true_iff. split.
    + apply (all_chars_weaken (ReLang.charset r1)); [|exact IH1].
      intros c Hc. rewrite Hc. reflexivity.
    + apply (all_chars_weaken (ReLang.charset r2)); [|exact IH2].
      intros c Hc. rewrite Hc. apply orb_true_r.
  - apply (all_chars_weaken (ReLang.charset r1)); [|exact IH].
    intros c Hc. rewrite Hc. reflexivity.
  - apply (all_chars_weaken (ReLang.charset r2)); [|exact IH].
    intros c Hc. rewrite Hc. apply orb_true_r.
  - rewrite all_chars_append. apply andb_true_iff. split; [exact IH1 | exact IH2].
Qed.

End ScanSoundness.

(** * The shape of the monetary amounts *)

Section LangInversion.

Lemma lang_seq_inv r1 r2 s :
  ReLang.lang (Re.Seq r1 r2) s ->
  exists s1 s2, s = s1 +:+ s2 /\ ReLang.lang r1 s1 /\ ReLang.lang r2 s2.
Proof.
  intros H. inversion H; subst. eauto.
Qed.

Lemma lang_alt_inv r1 r2 s :
  ReLang.lang (Re.Alt r1 r2) s -> ReLang.lang r1 s \/ ReLang.lang r2 s.
Proof.
  intros H. inversion H; subst; auto.
Qed.

Lemma lang_chr_inv p s :
  ReLang.lang (Re.Chr p) s -> exists c, s = String c "" /\ p c = true.
Proof.
  intros H. inversion H; subst. eauto.
Qed.

Lemma lang_eps_inv s : ReLang.lang Re.Eps s -> s = "".
Proof.
  intros H. inversion H; subst. reflexivity.
Qed.

Lemma lower_append s1 s2 : Py.lower (s1 +:+ s2) = Py.lower s1 +:+ Py.lower s2.
Proof.
  induction s1 as [|c s1 IH]; [reflexivity|].
  rewrite append_cons. simpl. rewrite IH. reflexivity.
Qed.

Lemma lang_alts_inv rs s :
  ReLang.lang (Re.alts rs) s -> exists r, In r rs /\ ReLang.lang r s.
Proof.
  induction rs as [|r rs IH]; intros H.
  - apply lang_chr_inv in H. destruct H as (c & _ & Hc). discriminate Hc.
  - destruct rs as [|r' rs].
    + exists r. split; [left; reflexivity | exact H].
    + change (Re.alts (r :: r' :: rs)) with (Re.Alt r (Re.alts (r' :: rs))) in H.
      apply lang_alt_inv in H. destruct H as [H|H].
      * exists r. split; [left; reflexivity | exact H].
      * destruct (IH H) as (r0 & Hin & Hl). exists r0. split; [right; exact Hin | exact Hl].
Qed.

(** A literal read as written matches itself only. *)
Lemma lang_lit word s : ReLang.lang (Re.lit word) s -> s = word.
Proof.
  revert s. induction word as [|c word IH]; intros s H; simpl in H.
  - apply lang_eps_inv in H. exact H.
  - apply lang_seq_inv in H. destruct H as (s1 & s2 & -> & H1 & H2).
    apply lang_chr_inv in H1. destruct H1 as (d & -> & Hd).
    apply Ascii.eqb_eq in Hd. subst d. rewrite (IH s2 H2). reflexivity.
Qed.

(** A character read without regard to case matches one character, the
    same up to case, or one of the letters outside ASCII that count as the
    same letter. *)
Lemma lang_one_ci c s :
  ReLang.lang (Re.one_ci c) s ->
  (exists d, s = String d "" /\ Py.lower_char d = Py.lower_char c) \/
  In s (Re.ci_extras c).
Proof.
  unfold Re.one_ci. intros H. apply lang_alts_inv in H.
  destruct H as (r & [<-|Hin] & Hl).
  - left. apply lang_chr_inv in Hl. destruct Hl as (d & -> & Hd).
    apply Ascii.eqb_eq in Hd. exists d. split; [reflexivity | exact Hd].
  - right. apply in_map_iff in Hin. destruct Hin as (w & <- & Hw).
    apply lang_lit in Hl. subst s. exact Hw.
Qed.

Lemma ci_extras_cases c w :
  In w (Re.ci_extras c) ->
  w = Re.dotted_I \/ w = Re.dotless_i \/ w = Re.long_s \/ w = Re.kelvin.
Proof.
  unfold Re.ci_extras. cbv zeta.
  destruct (Ascii.eqb (Py.lower_char c) "i");
    [|destruct (Ascii.eqb (Py.lower_char c) "s");
      [|destruct (Ascii.eqb (Py.lower_char c) "k")]];
    simpl; intuition.
Qed.

Lemma ci_extras_not_ascii c w : In w (Re.ci_extras c) -> Py.is_ascii w = false.
Proof.
  intros H. apply ci_extras_cases in H.
  destruct H as [-> | [-> | [-> | ->]]]; reflexivity.
Qed.

Lemma is_ascii_append s1 s2 :
  Py.is_ascii (s1 +:+ s2) = Py.is_ascii s1 && Py.is_ascii s2.
Proof.
  induction s1 as [|c s1 IH]; [reflexivity|].
  rewrite append_cons. simpl. rewrite IH. apply andb_assoc.
Qed.

(** On ASCII text, a match of a word read without regard to case is the
    word up to case. *)
Lemma lang_lit_ci word s :
  ReLang.lang (Re.lit_ci word) s -> Py.is_ascii s = true -> Py.lower s = Py.lower word.
Proof.
  revert s. induction word as [|c word IH]; intros s H Ha; simpl in H.
  - apply lang_eps_inv in H. subst s. reflexivity.
  - apply lang_seq_inv in H. destruct H as (s1 & s2 & -> & H1 & H2).
    rewrite is_ascii_append in Ha. apply andb_true_iff in Ha. destruct Ha as [Ha1 Ha2].
    apply lang_one_ci in H1. destruct H1 as [(d & -> & Hd) | Hx].
    + change (String d "" +:+ s2) with (String d s2).
      simpl. rewrite Hd, (IH s2 H2 Ha2). reflexivity.
    + apply ci_extras_not_ascii in Hx. congruence.
Qed.

Lemma contains_append_r sub s1 s2 :
  Py.contains sub s2 = true -> Py.contains sub (s1 +:+ s2) = true.
Proof.
  intros H. induction s1 as [|c s1 IH]; [exact H|].
  rewrite append_cons. simpl. rewrite IH. apply orb_true_r.
Qed.

(** The capital letter M in a string. *)
Lemma contains_M_cons c s :
  Py.contains "M" (String c s) = Ascii.eqb "M" c || Py.contains "M" s.
Proof.
  simpl. destruct s; rewrite andb_true_r; reflexivity.
Qed.

Lemma contains_M_append s1 s2 :
  Py.contains "M" (s1 +:+ s2) = Py.contains "M" s1 || Py.contains "M" s2.
Proof.
  induction s1 as [|c s1 IH]; [reflexivity|].
  rewrite append_cons, !contains_M_cons, IH. apply orb_assoc.
Qed.

Lemma all_chars_without_M p s :
  p "M"%char = false -> ReLang.all_chars p s = true -> Py.contains "M" s = false.
Proof.
  intros Hp. induction s as [|c s IH]; [reflexivity|].
  simpl ReLang.all_chars. intros H. apply andb_true_iff in H. destruct H as [Hc Hs].
  rewrite contains_M_cons, (IH Hs).
  destruct (Ascii.eqb_spec "M" c) as [<-|]; [congruence | reflexivity].
Qed.

(** A pattern that cannot match the letter M matches no string with it. *)
Lemma lang_without_M r s :
  ReLang.charset r "M"%char = false -> ReLang.lang r s -> Py.contains "M" s = false.
Proof.
  intros Hr Hl. apply (all_chars_without_M (ReLang.charset r)); [exact Hr|].
  apply lang_charset, Hl.
Qed.

Lemma endswith_contains_M s : Py.endswith "M" s = true -> Py.contains "M" s = true.
Proof.
  induction s as [|c s IH]; [discriminate|].
  rewrite contains_M_cons.
  change (Py.endswith "M" (String c s))
    with (String.eqb "M" (String c s) || Py.endswith "M" s).
  intros H. apply orb_true_iff in H. destruct H as [H|H].
  - apply String.eqb_eq in H. injection H as <- <-. reflexivity.
  - rewrite (IH H). apply orb_true_r.
Qed.

End LangInversion.

Section MoneyAmounts.

Import Simple.
Local Open Scope Z_scope.

(** First rule, [\$[\d,]+\.?\d*[MKB]?]: the letter M can only be the
    last character. *)
Lemma money_rule_dollar s :
  ReLang.lang (seqs [Re.one "$"; amount_digits; Re.Opt (Re.set_ci "MKB")]) s ->
  Py.contains "M" s = true -> Py.endswith "M" s = true.
Proof.
  cbn [seqs]. intros H HM.
  apply lang_seq_inv in H. destruct H as (s1 & s' & -> & H1 & H).
  apply lang_seq_inv in H. destruct H as (s2 & s3 & -> & H2 & H3).
  apply lang_without_M in H1; [|reflexivity].
  apply lang_without_M in H2; [|reflexivity].
  rewrite !contains_M_append, H1, H2 in HM. cbn [orb] in HM.
  apply lang_alt_inv in H3. destruct H3 as [H3|H3].
  - apply lang_alts_inv in H3. destruct H3 as (r & [<-|[<-|[]]] & H3).
    + apply lang_chr_inv in H3. destruct H3 as (c & -> & _).
      rewrite contains_M_cons in HM. cbn [Py.contains Py.startswith orb] in HM.
      rewrite orb_false_r in HM. apply Ascii.eqb_eq in HM. subst c.
      rewrite append_assoc. apply endswith_append.
    + apply lang_lit in H3. subst s3. discriminate HM.
  - apply lang_eps_inv in H3. subst s3. discriminate HM.
Qed.

(** Second rule, a number and a unit word: in an ASCII amount the letter
    M can only belong to the word "million". *)
Lemma money_rule_unit s :
  ReLang.lang
    (seqs [Re.Plus Re.digit; Re.Star Re.ws;
           Re.alts (map Re.lit_ci ["million"; "thousand"; "billion"; "dollars"; "usd"])]) s ->
  Py.is_ascii s = true ->
  Py.contains "M" s = true -> Py.contains "million" (Py.lower s) = true.
Proof.
  cbn [seqs map Re.alts]. intros H Ha HM.
  apply lang_seq_inv in H. destruct H as (s1 & s' & -> & H1 & H).
  apply lang_seq_inv in H. destruct H as (s2 & w & -> & H2 & H3).
  rewrite !is_ascii_append in Ha.
  apply andb_true_iff in Ha. destruct Ha as [_ Ha].
  apply andb_true_iff in Ha. destruct Ha as [_ Ha].
  apply lang_without_M in H1; [|reflexivity].
  apply lang_without_M in H2; [|reflexivity].
  rewrite !contains_M_append, H1, H2 in HM. cbn [orb] in HM.
  apply lang_alt_inv in H3. destruct H3 as [H3|H3].
  - apply lang_lit_ci in H3; [|exact Ha]. rewrite !lower_append, H3.
    apply contains_append_r, contains_append_r. reflexivity.
  - assert (Hno : Py.contains "M" w = false); [|congruence].
    revert H3. apply lang_without_M. reflexivity.
Qed.

(** An ASCII amount matched by one of the four rules has the letter M at
    its end or in the word "million", if it has it at all. *)
Lemma money_amount_shape pattern s :
  In pattern money_patterns -> ReLang.lang pattern s ->
  Py.is_ascii s = true ->
  Py.contains "M" s = true ->
  Py.endswith "M" s = true \/ Py.contains "million" (Py.lower s) = true.
Proof.
  intros [<-|[<-|[<-|[<-|[]]]]] Hl Ha HM.
  - left. exact (money_rule_dollar s Hl HM).
  - right. exact (money_rule_unit s Hl Ha HM).
  - apply lang_without_M in Hl; [congruence | reflexivity].
  - apply lang_without_M in Hl; [congruence | reflexivity].
Qed.

Lemma existsb_ext_in {A} (f g : A -> bool) l :
  (forall a, In a l -> f a = g a) -> existsb f l = existsb g l.
Proof.
  induction l as [|x l IH]; intros H; simpl; [reflexivity|].
  rewrite (H x (or_introl eq_refl)), IH; [reflexivity|].
  intros a Ha. apply H. right. exact Ha.
Qed.

(** The parts of an ASCII text are ASCII. *)
Lemma is_ascii_substring s : forall n m,
  Py.is_ascii s = true -> Py.is_ascii (substring n m s) = true.
Proof.
  induction s as [|c s IH]; intros n m Hs.
  - destruct n, m; reflexivity.
  - simpl in Hs. apply andb_true_iff in Hs. destruct Hs as [Hc Hs].
    destruct n as [|n]; [destruct m as [|m]|]; simpl.
    + reflexivity.
    + rewrite Hc. apply IH, Hs.
    + apply IH, Hs.
Qed.

Lemma findall_ascii r text m :
  Py.is_ascii text = true -> In m (Re.findall r text) -> Py.is_ascii m = true.
Proof.
  unfold Re.findall. intros Ht Hin.
  apply in_map_iff in Hin. destruct Hin as (ab & <- & _).
  apply is_ascii_substring, Ht.
Qed.

(** The text of a file with ASCII pages is ASCII. *)
Lemma full_text_ascii reader :
  ascii_pages (Readable reader) = true -> Py.is_ascii (full_text_of reader) = true.
Proof.
  unfold ascii_pages, full_text_of. intros Hp.
  assert (Hgen : forall l acc,
             forallb (fun page_text : option string =>
                        match page_text with
                        | Some t => Py.is_ascii t
                        | None => true
                        end) l = true ->
             Py.is_ascii acc = true ->
             Py.is_ascii
               (fold_left
                  (fun full_text page_text =>
                     match page_text with
                     | Some t => if Py.truthy t then full_text +:+ t +:+ Py.nl else full_text
                     | None => full_text
                     end) l acc) = true).
  { induction l as [|page l IH]; intros acc Hl Hacc; [exact Hacc|].
    simpl in Hl. apply andb_true_iff in Hl. destruct Hl as [Hpage Hl].
    simpl. apply IH; [exact Hl|].
    destruct page as [t|]; [|exact Hacc].
    destruct (Py.truthy t); [|exact Hacc].
    rewrite !is_ascii_append, Hacc, Hpage. reflexivity. }
  apply Hgen; [exact Hp | reflexivity].
Qed.

Lemma amounts_of_document reader a :
  ascii_pages (Readable reader) = true ->
  In a (default [] (monetary_amounts (extract_text_features (Readable reader)))) ->
  Py.is_ascii a = true /\
  exists pattern, In pattern money_patterns /\ ReLang.lang pattern a.
Proof.
  intros Hp. apply full_text_ascii in Hp.
  rewrite text_features_readable. cbn [monetary_amounts].
  cbv [default from_option Datatypes.id].
  change 10 with (Z.of_nat 10). rewrite lslice_from_0, fold_left_append, app_nil_l.
  intros Hin. apply In_firstn in Hin. apply in_flat_map in Hin.
  destruct Hin as (pattern & Hpat & Hin). split.
  - exact (findall_ascii pattern _ a Hp Hin).
  - exists pattern. split; [exact Hpat|].
    apply (findall_lang pattern (full_text_of reader)). exact Hin.
Qed.

(** On a file whose page texts are ASCII: in the amounts that the
    extractor finds, the letter M occurs only as the last character or in
    the word "million"; so the financial sub-score is min(30, 5 x amounts),
    replaced by 30 when an amount contains "million" (any case) or ends
    with the letter M. *)
Theorem financial_risk_of_document file :
  ascii_pages file = true ->
  (forall a,
     In a (default [] (monetary_amounts (extract_text_features file))) ->
     Py.contains "M" a = true ->
     Py.endswith "M" a = true \/ Py.contains "million" (Py.lower a) = true) /\
  financial_risk (assess_risks (extract_text_features file)) =
    Spec.financial_with_suffix (default [] (monetary_amounts (extract_text_features file))).
Proof.
  intros Hascii.
  assert (Hshape : forall a,
             In a (default [] (monetary_amounts (extract_text_features file))) ->
             Py.contains "M" a = true ->
             Py.endswith "M" a = true \/ Py.contains "million" (Py.lower a) = true).
  { destruct file as [e|reader]; [intros a []|].
    intros a Hin HM.
    destruct (amounts_of_document reader a Hascii Hin) as (Ha & pattern & Hp & Hl).
    exact (money_amount_shape pattern a Hp Hl Ha HM). }
  split; [exact Hshape|].
  rewrite financial_risk_closed_form.
  unfold Spec.financial_with_letter, Spec.financial_with_suffix.
  rewrite (existsb_ext_in _
             (fun a => Py.contains "million" (Py.lower a) || Py.endswith "M" a)); [reflexivity|].
  intros a Hin.
  destruct (Py.contains "million" (Py.lower a)) eqn:Em; [reflexivity|]. cbn [orb].
  destruct (Py.contains "M" a) eqn:EM.
  - destruct (Hshape a Hin EM) as [H|H]; [rewrite H; reflexivity | congruence].
  - destruct (Py.endswith "M" a) eqn:Ee; [|reflexivity].
    apply endswith_contains_M in Ee. congruence.
Qed.

Lemma financial_risk_of_document_witness :
  ascii_pages Samples.doc_fees = true /\
  ((forall a,
      In a (default [] (monetary_amounts (extract_text_features Samples.doc_fees))) ->
      Py.contains "M" a = true ->
      Py.endswith "M" a = true \/ Py.contains "million" (Py.lower a) = true) /\
   financial_risk (assess_risks (extract_text_features Samples.doc_fees)) =
     Spec.financial_with_suffix
       (default [] (monetary_amounts (extract_text_features Samples.doc_fees)))).
Proof.
  split.
  - vm_compute. reflexivity.
  - apply (financial_risk_of_document Samples.doc_fees). vm_compute. reflexivity.
Defined.

End MoneyAmounts.

(** * The context of a phrase section *)

Section StripAndSubstring.

Import TextShape.

Lemma substring_split s : forall n m1 m2,
  substring n (m1 + m2) s = substring n m1 s +:+ substring (n + m1) m2 s.
Proof.
  induction s as [|c s IH]; intros n m1 m2.
  - destruct n, m1, m2; reflexivity.
  - destruct n as [|n].
    + destruct m1 as [|m1]; [reflexivity|].
      simpl. rewrite (IH 0 m1 m2). reflexivity.
    + simpl. apply IH.
Qed.

Lemma startswith_append p s : Py.startswith p (p +:+ s) = true.
Proof.
  induction p as [|c p IH]; [reflexivity|].
  rewrite append_cons. simpl. rewrite Ascii.eqb_refl, IH. reflexivity.
Qed.

Lemma contains_middle pre m post : Py.contains m (pre +:+ m +:+ post) = true.
Proof.
  apply contains_append_r.
  destruct (m +:+ post) eqn:E; simpl; rewrite <- E, startswith_append; reflexivity.
Qed.

(** Stripping on the left removes nothing after a visible character. *)
Lemma lstrip_before_solid pre m :
  starts_solid m -> exists pre', Py.lstrip (pre +:+ m) = pre' +:+ m.
Proof.
  intros (c & m' & -> & Hc). induction pre as [|d pre IH].
  - exists "". simpl. rewrite Hc. reflexivity.
  - rewrite append_cons. simpl. destruct (Py.is_space d).
    + exact IH.
    + exists (String d pre). reflexivity.
Qed.

Lemma rstrip_append v u : Py.rstrip v <> "" -> Py.rstrip (u +:+ v) = u +:+ Py.rstrip v.
Proof.
  intros Hv. induction u as [|c u IH]; [reflexivity|].
  rewrite !append_cons. simpl. rewrite IH.
  destruct (u +:+ Py.rstrip v) eqn:E; [|reflexivity].
  destruct u; [|discriminate]. simpl in E. contradiction.
Qed.

(** Stripping on the right removes nothing before a visible character. *)
Lemma rstrip_after_solid m post :
  ends_solid m -> exists post', Py.rstrip (m +:+ post) = m +:+ post'.
Proof.
  intros (m0 & c & -> & Hc). exists (Py.rstrip post).
  rewrite <- !append_assoc.
  assert (Hc' : Py.rstrip (String c "" +:+ post) = String c "" +:+ Py.rstrip post).
  { change (String c "" +:+ post) with (String c post).
    change (String c "" +:+ Py.rstrip post) with (String c (Py.rstrip post)).
    simpl. destruct (Py.rstrip post); [rewrite Hc|]; reflexivity. }
  rewrite rstrip_append; rewrite Hc'; [reflexivity | discriminate].
Qed.

(** A string that starts and ends with a visible character survives the
    stripping of what surrounds it. *)
Lemma strip_keeps_solid pre m post :
  starts_solid m -> ends_solid m -> Py.contains m (Py.strip (pre +:+ m +:+ post)) = true.
Proof.
  intros Hs He. unfold Py.strip.
  assert (Hs' : starts_solid (m +:+ post)).
  { destruct Hs as (c & m' & -> & Hc). exists c, (m' +:+ post). split; [reflexivity | exact Hc]. }
  destruct (lstrip_before_solid pre (m +:+ post) Hs') as [pre' ->].
  destruct (rstrip_after_solid m post He) as [post' Hr].
  rewrite rstrip_append.
  - rewrite Hr. apply contains_middle.
  - rewrite Hr. destruct Hs as (c & m' & -> & _). discriminate.
Qed.

Lemma length_lstrip s : String.length (Py.lstrip s) <= String.length s.
Proof.
  induction s as [|c s IH]; simpl; [lia|]. destruct (Py.is_space c); simpl; lia.
Qed.

Lemma length_rstrip s : String.length (Py.rstrip s) <= String.length s.
Proof.
  induction s as [|c s IH]; simpl; [lia|].
  destruct (Py.rstrip s); [destruct (Py.is_space c)|]; simpl in *; lia.
Qed.

Lemma length_strip s : String.length (Py.strip s) <= String.length s.
Proof.
  unfold Py.strip. pose proof (length_rstrip (Py.lstrip s)). pose proof (length_lstrip s). lia.
Qed.

End StripAndSubstring.

Section PhraseSections.

Import Simple TextShape.

Lemma is_space_lower_char c : Py.is_space (Py.lower_char c) = Py.is_space c.
Proof.
  destruct c as [[] [] [] [] [] [] [] []]; reflexivity.
Qed.

Lemma starts_solid_append s t : starts_solid s -> starts_solid (s +:+ t).
Proof.
  intros (c & s' & -> & Hc). exists c, (s' +:+ t). split; [reflexivity | exact Hc].
Qed.

Lemma ends_solid_append s t : ends_solid t -> ends_solid (s +:+ t).
Proof.
  intros (t' & c & -> & Hc). exists (s +:+ t'), c.
  split; [apply append_assoc | exact Hc].
Qed.

(** A character read without regard to case matches a text that starts
    and ends with a visible character, when the character is visible. *)
Lemma one_ci_solid c s :
  Py.is_space c = false -> ReLang.lang (Re.one_ci c) s -> starts_solid s /\ ends_solid s.
Proof.
  intros Hc H. apply lang_one_ci in H. destruct H as [(d & -> & Hd) | Hx].
  - assert (Hsp : Py.is_space d = false)
      by (rewrite <- is_space_lower_char, Hd, is_space_lower_char; exact Hc).
    split; [exists d, "" | exists "", d]; split; [reflexivity | exact Hsp | reflexivity | exact Hsp].
  - apply ci_extras_cases in Hx. destruct Hx as [-> | [-> | [-> | ->]]].
    + split; [exists "196"%char, (String "176" "") | exists (String "196" ""), "176"%char];
        split; reflexivity.
    + split; [exists "196"%char, (String "177" "") | exists (String "196" ""), "177"%char];
        split; reflexivity.
    + split; [exists "197"%char, (String "191" "") | exists (String "197" ""), "191"%char];
        split; reflexivity.
    + split; [exists "226"%char, (String "132" (String "170" ""))
             | exists (String "226" (String "132" "")), "170"%char];
        split; reflexivity.
Qed.

(** So does a word of visible characters. *)
Lemma lit_ci_solid word s :
  word <> "" -> ReLang.all_chars (fun c => negb (Py.is_space c)) word = true ->
  ReLang.lang (Re.lit_ci word) s -> starts_solid s /\ ends_solid s.
Proof.
  revert s. induction word as [|c word IH]; intros s Hne Hall H; [contradiction|].
  simpl in Hall. apply andb_true_iff in Hall. destruct Hall as [Hc Hall].
  apply negb_true_iff in Hc.
  simpl in H. apply lang_seq_inv in H. destruct H as (s1 & s2 & -> & H1 & H2).
  destruct (one_ci_solid c s1 Hc H1) as [Hs1 He1].
  destruct word as [|c' word].
  - simpl in H2. apply lang_eps_inv in H2. subst s2. rewrite append_nil_r.
    split; assumption.
  - destruct (IH s2 ltac:(discriminate) Hall H2) as [_ He2].
    split; [apply starts_solid_append, Hs1 | apply ends_solid_append, He2].
Qed.

(** A match of a phrase of visible words starts and ends with a visible
    character. *)
Lemma phrase_solid words :
  words <> [] ->
  Forall (fun w => w <> "" /\
                   ReLang.all_chars (fun c => negb (Py.is_space c)) w = true) words ->
  forall m, ReLang.lang (phrase words) m -> starts_solid m /\ ends_solid m.
Proof.
  induction words as [|w words IH]; intros Hne Hall m Hm; [contradiction|].
  apply List.Forall_cons_iff in Hall. destruct Hall as [[Hw Hv] Hall].
  destruct words as [|w' words].
  - simpl in Hm. exact (lit_ci_solid w m Hw Hv Hm).
  - change (phrase (w :: w' :: words))
      with (Re.Seq (Re.lit_ci w) (Re.Seq (Re.Plus Re.ws) (phrase (w' :: words)))) in Hm.
    apply lang_seq_inv in Hm. destruct Hm as (s1 & s2 & -> & H1 & H2).
    apply lang_seq_inv in H2. destruct H2 as (s3 & s4 & -> & _ & H4).
    destruct (lit_ci_solid w s1 Hw Hv H1) as [Hs _].
    destruct (IH ltac:(discriminate) Hall s4 H4) as [_ He4].
    split.
    + apply starts_solid_append, Hs.
    + apply ends_solid_append, ends_solid_append, He4.
Qed.

Lemma high_risk_pattern_solid p m :
  In p high_risk_patterns -> ReLang.lang (snd p) m -> starts_solid m /\ ends_solid m.
Proof.
  intros Hin.
  repeat (destruct Hin as [<-|Hin]; [apply phrase_solid; [discriminate|] |]);
    try destruct Hin;
    repeat (apply List.Forall_cons; [split; [discriminate | reflexivity]|]);
    apply List.Forall_nil.
Qed.

Lemma length_substring_le s : forall n m, String.length (substring n m s) <= m.
Proof.
  induction s as [|c s IH]; intros n m.
  - destruct n, m; simpl; lia.
  - destruct n as [|n]; [destruct m as [|m]|]; simpl; [lia | specialize (IH 0 m); lia | apply IH].
Qed.

(** The window around a match, split at the match. *)
Lemma window_split text a b :
  a <= b -> b <= String.length text ->
  let a' := a - 100 in
  let b' := Nat.min (String.length text) (b + 100) in
  substring a' (b' - a') text =
    substring a' (a - a') text +:+ substring a (b - a) text +:+ substring b (b' - b) text.
Proof.
  intros Hab Hb a' b'.
  replace (b' - a') with ((a - a') + ((b - a) + (b' - b))) by (subst a' b'; lia).
  rewrite substring_split, substring_split.
  replace (a' + (a - a')) with a by (subst a'; lia).
  replace (a + (b - a)) with b by lia.
  reflexivity.
Qed.

Lemma phrase_section_quotes text p a b :
  In p high_risk_patterns -> In (a, b) (Re.finditer (snd p) text) ->
  let s := pattern_section text (fst p) (a, b) in
  let m := substring a (b - a) text in
  section_pattern s = fst p /\ section_risk_level s = HIGH /\
  ReLang.lang (snd p) m /\
  Py.contains m (section_context s) = true /\
  String.length (section_context s) <= (b - a) + 200.
Proof.
  intros Hp Hin s m. split; [reflexivity|]. split; [reflexivity|].
  subst s. rewrite pattern_section_phrase.
  pose proof (finditer_bounds _ _ _ _ Hin) as [Hab Hb].
  assert (Hl : ReLang.lang (snd p) m).
  { unfold Re.finditer in Hin.
    apply (scan_sound (snd p) text "" 0 None 0 a b eq_refl) in Hin. apply Hin. }
  destruct (high_risk_pattern_solid p m Hp Hl) as [Hs He].
  unfold Spec.stripped_section, Spec.window. cbn [section_context fst snd].
  split; [exact Hl|]. split.
  - rewrite (window_split text a b Hab Hb). apply strip_keeps_solid; assumption.
  - etransitivity; [apply length_strip|].
    etransitivity; [apply length_substring_le|]. lia.
Qed.

(** The sections of the first loop quote their match. *)
Lemma phrase_sections_quote text s :
  In s (Spec.stripped_sections text) ->
  exists p a b,
    In p high_risk_patterns /\ In (a, b) (Re.finditer (snd p) text) /\
    section_pattern s = fst p /\ section_risk_level s = HIGH /\
    ReLang.lang (snd p) (substring a (b - a) text) /\
    Py.contains (substring a (b - a) text) (section_context s) = true /\
    String.length (section_context s) <= (b - a) + 200.
Proof.
  intros Hin. unfold Spec.stripped_sections in Hin. apply in_flat_map in Hin.
  destruct Hin as (p & Hp & Hin). apply in_map_iff in Hin.
  destruct Hin as ([a b] & Hs & Hm). exists p, a, b.
  rewrite <- pattern_section_phrase in Hs. subst s.
  split; [exact Hp|]. split; [exact Hm|].
  apply phrase_section_quotes; assumption.
Qed.

(** The sections of the second loop are those of the paragraph step. *)
Lemma paragraph_sections_step text s :
  In s (Spec.paragraph_sections text) ->
  exists para,
    In para (Py.split (Py.nl +:+ Py.nl) text) /\ paragraph_step [] para = [s].
Proof.
  intros Hin. unfold Spec.paragraph_sections in Hin. apply in_flat_map in Hin.
  destruct Hin as (para & Hpara & Hin). exists para. split; [exact Hpara|].
  rewrite paragraph_step_section. change ([] ++ ?l) with l.
  revert Hin. unfold Spec.paragraph_section. cbv zeta.
  generalize (Spec.distinct_keywords para). intros k Hin.
  destruct (3 <=? k)%nat; [|destruct Hin].
  destruct Hin as [<-|[]]. reflexivity.
Qed.

(** Every section returned by [find_high_risk_sections] comes from
    one of the two loops.  A section of the first loop has level HIGH and
    the source text of one of the six phrase patterns as its pattern; its
    context contains the matched text in full, which is in the language
    of that pattern, and is at most 200 characters longer than the match.
    A section of the second loop is the one the paragraph loop appends for
    one of the paragraphs between blank lines. *)
Theorem sections_origin text s :
  In s (find_high_risk_sections text) ->
  (exists p a b,
      In p high_risk_patterns /\ In (a, b) (Re.finditer (snd p) text) /\
      section_pattern s = fst p /\ section_risk_level s = HIGH /\
      ReLang.lang (snd p) (substring a (b - a) text) /\
      Py.contains (substring a (b - a) text) (section_context s) = true /\
      String.length (section_context s) <= (b - a) + 200) \/
  (exists para,
      In para (Py.split (Py.nl +:+ Py.nl) text) /\ paragraph_step [] para = [s]).
Proof.
  intros Hin. rewrite find_high_risk_sections_spec in Hin.
  apply In_firstn, in_app_or in Hin.
  destruct Hin as [Hin|Hin];
    [left; apply phrase_sections_quote | right; apply paragraph_sections_step]; exact Hin.
Qed.

Lemma sections_origin_witness :
  let s := {| section_pattern := "unlimited\s+liability";
              section_context :=
                "The Supplier accepts unlimited liability for any breach."
                +:+ Py.nl +:+ Py.nl +:+
                "Penalty, damages and lawsuit costs are borne by the Client."
                +:+ Py.nl +:+ Py.nl +:+ "Confidential and prop";
              section_risk_level := HIGH |} in
  (exists p a b,
      In p high_risk_patterns /\ In (a, b) (Re.finditer (snd p) Samples.clauses) /\
      section_pattern s = fst p /\ section_risk_level s = HIGH /\
      ReLang.lang (snd p) (substring a (b - a) Samples.clauses) /\
      Py.contains (substring a (b - a) Samples.clauses) (section_context s) = true /\
      String.length (section_context s) <= (b - a) + 200) \/
  (exists para,
      In para (Py.split (Py.nl +:+ Py.nl) Samples.clauses) /\ paragraph_step [] para = [s]).
Proof.
  intros s. apply (sections_origin Samples.clauses s). vm_compute. left. reflexivity.
Defined.

End PhraseSections.

(** * The e-mail addresses of a document *)

Section EmailAddresses.

Import Simple.

Lemma contains_char_cons x c s :
  Py.contains (String x "") (String c s) = Ascii.eqb x c || Py.contains (String x "") s.
Proof.
  simpl. destruct s; rewrite andb_true_r; reflexivity.
Qed.

Lemma all_chars_without p x s :
  p x = false -> ReLang.all_chars p s = true -> Py.contains (String x "") s = false.
Proof.
  intros Hp. induction s as [|c s IH]; [reflexivity|].
  simpl ReLang.all_chars. intros H. apply andb_true_iff in H. destruct H as [Hc Hs].
  rewrite contains_char_cons, (IH Hs).
  destruct (Ascii.eqb_spec x c) as [<-|]; [congruence | reflexivity].
Qed.

Lemma lang_star_cons_nonempty r s : ReLang.lang (Re.Plus r) s ->
  (forall t, ReLang.lang r t -> t <> "") -> s <> "".
Proof.
  intros H Hr. apply lang_seq_inv in H. destruct H as (s1 & s2 & -> & H1 & _).
  apply Hr in H1. destruct s1; [contradiction | discriminate].
Qed.

Lemma lang_chr_nonempty p t : ReLang.lang (Re.Chr p) t -> t <> "".
Proof.
  intros H. apply lang_chr_inv in H. destruct H as (c & -> & _). discriminate.
Qed.

(** The shape of a match of the e-mail pattern. *)
Lemma email_shape e :
  ReLang.lang email_pattern e ->
  exists local rest,
    e = local +:+ "@" +:+ rest /\ local <> "" /\
    Py.contains "@" local = false /\ Py.contains "@" rest = false /\
    Py.contains "." rest = true /\ 4 <= String.length rest.
Proof.
  intros H. unfold email_pattern in H. cbv zeta in H. cbn [seqs] in H.
  apply lang_seq_inv in H. destruct H as (w & u1 & -> & Hw & H).
  inversion Hw; subst. clear Hw.
  apply lang_seq_inv in H. destruct H as (local & u2 & -> & Hlocal & H).
  apply lang_seq_inv in H. destruct H as (at_ & rest & -> & Hat & Hrest).
  apply lang_chr_inv in Hat. destruct Hat as (c & -> & Hc).
  apply Ascii.eqb_eq in Hc. subst c.
  exists local, rest. split; [reflexivity|].
  split; [apply (lang_star_cons_nonempty _ _ Hlocal), lang_chr_nonempty|].
  split; [apply (all_chars_without _ "@" local) with (2 := lang_charset _ _ Hlocal);
          reflexivity|].
  split; [apply (all_chars_without _ "@" rest) with (2 := lang_charset _ _ Hrest);
          reflexivity|].
  apply lang_seq_inv in Hrest. destruct Hrest as (domain & u3 & -> & Hdomain & H).
  apply lang_seq_inv in H. destruct H as (dot & u4 & -> & Hdot & H).
  apply lang_chr_inv in Hdot. destruct Hdot as (c & -> & Hc).
  apply Ascii.eqb_eq in Hc. subst c.
  apply lang_seq_inv in H. destruct H as (tld & u5 & -> & Htld & _).
  cbn [Re.Times] in Htld.
  apply lang_seq_inv in Htld. destruct Htld as (t1 & u6 & -> & Ht1 & Htld).
  apply lang_seq_inv in Htld. destruct Htld as (t2 & u7 & -> & Ht2 & _).
  apply lang_chr_inv in Ht1. destruct Ht1 as (c1 & -> & _).
  apply lang_chr_inv in Ht2. destruct Ht2 as (c2 & -> & _).
  split.
  - apply contains_append_r. reflexivity.
  - assert (Hd : domain <> "")
      by (apply (lang_star_cons_nonempty _ _ Hdomain), lang_chr_nonempty).
    rewrite !length_append. destruct domain; [contradiction|]. simpl. lia.
Qed.

Lemma email_chars c :
  ReLang.charset email_pattern c = true -> Py.is_space c = false.
Proof.
  destruct c as [[] [] [] [] [] [] [] []]; vm_compute; congruence.
Qed.

Lemma emails_of_reader reader e :
  In e (default [] (emails_found (extract_text_features (Readable reader)))) ->
  ReLang.lang email_pattern e.
Proof.
  rewrite text_features_readable. cbn [emails_found].
  cbv [default from_option Datatypes.id].
  change 5%Z with (Z.of_nat 5). rewrite lslice_from_0.
  intros Hin. apply In_firstn in Hin.
  apply (findall_lang email_pattern (full_text_of reader)). exact Hin.
Qed.

(** Every e-mail address that the extractor returns has a local
    part that is not empty, exactly one at sign, a dot after the at sign,
    at least four characters after the at sign, and no whitespace. *)
Theorem emails_of_document file e :
  In e (default [] (emails_found (extract_text_features file))) ->
  (exists local rest,
      e = local +:+ "@" +:+ rest /\ local <> "" /\
      Py.contains "@" local = false /\ Py.contains "@" rest = false /\
      Py.contains "." rest = true /\ 4 <= String.length rest) /\
  ReLang.all_chars (fun c => negb (Py.is_space c)) e = true.
Proof.
  destruct file as [err|reader]; [intros []|].
  intros Hin. apply emails_of_reader in Hin. split; [apply email_shape, Hin|].
  apply (all_chars_weaken (ReLang.charset email_pattern)); [|apply lang_charset, Hin].
  intros c Hc. rewrite (email_chars c Hc). reflexivity.
Qed.

Lemma emails_of_document_witness :
  let e := "jane.doe@example.org" in
  (exists local rest,
      e = local +:+ "@" +:+ rest /\ local <> "" /\
      Py.contains "@" local = false /\ Py.contains "@" rest = false /\
      Py.contains "." rest = true /\ 4 <= String.length rest) /\
  ReLang.all_chars (fun c => negb (Py.is_space c)) e = true.
Proof.
  intros e.
  apply (emails_of_document (Samples.document ["Write to jane.doe@example.org today."]) e).
  vm_compute. left. reflexivity.
Defined.

End EmailAddresses.

(** * The metadata of a document *)

Section MetadataOfDocument.

Import Simple.





(** A document whose creation date cannot be parsed: the metadata hold
    the error alone while the text is analysed. *)
Example metadata_error_on_readable_file :
  let info :=
    {| title := Py.Ok (Some "Lease"); author := Py.Ok None; subject := Py.Ok None;
       creator := Py.Ok None; producer := Py.Ok None;
       creation_date := Py.Raise "time data does not match format";
       modification_date := Py.Ok None |} in
  let file :=
    Readable {| pages := [Some "Penalty clause"]; metadata := Py.Ok (Some info);
                is_encrypted := false |} in
  extract_metadata file = metadata_error "time data does not match format" /\
  error (extract_text_features file) = None /\
  risk_keywords_found (extract_text_features file) = Some 1%Z.
Proof.
  repeat apply conj; vm_compute; reflexivity.
Qed.

End MetadataOfDocument.

(** * The report of a combined analysis *)

Section ReportOfAnalysis.

Import Multimodal Report.

Variable format_1f : R -> string.
Variable str_of_float : R -> string.
Variable round2 : R -> R.

Lemma contains_self_append x s : Py.contains x (x +:+ s) = true.
Proof.
  apply (contains_middle "" x s).
Qed.

Lemma contains_join x sep l : In x l -> Py.contains x (Py.join sep l) = true.
Proof.
  induction l as [|y l IH]; [intros []|].
  intros [->|Hin].
  - destruct l as [|z l]; simpl.
    + rewrite <- (append_nil_r x) at 2. apply contains_self_append.
    + apply contains_self_append.
  - destruct l as [|z l]; [destruct Hin|].
    change (Py.join sep (y :: z :: l)) with (y +:+ sep +:+ Py.join sep (z :: l)).
    apply contains_append_r, contains_append_r, IH, Hin.
Qed.

(** The text features that [extract_text_features] returns have every
    key. *)
Lemma text_features_keys file tf :
  extract_text_features file = Py.Ok tf ->
  exists t p w k,
    text_risk_score tf = Some t /\ page_count tf = Some p /\
    total_words tf = Some w /\ risk_keywords_found tf = Some k.
Proof.
  destruct file as [e|reader]; [discriminate|]. simpl.
  destruct (full_text_of (pages reader) "") as [full_text|e]; [|discriminate].
  unfold Py.bind. intros H. apply Ok_inj in H. subst tf.
  cbn [text_risk_score page_count total_words risk_keywords_found]. eauto 10.
Qed.

(** The visual features have a risk score unless rendering gave no
    image. *)
Lemma visual_risk_score_key render :
  visual_risk_score (extract_visual_features round2 render) = None <-> render = Py.Ok [].
Proof.
  destruct render as [[|[e|img] rest]|e]; simpl; split; intros H;
    try discriminate; reflexivity.
Qed.

Lemma startswith_append_l sub s1 s2 :
  Py.startswith sub s1 = true -> Py.startswith sub (s1 +:+ s2) = true.
Proof.
  revert s1. induction sub as [|c sub IH]; intros s1 H; [reflexivity|].
  destruct s1 as [|d s1]; [discriminate|]. rewrite append_cons. simpl in *.
  apply andb_true_iff in H. destruct H as [Hc Hs]. rewrite Hc. apply IH, Hs.
Qed.

Lemma contains_append_l sub s1 s2 :
  Py.contains sub s1 = true -> Py.contains sub (s1 +:+ s2) = true.
Proof.
  induction s1 as [|c s1 IH]; intros H.
  - simpl in H. destruct sub; [|discriminate]. destruct s2; reflexivity.
  - rewrite append_cons.
    change (Py.contains sub (String c s1))
      with (Py.startswith sub (String c s1) || Py.contains sub s1) in H.
    change (Py.contains sub (String c (s1 +:+ s2)))
      with (Py.startswith sub (String c (s1 +:+ s2)) || Py.contains sub (s1 +:+ s2)).
    apply orb_true_iff in H. apply orb_true_iff. destruct H as [H|H].
    + left. apply (startswith_append_l sub (String c s1) s2 H).
    + right. apply IH, H.
Qed.

(** What [analyze_document] stores. *)
Lemma analyze_document_parts pdf_path file render now results :
  analyze_document round2 pdf_path file render now = Py.Ok results ->
  extract_text_features file = Py.Ok (text_analysis results) /\
  visual_analysis results = extract_visual_features round2 render.
Proof.
  unfold analyze_document.
  destruct (extract_text_features file) as [tf|e]; [|discriminate].
  unfold Py.bind. intros H. apply Ok_inj in H. subst results. split; reflexivity.
Qed.

Ltac find_piece :=
  first [ apply contains_self_append
        | apply contains_append_r; find_piece ].

Ltac find_lines :=
  first [ apply contains_append_l, contains_join; assumption
        | apply contains_append_r; find_lines ].

(** The report of a result of [analyze_document]: when rendering
    gave no image, the visual analysis has no risk score and
    [create_sample_report] raises the KeyError of that key; on every other
    result it returns a report, which quotes the file name and every
    recommendation. *)
Theorem report_of_analysis pdf_path file render now results :
  analyze_document round2 pdf_path file render now = Py.Ok results ->
  (render = Py.Ok [] ->
   create_sample_report format_1f str_of_float results = Py.Raise "'visual_risk_score'") /\
  (render <> Py.Ok [] ->
   exists report,
     create_sample_report format_1f str_of_float results = Py.Ok report /\
     Py.contains (filename results) report = true /\
     forall line, In line (recommendations results) -> Py.contains line report = true).
Proof.
  intros H. apply analyze_document_parts in H. destruct H as [Ht Hv].
  apply text_features_keys in Ht. destruct Ht as (t & p & w & k & Ht & Hp & Hw & Hk).
  unfold create_sample_report. cbv zeta. rewrite Ht, Hp, Hw, Hk, Hv.
  cbn [getitem Py.bind]. split.
  - intros ->. reflexivity.
  - intros Hr.
    destruct (visual_risk_score (extract_visual_features round2 render)) as [v|] eqn:E;
      [|apply visual_risk_score_key in E; contradiction].
    cbn [getitem Py.bind]. eexists. split; [reflexivity|]. split.
    + find_piece.
    + intros line Hin. find_lines.
Qed.

End ReportOfAnalysis.

Lemma report_of_analysis_witness :
  let format := fun _ : R => "0.0" in
  let render := Py.Ok [] in
  exists results,
    Multimodal.analyze_document Samples.round_exact "contract.pdf" Samples.doc_fees render
      "2024-05-06T07:08:09" = Py.Ok results /\
    (render = Py.Ok [] ->
     Report.create_sample_report format format results = Py.Raise "'visual_risk_score'") /\
    (render <> Py.Ok [] ->
     exists report,
       Report.create_sample_report format format results = Py.Ok report /\
       Py.contains (Multimodal.filename results) report = true /\
       forall line,
         In line (Multimodal.recommendations results) -> Py.contains line report = true).
Proof.
  intros format render. eexists. split; [reflexivity|].
  apply (report_of_analysis format format Samples.round_exact "contract.pdf"
           Samples.doc_fees render "2024-05-06T07:08:09").
  reflexivity.
Defined.
